(** * Ecommerce sentiment pipeline: a shallow embedding

    The development follows the three services of the repository:

    - [services/processor/processor.py]: [analyze_product] and
      [process_batch] (the ingestion-to-insight cycle);
    - [services/app/app.py]: [api_daily] (the daily report endpoint),
      [api_summary] and [api_latest] (the two listings);
    - [services/scraper/scraper.py]: [store_product] and [fetch_and_store],
      the only writer of raw documents, which fixes the shape of a raw
      document ([ingested_at] is always an integer number of milliseconds).

    Python values are embedded as the inductive [pyval]; Python floats are
    IEEE binary64 numbers and are embedded as Rocq's primitive floats, so
    thresholds, sorting keys and sums compute exactly as in the interpreter.
    The MongoDB collections are lists of documents in natural order, and the
    processor runs in a small state-and-exception monad over them. *)

From Stdlib Require Import ZArith QArith Qabs String Ascii Floats List Bool Lia.
From stdpp Require Import gmap strings list sorting relations.

Set Warnings "-inexact-float,-register-all".

Local Open Scope Z_scope.

(** ** Python values and the builtins the services call *)

Module Py.

(** The exception classes that can reach the handlers of the services. *)
Inductive exn :=
| PyMongoError
| ValueError
| TypeError
| AttributeError
| OverflowError.

Inductive result (A : Type) :=
| Ok (a : A)
| Raise (e : exn).
Arguments Ok {A} a.
Arguments Raise {A} e.

(** JSON-like values found in a document. *)
Inductive pyval :=
| PNone
| PBool (b : bool)
| PInt (z : Z)
| PFloat (f : float)
| PStr (s : string)
| PDict (d : gmap string pyval).

(** [bool(v)]. *)
Definition truthy (v : pyval) : bool :=
  match v with
  | PNone => false
  | PBool b => b
  | PInt z => negb (z =? 0)
  | PFloat f => negb (PrimFloat.eqb f 0%float)
  | PStr s => negb (String.eqb s "")
  | PDict d => negb (bool_decide (dom d = ∅))
  end.

(** [a or b]. *)
Definition py_or (a b : pyval) : pyval := if truthy a then a else b.

(** [d.get(k)] and [d.get(k, dflt)]. *)
Definition py_get (d : gmap string pyval) (k : string) : pyval :=
  default PNone (d !! k).

Definition py_get_default (d : gmap string pyval) (k : string) (dflt : pyval) : pyval :=
  default dflt (d !! k).

(** [v.get(k)] on an arbitrary value: only a dict has the method. *)
Definition py_method_get (v : pyval) (k : string) : result pyval :=
  match v with
  | PDict d => Ok (py_get d k)
  | _ => Raise AttributeError
  end.

(** *** [int(v)] *)

(** The white space [int] strips from an ASCII string: tab, line feed,
    vertical tab, form feed, carriage return and space. *)
Definition is_space (c : ascii) : bool :=
  let n := Z.of_nat (nat_of_ascii c) in
  ((9 <=? n) && (n <=? 13)) || (n =? 32).

Definition is_digit (c : ascii) : bool :=
  let n := Z.of_nat (nat_of_ascii c) in (48 <=? n) && (n <=? 57).

Definition digit_val (c : ascii) : Z := Z.of_nat (nat_of_ascii c) - 48.

Fixpoint lstrip (s : string) : string :=
  match s with
  | String c s' => if is_space c then lstrip s' else s
  | EmptyString => EmptyString
  end.

Fixpoint string_rev (s acc : string) : string :=
  match s with
  | String c s' => string_rev s' (String c acc)
  | EmptyString => acc
  end.

Definition strip (s : string) : string :=
  string_rev (lstrip (string_rev (lstrip s) "")) "".

(** Decimal digits, where a single underscore may separate two digits. *)
Fixpoint parse_digits (s : string) (acc : Z) (after_digit : bool) : option Z :=
  match s with
  | EmptyString => if after_digit then Some acc else None
  | String c s' =>
      if is_digit c then parse_digits s' (10 * acc + digit_val c) true
      else if Ascii.eqb c "_" && after_digit then parse_digits s' acc false
      else None
  end.

Fixpoint count_digits (s : string) : Z :=
  match s with
  | EmptyString => 0
  | String c s' => (if is_digit c then 1 else 0) + count_digits s'
  end.

(** [int(s)] for an ASCII string in base ten: surrounding white space, an
    optional sign, then digits, of which the interpreter reads at most 4300
    (its default limit). *)
Definition parse_int (s : string) : option Z :=
  if 4300 <? count_digits s then None
  else
    match strip s with
    | String "-" s' => Z.opp <$> parse_digits s' 0 false
    | String "+" s' => parse_digits s' 0 false
    | s' => parse_digits s' 0 false
    end.

(** [parse_int] is [int] on the strings of ASCII characters; outside them
    [int] also reads the decimal digits and the white space of Unicode. The
    values whose conversion [py_int] gives are those that are not a string
    with a character outside ASCII. *)
Fixpoint ascii_only (s : string) : bool :=
  match s with
  | EmptyString => true
  | String c s' => (Z.of_nat (nat_of_ascii c) <? 128) && ascii_only s'
  end.

(** [int(f)] for a float: truncation towards zero. *)
Definition float_trunc (f : float) : result Z :=
  match Prim2SF f with
  | S754_zero _ => Ok 0
  | S754_infinity _ => Raise OverflowError
  | S754_nan => Raise ValueError
  | S754_finite sgn m e =>
      let a := Z.shiftl (Z.pos m) e in Ok (if sgn then - a else a)
  end.

Definition py_int (v : pyval) : result Z :=
  match v with
  | PNone => Raise TypeError
  | PBool b => Ok (Z.b2z b)
  | PInt z => Ok z
  | PFloat f => float_trunc f
  | PStr s => match parse_int s with Some z => Ok z | None => Raise ValueError end
  | PDict _ => Raise TypeError
  end.

Definition ascii_value (v : pyval) : bool :=
  match v with
  | PStr s => ascii_only s
  | _ => true
  end.

(** The integers a document of the store can hold: those of 64 bits. The
    driver raises [OverflowError] when it is to encode another one. *)
Definition fits_int64 (z : Z) : bool := (- 2 ^ 63 <=? z) && (z <? 2 ^ 63).

(** The values whose integers, at any depth, are of 64 bits. *)
Fixpoint encodable (v : pyval) : bool :=
  match v with
  | PInt z => fits_int64 z
  | PDict d => map_fold (fun _ v' acc => encodable v' && acc) true d
  | _ => true
  end.

(** *** [float(v)] *)

(** An integer converts to the nearest binary64 number. *)
Definition Z_to_float (z : Z) : float :=
  SF2Prim (binary_normalize prec emax z 0 false).

Definition float_of_Z (z : Z) : result float :=
  let f := Z_to_float z in
  if PrimFloat.is_infinity f then Raise OverflowError else Ok f.

(** [float_of_str] is the interpreter's decimal-to-binary conversion of a
    string, [None] when the string is not a number. *)
Definition py_float (float_of_str : string -> option float) (v : pyval) : result float :=
  match v with
  | PNone => Raise TypeError
  | PBool b => Ok (if b then 1%float else 0%float)
  | PInt z => float_of_Z z
  | PFloat f => Ok f
  | PStr s => match float_of_str s with Some f => Ok f | None => Raise ValueError end
  | PDict _ => Raise TypeError
  end.

(** [a + b] where the right operand is a string: string concatenation. *)
Definition py_add_str (a : pyval) (b : string) : result string :=
  match a with
  | PStr s => Ok (s ++ b)%string
  | _ => Raise TypeError
  end.

(** [a + b] where the left operand is a string. *)
Definition py_str_add (a : string) (b : pyval) : result string :=
  match b with
  | PStr s => Ok (a ++ s)%string
  | _ => Raise TypeError
  end.

(** [sum(xs)] over floats, starting from the integer [0]: the additions are
    made from left to right, each rounded to binary64. (CPython 3.12 and
    later carry a compensation term along, which can change the last bits of
    the result.) *)
Definition py_sum (xs : list float) : float := fold_left PrimFloat.add xs 0%float.

End Py.
Export Py.

(** ** Documents and collections *)

(** A raw document as [scraper.store_product] writes it: the store assigns
    [_id], the scraper always sets [ingested_at] to an integer number of
    milliseconds, and every other key of the payload (and later [processed],
    [processed_at]) lives in [fields]. *)
Record RawDoc := {
  _id : Z;
  ingested_at : Z;
  fields : gmap string pyval }.

(** The dictionary [proc_doc] built by [process_batch]. *)
Record ProcDoc := {
  product_id : Z;
  title : pyval;
  category : pyval;
  price : float;
  avg_rating : pyval;
  rating_count : pyval;
  sentiment_score : float;
  sentiment_label : string;
  last_processed : string;
  timestamp : Z }.

(** One entry of [top_positive] / [top_negative]. *)
Record Entry := {
  entry_product_id : Z;
  entry_title : pyval;
  entry_score : float }.

(** The [_id] of a document of the [insights] collection: a string, as the
    processor gives its snapshot, or the [ObjectId] the store gives a
    document that is inserted without one. *)
Inductive InsightsId :=
| IdStr (s : string)
| IdObject (oid : Z).

(** A document of the [insights] collection. *)
Record Insights := {
  insights_id : InsightsId;
  generated_at : string;
  top_positive : list Entry;
  top_negative : list Entry;
  avg_sentiment : float }.

(** A reading of [datetime.now(timezone.utc)], seen through the two
    renderings the code takes of it. *)
Record datetime := {
  isoformat : string;
  timestamp_ms : Z }.

(** Operations attempted on the store, in order. *)
Inductive StoreOp :=
| OpFind
| OpUpsert (pid : Z)
| OpMark (id : Z)
| OpReplaceInsights.

Inductive LogRecord :=
| LogMarkFailed (id : Z)
| LogProcessed (n : nat)
| LogMongoError
| LogUnexpected (e : exn).

(** The three collections, the trace of attempted store operations, the log
    and the number of clock readings so far. *)
Record Store := {
  raw_col : list RawDoc;
  proc_col : list ProcDoc;
  insights_col : list Insights;
  ops : list StoreOp;
  log : list LogRecord;
  clock : nat }.

(** What the processor does not control: the clock, and which store
    operations fail. [store_fails w n] tells whether the [n]-th operation
    attempted on the store (counting from 0) raises [PyMongoError]. *)
Record World := {
  now : nat -> datetime;
  store_fails : nat -> bool }.

Definition set_raw (f : list RawDoc -> list RawDoc) (st : Store) : Store :=
  {| raw_col := f (raw_col st); proc_col := proc_col st;
     insights_col := insights_col st; ops := ops st; log := log st;
     clock := clock st |}.

Definition set_proc (f : list ProcDoc -> list ProcDoc) (st : Store) : Store :=
  {| raw_col := raw_col st; proc_col := f (proc_col st);
     insights_col := insights_col st; ops := ops st; log := log st;
     clock := clock st |}.

Definition set_insights (f : list Insights -> list Insights) (st : Store) : Store :=
  {| raw_col := raw_col st; proc_col := proc_col st;
     insights_col := f (insights_col st); ops := ops st; log := log st;
     clock := clock st |}.

Definition push_op (o : StoreOp) (st : Store) : Store :=
  {| raw_col := raw_col st; proc_col := proc_col st;
     insights_col := insights_col st; ops := ops st ++ [o]; log := log st;
     clock := clock st |}.

Definition push_log (r : LogRecord) (st : Store) : Store :=
  {| raw_col := raw_col st; proc_col := proc_col st;
     insights_col := insights_col st; ops := ops st; log := log st ++ [r];
     clock := clock st |}.

Definition tick (st : Store) : Store :=
  {| raw_col := raw_col st; proc_col := proc_col st;
     insights_col := insights_col st; ops := ops st; log := log st;
     clock := S (clock st) |}.

(** ** The state-and-exception monad of the processor *)

Definition M (A : Type) : Type := Store -> result A * Store.

Definition ret {A} (a : A) : M A := fun st => (Ok a, st).

Definition raise {A} (e : exn) : M A := fun st => (Raise e, st).

Definition bind {A B} (m : M A) (k : A -> M B) : M B :=
  fun st =>
    match m st with
    | (Ok a, st') => k a st'
    | (Raise e, st') => (Raise e, st')
    end.

Definition lift {A} (r : result A) : M A := fun st => (r, st).

(** [try: m except Exception as e: h e]. *)
Definition try_except {A} (m : M A) (h : exn -> M A) : M A :=
  fun st =>
    match m st with
    | (Ok a, st') => (Ok a, st')
    | (Raise e, st') => h e st'
    end.

Definition modify (f : Store -> Store) : M unit := fun st => (Ok tt, f st).

Declare Scope py_scope.
Delimit Scope py_scope with py.
Notation "x <- m ;; k" := (bind m (fun x => k))
  (at level 100, m at next level, right associativity) : py_scope.
Notation "m ;; k" := (bind m (fun _ => k))
  (at level 100, right associativity) : py_scope.

(** Sequencing of pure computations that may raise. *)
Definition rbind {A B} (r : result A) (k : A -> result B) : result B :=
  match r with
  | Ok a => k a
  | Raise e => Raise e
  end.

Notation "'try' x := r 'in' k" := (rbind r (fun x => k))
  (at level 100, x name, r at next level, right associativity) : py_scope.

Local Open Scope py_scope.

(** ** Sorting, as the store and [sorted] do it *)

(** [before y x] tells that [y] must stay in front of [x]; an element is
    inserted in front of the first element it need not follow, so elements
    with equal keys keep their input order. *)
Fixpoint insert_sorted {A} (before : A -> A -> bool) (x : A) (l : list A) : list A :=
  match l with
  | [] => [x]
  | y :: l' => if before y x then y :: insert_sorted before x l' else x :: l
  end.

Definition stable_sort {A} (before : A -> A -> bool) (l : list A) : list A :=
  foldr (insert_sorted before) [] l.

(** ** The processor ([services/processor/processor.py]) *)

Section Processor.

(** The two library functions the processor depends on:
    [analyzer.polarity_scores] of VADER, and the interpreter's parsing of a
    string as a float. Both are deterministic. *)
Variable polarity_scores : string -> gmap string pyval.
Variable float_of_str : string -> option float.

(** The clock and the failures of the store. *)
Variable w : World.

(** The threshold policy of [analyze_product] (lines 37-41). *)
Definition label_of (score : float) : string :=
  if PrimFloat.leb 0.05 score then "positive"
  else if PrimFloat.leb score (-0.05) then "negative"
  else "neutral".

Definition analyze_product (doc : gmap string pyval) : result (float * string) :=
  try head := py_add_str (py_or (py_get doc "title") (PStr "")) ". " in
  try text := py_str_add head (py_or (py_get doc "description") (PStr "")) in
  let s := polarity_scores text in
  try score := py_float float_of_str (py_get_default s "compound" (PFloat 0)) in
  Ok (score, label_of score).

(** [{'processed': {'$ne': True}}]. *)
Definition unprocessed (d : RawDoc) : bool :=
  match fields d !! "processed" with
  | Some (PBool true) => false
  | _ => true
  end.

(** [raw_col.find(...).sort('ingested_at', 1).limit(500)]; documents with
    the same [ingested_at] are taken in the order of the collection. *)
Definition select_batch (raw : list RawDoc) : list RawDoc :=
  firstn 500
    (stable_sort (fun y x => ingested_at y <? ingested_at x)
       (List.filter unprocessed raw)).

(** [int(doc.get('product_id') or doc.get('id') or 0)]. *)
Definition doc_pid (doc : gmap string pyval) : result Z :=
  py_int (py_or (py_or (py_get doc "product_id") (py_get doc "id")) (PInt 0)).

(** *** Store primitives *)

Definition utcnow : M datetime :=
  fun st => (Ok (now w (clock st)), tick st).

Definition logger (r : LogRecord) : M unit := modify (push_log r).

(** Every store operation is recorded as attempted, then fails or not as the
    world decides for its position in the trace. *)
Definition store_op (o : StoreOp) (effect : Store -> Store) : M unit :=
  fun st =>
    if store_fails w (length (ops st))
    then (Raise PyMongoError, push_op o st)
    else (Ok tt, effect (push_op o st)).

Definition raw_find : M (list RawDoc) :=
  store_op OpFind id;;
  fun st => (Ok (select_batch (raw_col st)), st).

(** [update_one({'product_id': pid}, {'$set': proc_doc}, upsert=True)]: the
    first document with that [product_id] gets all ten fields of [p], and a
    new document is inserted when there is none. *)
Fixpoint upsert_proc (p : ProcDoc) (col : list ProcDoc) : list ProcDoc :=
  match col with
  | [] => [p]
  | q :: col' =>
      if product_id q =? product_id p then p :: col' else q :: upsert_proc p col'
  end.

(** [{'$set': {'processed': True, 'processed_at': now_ms}}]. *)
Definition set_processed (now_ms : Z) (d : RawDoc) : RawDoc :=
  {| _id := _id d;
     ingested_at := ingested_at d;
     fields := <["processed_at" := PInt now_ms]>
                 (<["processed" := PBool true]> (fields d)) |}.

(** [update_one({'_id': oid}, ...)] without upsert. *)
Fixpoint mark_raw (oid now_ms : Z) (col : list RawDoc) : list RawDoc :=
  match col with
  | [] => []
  | d :: col' =>
      if _id d =? oid then set_processed now_ms d :: col'
      else d :: mark_raw oid now_ms col'
  end.

(** The filter [{'_id': 'latest'}]. *)
Definition is_latest (d : Insights) : bool :=
  match insights_id d with
  | IdStr s => String.eqb s "latest"
  | IdObject _ => false
  end.

(** [replace_one({'_id': 'latest'}, insights, upsert=True)]. *)
Fixpoint replace_latest (i : Insights) (col : list Insights) : list Insights :=
  match col with
  | [] => [i]
  | j :: col' =>
      if is_latest j then i :: col'
      else j :: replace_latest i col'
  end.

(** *** The body of the loop *)

(** Lines 53-68: the transformation of one raw document. *)
Definition transform_doc (doc : RawDoc) : M ProcDoc :=
  pid <- lift (doc_pid (fields doc));;
  sl <- lift (analyze_product (fields doc));;
  now_iso <- utcnow;;
  now_ms <- utcnow;;
  price_ <- lift (py_float float_of_str
                    (py_or (py_get (fields doc) "price") (PFloat 0)));;
  rate <- lift (py_method_get
                  (py_get_default (fields doc) "rating" (PDict ∅)) "rate");;
  count <- lift (py_method_get
                   (py_get_default (fields doc) "rating" (PDict ∅)) "count");;
  ret {| product_id := pid;
         title := py_get (fields doc) "title";
         category := py_get (fields doc) "category";
         price := price_;
         avg_rating := rate;
         rating_count := count;
         sentiment_score := fst sl;
         sentiment_label := snd sl;
         last_processed := isoformat now_iso;
         timestamp := timestamp_ms now_ms |}.

(** Line 69. The driver encodes the command once it has reached the store: a
    [product_id] outside 64 bits makes it raise [OverflowError], and nothing
    is written. The other values of [p] come from the clock, from floats or
    from a document of the store. *)
Definition upsert_doc (p : ProcDoc) : M unit :=
  if fits_int64 (product_id p)
  then store_op (OpUpsert (product_id p)) (set_proc (upsert_proc p))
  else (store_op (OpUpsert (product_id p)) id;; raise OverflowError).

(** Lines 69-74: the upsert, then the guarded mark of the raw document. *)
Definition store_doc (doc : RawDoc) (p : ProcDoc) : M unit :=
  upsert_doc p;;
  try_except
    (store_op (OpMark (_id doc)) (set_raw (mark_raw (_id doc) (timestamp p))))
    (fun _ => logger (LogMarkFailed (_id doc))).

Definition process_doc (doc : RawDoc) : M ProcDoc :=
  p <- transform_doc doc;;
  store_doc doc p;;
  ret p.

(** Lines 52-76: [for doc in cursor], with the two accumulators. *)
Fixpoint for_each (cursor : list RawDoc) (processed_count : nat)
    (all_proc : list ProcDoc) : M (nat * list ProcDoc) :=
  match cursor with
  | [] => ret (processed_count, all_proc)
  | doc :: rest =>
      p <- process_doc doc;;
      for_each rest (S processed_count) (all_proc ++ [p])
  end.

(** *** Insights (lines 78-87) *)

Definition entry_of (d : ProcDoc) : Entry :=
  {| entry_product_id := product_id d;
     entry_title := title d;
     entry_score := sentiment_score d |}.

(** [sorted(all_proc, key=..., reverse=True)]: descending, stable. *)
Definition sorted_by_sent (all_proc : list ProcDoc) : list ProcDoc :=
  stable_sort
    (fun y x => PrimFloat.ltb (sentiment_score x) (sentiment_score y)) all_proc.

(** [l[-5:]]. *)
Definition last5 {A} (l : list A) : list A := skipn (length l - 5)%nat l.

Definition compute_insights (generated : string) (all_proc : list ProcDoc) : Insights :=
  let sorted := sorted_by_sent all_proc in
  {| insights_id := IdStr "latest";
     generated_at := generated;
     top_positive := map entry_of (firstn 5 sorted);
     top_negative := map entry_of (last5 sorted);
     avg_sentiment :=
       PrimFloat.div (py_sum (map sentiment_score all_proc))
         (Z_to_float (Z.of_nat (length all_proc))) |}.

(** *** One cycle *)

Definition process_batch_body : M unit :=
  cursor <- raw_find;;
  r <- for_each cursor 0%nat [];;
  match snd r with
  | [] => ret tt
  | _ :: _ =>
      generated <- utcnow;;
      store_op OpReplaceInsights
        (set_insights (replace_latest (compute_insights (isoformat generated) (snd r))))
  end;;
  logger (LogProcessed (fst r)).

(** The two handlers of [process_batch] only log. *)
Definition handler (e : exn) : M unit :=
  match e with
  | PyMongoError => logger LogMongoError
  | _ => logger (LogUnexpected e)
  end.

Definition process_batch (st : Store) : Store :=
  snd (try_except process_batch_body handler st).

(** [main]: one cycle after the other. *)
Definition run_cycles (n : nat) (st : Store) : Store :=
  Nat.iter n process_batch st.

End Processor.

(** ** The daily report ([services/app/app.py], [api_daily]) *)

Module App.

Record DailyReport := {
  total_posts : nat;
  top_mentions : list (Z * nat);
  insights : option Insights }.

(** [{'status': 'ok', 'data': ...}] with code 200, or the generic
    [{'status': 'error', 'message': 'internal error'}] with code 500. *)
Inductive Response :=
| RespOk (data : DailyReport)
| RespError.

(** [{'ingested_at': {'$gte': since_ms}}]. *)
Definition recent (since_ms : Z) (raw : list RawDoc) : list RawDoc :=
  List.filter (fun d => since_ms <=? ingested_at d) raw.

(** [counts[pid] = counts.get(pid, 0) + 1] on a dict, which keeps its keys in
    insertion order. *)
Fixpoint bump (pid : Z) (counts : list (Z * nat)) : list (Z * nat) :=
  match counts with
  | [] => [(pid, 1%nat)]
  | (k, v) :: counts' =>
      if k =? pid then (k, S v) :: counts' else (k, v) :: bump pid counts'
  end.

Fixpoint count_mentions (docs : list RawDoc) (counts : list (Z * nat)) : result (list (Z * nat)) :=
  match docs with
  | [] => Ok counts
  | d :: docs' =>
      match py_int (py_or (py_get (fields d) "product_id") (PInt 0)) with
      | Ok pid => count_mentions docs' (bump pid counts)
      | Raise e => Raise e
      end
  end.

(** [find_one({'_id': 'latest'})] and [find_one({})]. *)
Definition find_one_latest (col : list Insights) : option Insights :=
  List.find is_latest col.

Definition find_one_any (col : list Insights) : option Insights := head col.

(** Line 63: a document is a non-empty dict, hence true, so [or] moves on to
    the second query exactly when the first one returns [None]. *)
Definition daily_insights (col : list Insights) : option Insights :=
  match find_one_latest col with
  | Some d => Some d
  | None => find_one_any col
  end.

(** [jsonify] renders a document whose [_id] is a string; on an [ObjectId]
    it raises [TypeError]. *)
Definition jsonable (d : Insights) : bool :=
  match insights_id d with
  | IdStr _ => true
  | IdObject _ => false
  end.

(** [since_ms] is one day before the request; [read_ok] tells whether the
    store answers the queries of this request. Every exception, the one of
    [jsonify] included, is answered with the generic error. *)
Definition api_daily (since_ms : Z) (read_ok : bool)
    (raw : list RawDoc) (col : list Insights) : Response :=
  if read_ok then
    let recent_raw := recent since_ms raw in
    match count_mentions recent_raw [] with
    | Ok counts =>
        if from_option jsonable true (daily_insights col) then
          RespOk {| total_posts := length recent_raw;
                    top_mentions :=
                      firstn 10 (stable_sort (fun y x => (snd x <? snd y)%nat) counts);
                    insights := daily_insights col |}
        else RespError
    | Raise _ => RespError
    end
  else RespError.

End App.

(** ** Vocabulary of the properties *)

(** The processed document stored under a product identifier. *)
Definition find_proc (pid : Z) (col : list ProcDoc) : option ProcDoc :=
  List.find (fun q => product_id q =? pid) col.

(** A processed document with its two timestamp fields blanked. *)
Definition erase_timestamps (p : ProcDoc) : ProcDoc :=
  {| product_id := product_id p;
     title := title p;
     category := category p;
     price := price p;
     avg_rating := avg_rating p;
     rating_count := rating_count p;
     sentiment_score := sentiment_score p;
     sentiment_label := sentiment_label p;
     last_processed := "";
     timestamp := 0 |}.

(** What may happen to a raw document: nothing but its keys [processed] and
    [processed_at] changes, and a document that is consumed stays so. *)
Definition raw_step (d d' : RawDoc) : Prop :=
  _id d' = _id d /\
  ingested_at d' = ingested_at d /\
  (forall k, k <> "processed" -> k <> "processed_at" ->
             fields d' !! k = fields d !! k) /\
  (unprocessed d = false -> unprocessed d' = false).

Definition raw_rel (st st' : Store) : Prop :=
  Forall2 raw_step (raw_col st) (raw_col st').

(** The rational number a finite float stands for. *)
Definition float_to_Q (f : float) : option Q :=
  match Prim2SF f with
  | S754_zero _ => Some 0%Q
  | S754_finite s m e =>
      Some ((if s then -1 else 1) * inject_Z (Z.pos m) * Qpower 2 e)%Q
  | _ => None
  end.

(** The trace only grows, and a raw document is still in its place unless
    the trace has since got a mark, for its [_id], that did not fail. *)
Definition kept_unless_marked (w : World) (st st' : Store) : Prop :=
  (exists t, ops st' = ops st ++ t) /\
  forall (i : nat) (d : RawDoc),
    raw_col st !! i = Some d ->
    raw_col st' !! i = Some d \/
    exists k : nat,
      (length (ops st) <= k)%nat /\
      ops st' !! k = Some (OpMark (_id d)) /\
      store_fails w k = false.

(** Log records of failed marks only. *)
Definition marks_only (t : list LogRecord) : Prop :=
  forall r, r ∈ t -> exists id, r = LogMarkFailed id.

(** The insights collection is the same in both stores. *)
Definition same_insights (st st' : Store) : Prop :=
  insights_col st' = insights_col st.

(** The log record the handlers of [process_batch] write for an exception. *)
Definition log_of_exn (e : exn) : LogRecord :=
  match e with
  | PyMongoError => LogMongoError
  | _ => LogUnexpected e
  end.

(** A relation between stores holds across a computation. *)
Definition preserves (R : relation Store) {A} (m : M A) : Prop :=
  forall st, R st (snd (m st)).

(** Ascending order on an integer key. *)
Definition key_le {A} (key : A -> Z) (a b : A) : Prop := key a <= key b.

Definition key_before {A} (key : A -> Z) (y x : A) : bool := key y <? key x.

(** ** Sample data *)

Module Sample.

Local Open Scope float_scope.

Definition raw_doc (oid ts : Z) (kvs : list (string * pyval)) : RawDoc :=
  {| _id := oid; ingested_at := ts; fields := list_to_map kvs |}.

(** A listing as the scraper stores it, reduced to the keys the processor
    reads. *)
Definition listing (i : Z) (name : string) : RawDoc :=
  raw_doc i (1000 + i)
    [("product_id", PInt i); ("title", PStr name); ("price", PFloat 9.5);
     ("rating", PDict {[ "rate" := PFloat 4.5; "count" := PInt 12 ]})].

Definition store_of (raw : list RawDoc) : Store :=
  {| raw_col := raw; proc_col := []; insights_col := []; ops := [];
     log := []; clock := 0 |}.

(** A scorer that reads the compound score off a table. *)
Definition score_table : list (string * float) :=
  [("p01. ", 0.9); ("p02. ", 0.5); ("p03. ", -0.8); ("p04. ", 0.1);
   ("p05. ", -0.9); ("p06. ", 0.0); ("p07. ", 0.3); ("p08. ", -0.3);
   ("p09. ", 0.7); ("p10. ", -0.1); ("p11. ", 0.2)].

Definition table_scores (text : string) : gmap string pyval :=
  match List.find (fun kv => String.eqb (fst kv) text) score_table with
  | Some kv => {[ "compound" := PFloat (snd kv) ]}
  | None => {[ "compound" := PFloat 0 ]}
  end.

Definition no_parse (s : string) : option float := None.

Definition tick_clock (n : nat) : datetime :=
  {| isoformat := "2024-01-01T00:00:00+00:00";
     timestamp_ms := 1704067200000 + Z.of_nat n |}.

(** A world without failures, and one where exactly the operation at
    position [k] of the trace fails. *)
Definition calm : World := {| now := tick_clock; store_fails := fun _ => false |}.

Definition failing_at (k : nat) : World :=
  {| now := tick_clock; store_fails := Nat.eqb k |}.

(** The eleven listings of the top-k example, stored out of order. *)
Definition eleven : list RawDoc :=
  [listing 7 "p07"; listing 2 "p02"; listing 11 "p11"; listing 1 "p01";
   listing 5 "p05"; listing 3 "p03"; listing 9 "p09"; listing 4 "p04";
   listing 10 "p10"; listing 6 "p06"; listing 8 "p08"].

Definition eleven_scores : list float :=
  [0.9; 0.5; -0.8; 0.1; -0.9; 0.0; 0.3; -0.3; 0.7; -0.1; 0.2].

(** A raw document whose identifier is a word, and one without any. *)
Definition word_id : RawDoc :=
  raw_doc 2 1002 [("product_id", PStr "abc"); ("title", PStr "p02")].

Definition no_id : RawDoc :=
  raw_doc 2 1002 [("title", PStr "p02"); ("price", PInt 3)].

Definition three_with_word_id : list RawDoc :=
  [listing 1 "p01"; word_id; listing 3 "p03"].

(** A listing that a previous cycle has consumed. *)
Definition consumed : RawDoc :=
  raw_doc 4 1004
    [("product_id", PInt 4); ("title", PStr "p04"); ("processed", PBool true);
     ("processed_at", PInt 1704067200001)].

Definition run (w : World) (st : Store) : Store :=
  process_batch table_scores no_parse w st.

(** The processed document of [listing i name], with the score and the label
    the table gives it, at clock reading [n]. *)
Definition processed_listing (i : Z) (name : string) (score : float)
    (label : string) (n : nat) : ProcDoc :=
  {| product_id := i;
     title := PStr name;
     category := PNone;
     price := 9.5;
     avg_rating := PFloat 4.5;
     rating_count := PInt 12;
     sentiment_score := score;
     sentiment_label := label;
     last_processed := "2024-01-01T00:00:00+00:00";
     timestamp := 1704067200000 + Z.of_nat n |}.

(** The store in which the cycle over [three_with_word_id] reaches the
    second record, and the store in which that record fails. *)
Definition before_word_id : Store :=
  snd (for_each table_scores no_parse calm [listing 1 "p01"] 0%nat []
         (push_op OpFind (store_of three_with_word_id))).

Definition at_word_id : Store :=
  snd (process_doc table_scores no_parse calm word_id before_word_id).

(** A snapshot that some other writer left in the insights collection. *)
Definition stray_snapshot : Insights :=
  {| insights_id := IdStr "2023-12-31";
     generated_at := "2023-12-31T00:00:00+00:00";
     top_positive := [];
     top_negative := [];
     avg_sentiment := 0 |}.

End Sample.

(** ** The listings of the presentation API ([services/app/app.py],
    [api_summary] and [api_latest]) *)

Module Reads.

(** [{'status': 'ok', 'data': [...]}], or the generic error with code 500. *)
Inductive Response (A : Type) :=
| RespOk (data : list A)
| RespError.
Arguments RespOk {A} data.
Arguments RespError {A}.

(** A raw document under the projection [{'_id': 0}]. *)
Record LatestDoc := {
  latest_ingested_at : Z;
  latest_fields : gmap string pyval }.

Definition project_raw (d : RawDoc) : LatestDoc :=
  {| latest_ingested_at := ingested_at d; latest_fields := fields d |}.

(** [cursor.limit(n)]: [0] means no limit; a negative [n] asks for one batch
    of at most [-n] documents, after which the cursor is closed, and
    [first_batch] is the number of documents the server puts in a first
    batch. *)
Definition apply_limit {A} (first_batch : nat) (limit : Z) (l : list A) : list A :=
  if limit =? 0 then l
  else if limit <? 0 then firstn (Nat.min (Z.to_nat (- limit)) first_batch) l
  else firstn (Z.to_nat limit) l.

(** [api_summary]: every processed document, the last processed first.
    [read_ok] tells whether the store answers the query. *)
Definition api_summary (read_ok : bool) (col : list ProcDoc) : Response ProcDoc :=
  if read_ok then
    RespOk (stable_sort
              (fun y x => String.ltb (last_processed x) (last_processed y)) col)
  else RespError.

(** [api_latest]: [limit_arg] is the query parameter [limit] of the request,
    [None] when the request has none. The driver cannot encode a limit
    beyond 64 bits: the query raises, and the handler answers with the
    generic error. *)
Definition api_latest (first_batch : nat) (limit_arg : option string)
    (read_ok : bool) (raw : list RawDoc) : Response LatestDoc :=
  match parse_int (default "5" limit_arg) with
  | None => RespError
  | Some limit =>
      if read_ok && (Z.abs limit <? 2 ^ 63) then
        RespOk (map project_raw
                  (apply_limit first_batch limit
                     (stable_sort (fun y x => ingested_at x <? ingested_at y) raw)))
      else RespError
  end.

End Reads.

(** ** The scraper ([services/scraper/scraper.py]) *)

Module Scraper.

Section Store.

(** The raw collection compares [_id]s; [id_name v] is the integer that
    stands for the value [v] of a payload's own ["_id"] key, where the raw
    documents of the model carry integers. *)
Variable id_name : pyval -> Z.

(** [dict(p)] for a value of the decoded JSON: a JSON object is copied, the
    empty string gives the empty dict, a non-empty string raises
    [ValueError] (its elements have length 1), anything else is not
    iterable. *)
Definition py_dict (p : pyval) : result (gmap string pyval) :=
  match p with
  | PDict d => Ok d
  | PStr s => if String.eqb s "" then Ok ∅ else Raise ValueError
  | _ => Raise TypeError
  end.

(** The dict [doc] of [store_product], typed as the raw collection has it:
    its ["_id"] key if it has one, its ["ingested_at"], and the other
    keys. *)
Record Doc := {
  doc_id : option Z;
  doc_ingested_at : Z;
  doc_body : gmap string pyval }.

(** Lines 38-44: [doc = dict(p)], then the three assignments. *)
Definition scraped (p : pyval) (now_ms : Z) : result Doc :=
  try d := py_dict p in
  try pid := py_int (py_get_default d "id" (PInt 0)) in
  Ok {| doc_id := id_name <$> d !! "_id";
        doc_ingested_at := now_ms;
        doc_body := <["raw_payload" := p]>
                      (<["product_id" := PInt pid]>
                         (delete "ingested_at" (delete "_id" d))) |}.

(** [doc['product_id']], read back from the dict. *)
Definition doc_product_id (doc : Doc) : Z :=
  match doc_body doc !! "product_id" with
  | Some (PInt pid) => pid
  | _ => 0
  end.

(** The stored form of a document whose [_id] is [oid]. *)
Definition to_raw (oid : Z) (doc : Doc) : RawDoc :=
  {| _id := oid; ingested_at := doc_ingested_at doc; fields := doc_body doc |}.

(** The filter [{'product_id': pid}]: numbers are compared by value, and no
    other value equals a number. *)
Definition matches_pid (pid : Z) (d : RawDoc) : bool :=
  match fields d !! "product_id" with
  | Some (PInt z) => z =? pid
  | Some (PFloat f) =>
      match float_trunc f with
      | Ok z => (z =? pid) && PrimFloat.eqb (Z_to_float z) f
      | Raise _ => false
      end
  | _ => false
  end.

(** [{'$set': doc}] on a stored document: the keys of [doc] are written over
    the document, which keeps its other keys; writing another ["_id"] is
    refused by the store. *)
Definition set_onto (doc : Doc) (d : RawDoc) : result RawDoc :=
  match doc_id doc with
  | Some oid =>
      if oid =? _id d
      then Ok {| _id := _id d; ingested_at := doc_ingested_at doc;
                 fields := doc_body doc ∪ fields d |}
      else Raise PyMongoError
  | None =>
      Ok {| _id := _id d; ingested_at := doc_ingested_at doc;
            fields := doc_body doc ∪ fields d |}
  end.

(** The insertion of a document under [oid]: refused when the collection has
    a document with that [_id]. *)
Definition insert_as (oid : Z) (doc : Doc) (raw : list RawDoc) : result (list RawDoc) :=
  if existsb (fun d => _id d =? oid) raw then Raise PyMongoError
  else Ok (raw ++ [to_raw oid doc]).

(** [col.update_one({'product_id': pid}, {'$set': doc}, upsert=True)] once
    the store is reached: the first document that matches is updated, and
    without one the dict is inserted, under its own ["_id"] or under the new
    [ObjectId] [new_id]. *)
Fixpoint update_first (pid : Z) (doc : Doc) (raw : list RawDoc) : option (result (list RawDoc)) :=
  match raw with
  | [] => None
  | d :: raw' =>
      if matches_pid pid d then
        Some match set_onto doc d with
             | Ok d' => Ok (d' :: raw')
             | Raise e => Raise e
             end
      else
        match update_first pid doc raw' with
        | Some (Ok raw'') => Some (Ok (d :: raw''))
        | Some (Raise e) => Some (Raise e)
        | None => None
        end
  end.

Definition update_one (new_id : Z) (fails : option exn) (pid : Z) (doc : Doc)
    (raw : list RawDoc) : result (list RawDoc) :=
  match fails with
  | Some e => Raise e
  | None =>
      match update_first pid doc raw with
      | Some r => r
      | None => insert_as (default new_id (doc_id doc)) doc raw
      end
  end.

(** [col.insert_one(doc)]: the driver first gives [doc] an ["_id"] when it
    has none, in place, so that the caller's dict carries it whatever
    happens next. The result comes with the dict as the call leaves it. *)
Definition insert_one (new_id : Z) (fails : option exn) (doc : Doc)
    (raw : list RawDoc) : result (list RawDoc) * Doc :=
  let oid := default new_id (doc_id doc) in
  let doc' := {| doc_id := Some oid; doc_ingested_at := doc_ingested_at doc;
                 doc_body := doc_body doc |} in
  (match fails with
   | Some e => Raise e
   | None => insert_as oid doc' raw
   end, doc').

(** What one call of [store_product] meets: the clock, the [ObjectId] that
    would be generated, and the exception, if any, that keeps the insertion
    or the update from reaching the collection ([PyMongoError] for the
    network or the server, another one when the driver cannot encode the
    document). *)
Record Call := {
  call_now : Z;
  call_new_id : Z;
  insert_fails : option exn;
  update_fails : option exn }.

(** [store_product(p)], with [strategy] the value of [SCRAPER_STRATEGY]. *)
Definition store_product (strategy : string) (c : Call) (p : pyval)
    (raw : list RawDoc) : result (list RawDoc) :=
  try doc := scraped p (call_now c) in
  if String.eqb strategy "upsert" then
    update_one (call_new_id c) (update_fails c) (doc_product_id doc) doc raw
  else
    match insert_one (call_new_id c) (insert_fails c) doc raw with
    | (Ok raw', _) => Ok raw'
    | (Raise _, doc') =>
        update_one (call_new_id c) (update_fails c) (doc_product_id doc') doc' raw
    end.

(** What lines 58-60 of [fetch_and_store] give: a [RequestException], or the
    decoded body, [None] when it is not a list. *)
Inductive Fetched :=
| RequestFailed
| Body (data : option (list pyval)).

Inductive ScraperLog :=
| LogStored (n : nat)
| LogUnexpectedShape
| LogRequestFailed
| LogStoreFailed.

(** How [fetch_and_store] ends: it returns, or an exception that none of its
    handlers catches leaves it (and [main], which catches
    [KeyboardInterrupt] only). *)
Inductive Outcome :=
| Returned
| Escaped (e : exn).

(** [for item in data: store_product(item)], the [k]-th call in the world
    [calls k]. *)
Fixpoint store_all (strategy : string) (calls : nat -> Call) (k : nat)
    (items : list pyval) (raw : list RawDoc) : result unit * list RawDoc :=
  match items with
  | [] => (Ok tt, raw)
  | p :: rest =>
      match store_product strategy (calls k) p raw with
      | Ok raw' => store_all strategy calls (S k) rest raw'
      | Raise e => (Raise e, raw)
      end
  end.

Definition fetch_and_store (strategy : string) (calls : nat -> Call)
    (fetched : Fetched) (raw : list RawDoc)
    : Outcome * list RawDoc * list ScraperLog :=
  match fetched with
  | RequestFailed => (Returned, raw, [LogRequestFailed])
  | Body None => (Returned, raw, [LogUnexpectedShape])
  | Body (Some items) =>
      match store_all strategy calls 0 items raw with
      | (Ok _, raw') => (Returned, raw', [LogStored (length items)])
      | (Raise PyMongoError, raw') => (Returned, raw', [LogStoreFailed])
      | (Raise e, raw') => (Escaped e, raw', [])
      end
  end.

End Store.

(** A payload that is not a JSON object with the key [k]. *)
Definition payload_lacks (k : string) (p : pyval) : Prop :=
  forall d, p = PDict d -> d !! k = None.

(** An item whose ["id"], where it is a string, is made of ASCII
    characters: the items on which [scraped] raises exactly when the
    interpreter does. *)
Definition ascii_id (p : pyval) : bool :=
  match p with
  | PDict d => ascii_value (py_get_default d "id" (PInt 0))
  | _ => true
  end.

(** A JSON object without ["_id"] whose ["id"], if it has one, converts to
    an integer, and whose integers are all of 64 bits, the converted one
    included. *)
Definition plain_item (p : pyval) : Prop :=
  exists d pid, p = PDict d /\ d !! "_id" = None /\
                py_int (py_get_default d "id" (PInt 0)) = Ok pid /\
                fits_int64 pid = true /\ encodable p = true.

End Scraper.

(** ** Vocabulary of the further properties *)

(** The processed collection keeps one document per product identifier, and
    never loses an identifier. *)
Definition one_per_product (st st' : Store) : Prop :=
  (NoDup (map product_id (proc_col st)) ->
   NoDup (map product_id (proc_col st'))) /\
  (forall pid, pid ∈ map product_id (proc_col st) ->
               pid ∈ map product_id (proc_col st')).

(** A raw document whose transformation succeeds, whatever the clock, with
    an identifier that the store can hold. *)
Definition transformable (ps : string -> gmap string pyval)
    (fs : string -> option float) (d : RawDoc) : Prop :=
  exists pid sl price_ rate count,
    doc_pid (fields d) = Ok pid /\
    fits_int64 pid = true /\
    analyze_product ps fs (fields d) = Ok sl /\
    py_float fs (py_or (py_get (fields d) "price") (PFloat 0)) = Ok price_ /\
    py_method_get (py_get_default (fields d) "rating" (PDict ∅)) "rate" = Ok rate /\
    py_method_get (py_get_default (fields d) "rating" (PDict ∅)) "count" = Ok count.

(** The documents of [ids] are all consumed in the store. *)
Definition consumed_ids (ids : list Z) (st : Store) : Prop :=
  forall d, d ∈ raw_col st -> _id d ∈ ids -> unprocessed d = false.

(** The number of documents of the insights collection with [_id]
    ["latest"]. *)
Definition latest_count (col : list Insights) : nat :=
  length (List.filter is_latest col).

(** [int(d.get('product_id') or 0)], the identifier under which the daily
    report counts a raw document, and the number of documents counted under
    [pid]. *)
Definition mention_of (d : RawDoc) : result Z :=
  py_int (py_or (py_get (fields d) "product_id") (PInt 0)).

Definition mentions (pid : Z) (docs : list RawDoc) : nat :=
  length (List.filter
            (fun d => match mention_of d with
                      | Ok z => z =? pid
                      | Raise _ => false
                      end) docs).

(** The count a dict of counts holds for [pid]. *)
Fixpoint count_in (pid : Z) (counts : list (Z * nat)) : nat :=
  match counts with
  | [] => 0
  | (k, v) :: counts' =>
      ((if (k =? pid)%Z then v else 0) + count_in pid counts')%nat
  end.


(** [transformable], decided by running the five conversions. *)
Definition converts {A} (r : result A) : bool :=
  match r with
  | Ok _ => true
  | Raise _ => false
  end.

Definition transformableb (ps : string -> gmap string pyval)
    (fs : string -> option float) (d : RawDoc) : bool :=
  converts (doc_pid (fields d)) &&
  match doc_pid (fields d) with Ok pid => fits_int64 pid | Raise _ => false end &&
  converts (analyze_product ps fs (fields d)) &&
  converts (py_float fs (py_or (py_get (fields d) "price") (PFloat 0))) &&
  converts (py_method_get (py_get_default (fields d) "rating" (PDict ∅)) "rate") &&
  converts (py_method_get (py_get_default (fields d) "rating" (PDict ∅)) "count").

(** ** Further sample data *)

Module Cases.

Import Sample.

(** Two listings consumed by a first cycle, and one of the products scraped
    again since. *)
Definition rescraped : Store :=
  set_raw (fun raw => raw ++ [raw_doc 12 2000 [("product_id", PInt 1);
                                               ("title", PStr "p03")]])
    (run calm (store_of [listing 1 "p01"; listing 2 "p02"])).

(** The processed document of the listing scraped again. *)
Definition processed_again : ProcDoc :=
  {| product_id := 1;
     title := PStr "p03";
     category := PNone;
     price := 0;
     avg_rating := PNone;
     rating_count := PNone;
     sentiment_score := (-0.8)%float;
     sentiment_label := "negative";
     last_processed := "2024-01-01T00:00:00+00:00";
     timestamp := 1704067200006 |}.

(** The store in which the loop over that listing ends. *)
Definition after_loop : Store :=
  snd (for_each table_scores no_parse calm (select_batch (raw_col rescraped))
         0%nat [] (push_op OpFind rescraped)).

(** Two listings, the store in which the first is transformed in a cycle,
    and the store in which the loop over both ends when only the mark of
    the first fails. *)
Definition two_listings : list RawDoc := [listing 1 "p01"; listing 2 "p02"].

Definition first_transformed : Store :=
  tick (tick (push_op OpFind (store_of two_listings))).

Definition both_processed : Store :=
  snd (for_each table_scores no_parse (failing_at 2) two_listings 0%nat []
         (push_op OpFind (store_of two_listings))).

(** A world in which the store is lost from operation [k] on. *)
Definition down_from (k : nat) : World :=
  {| now := tick_clock; store_fails := fun n => (k <=? n)%nat |}.


(** A raw document with an identifier and nothing else. *)
Definition bare : RawDoc := raw_doc 5 1005 [("product_id", PInt 5)].

(** A product as the source API gives it, and the dict [store_product]
    builds from it at [now_ms]. *)
Definition payload (i : Z) (name : string) : pyval :=
  PDict (list_to_map [("id", PInt i); ("title", PStr name);
                      ("price", PFloat 9.5%float)]).

Definition payload_doc (i : Z) (name : string) (now_ms : Z) : Scraper.Doc :=
  {| Scraper.doc_id := None;
     Scraper.doc_ingested_at := now_ms;
     Scraper.doc_body :=
       list_to_map [("id", PInt i); ("title", PStr name);
                    ("price", PFloat 9.5%float); ("product_id", PInt i);
                    ("raw_payload", payload i name)] |}.

(** A product whose identifier is a word. *)
Definition word_payload : pyval :=
  PDict (list_to_map [("id", PStr "abc"); ("title", PStr "p02")]).

(** No payload of the samples has an ["_id"] of its own. *)
Definition no_names (v : pyval) : Z := 0.

(** Calls that reach the store, calls whose update at position [n] does not,
    and a call whose insertion does not. *)
Definition steady (k : nat) : Scraper.Call :=
  {| Scraper.call_now := 5000 + Z.of_nat k;
     Scraper.call_new_id := 100 + Z.of_nat k;
     Scraper.insert_fails := None;
     Scraper.update_fails := None |}.

Definition update_down_at (n k : nat) : Scraper.Call :=
  {| Scraper.call_now := 5000 + Z.of_nat k;
     Scraper.call_new_id := 100 + Z.of_nat k;
     Scraper.insert_fails := None;
     Scraper.update_fails := if Nat.eqb n k then Some PyMongoError else None |}.

Definition insert_down : Scraper.Call :=
  {| Scraper.call_now := 5000;
     Scraper.call_new_id := 100;
     Scraper.insert_fails := Some PyMongoError;
     Scraper.update_fails := None |}.

(** The consumed listing of product 4 after the same product is scraped
    again under the [upsert] strategy. *)
Definition consumed_again : RawDoc :=
  raw_doc 4 5000
    [("product_id", PInt 4); ("title", PStr "p04"); ("processed", PBool true);
     ("processed_at", PInt 1704067200001); ("id", PInt 4);
     ("price", PFloat 9.5%float); ("raw_payload", payload 4 "p04")].

End Cases.

(** * Properties *)

(** ** Floating-point comparisons *)

Section Thresholds.

Local Open Scope float_scope.

(** [congruence] is avoided on purpose: it does not scale to the 53-bit
    mantissas of the goals. *)
Ltac close_bool := intros; first [reflexivity | discriminate].







End Thresholds.

(** ** Sorting *)

Section Sorting.

Context {A : Type}.

Lemma insert_sorted_perm (before : A -> A -> bool) (x : A) (l : list A) :
  insert_sorted before x l ≡ₚ x :: l.
Proof.
  induction l as [|y l IH]; simpl; [done|].
  destruct (before y x); [|done].
  rewrite IH. apply Permutation_swap.
Qed.

Lemma stable_sort_perm (before : A -> A -> bool) (l : list A) :
  stable_sort before l ≡ₚ l.
Proof.
  induction l as [|x l IH]; [done|].
  change (stable_sort before (x :: l))
    with (insert_sorted before x (stable_sort before l)).
  rewrite insert_sorted_perm. by f_equiv.
Qed.

Lemma stable_sort_length (before : A -> A -> bool) (l : list A) :
  length (stable_sort before l) = length l.
Proof. apply Permutation_length, stable_sort_perm. Qed.

Variable key : A -> Z.

Lemma insert_sorted_asc (x : A) (l : list A) :
  StronglySorted (key_le key) l ->
  StronglySorted (key_le key) (insert_sorted (key_before key) x l).
Proof.
  induction 1 as [|y l Hl IH Hy]; simpl.
  - repeat constructor.
  - unfold key_before at 1. destruct (key y <? key x) eqn:E.
    + constructor; [exact IH|].
      rewrite insert_sorted_perm. constructor; [|exact Hy].
      unfold key_le. lia.
    + constructor; [by constructor|].
      constructor; [unfold key_le; lia|].
      eapply Forall_impl; [exact Hy|]. unfold key_le. intros; lia.
Qed.

Lemma stable_sort_asc (l : list A) :
  StronglySorted (key_le key) (stable_sort (key_before key) l).
Proof.
  induction l as [|x l IH]; [constructor|].
  apply insert_sorted_asc, IH.
Qed.

Lemma StronglySorted_firstn (R : A -> A -> Prop) (n : nat) (l : list A) :
  StronglySorted R l -> StronglySorted R (firstn n l).
Proof.
  intros H. revert n. induction H as [|x l Hl IH Hx]; intros [|n]; simpl;
    try constructor; [apply IH|].
  apply Forall_take, Hx.
Qed.

End Sorting.

Lemma sorted_take_drop {A} (R : A -> A -> Prop) (n : nat) (l : list A) (a b : A) :
  StronglySorted R l -> a ∈ take n l -> b ∈ drop n l -> R a b.
Proof.
  intros H. revert n. induction H as [|x l Hl IH Hx]; intros n Ha Hb.
  - rewrite take_nil in Ha. by apply elem_of_nil in Ha.
  - destruct n as [|n]; simpl in *.
    + by apply elem_of_nil in Ha.
    + apply elem_of_cons in Ha as [->|Ha].
      * rewrite Forall_forall in Hx. apply Hx.
        by apply (subseteq_drop n).
      * by apply (IH n).
Qed.

(** Sorting on a key commutes with projecting the key. *)
Lemma map_insert_sorted {A B} (f : A -> B) (lt : B -> B -> bool) (x : A) (l : list A) :
  map f (insert_sorted (fun y x => lt (f y) (f x)) x l)
  = insert_sorted lt (f x) (map f l).
Proof.
  induction l as [|y l IH]; simpl; [done|].
  destruct (lt (f y) (f x)); simpl; [by rewrite IH|done].
Qed.

Lemma map_stable_sort {A B} (f : A -> B) (lt : B -> B -> bool) (l : list A) :
  map f (stable_sort (fun y x => lt (f y) (f x)) l) = stable_sort lt (map f l).
Proof.
  induction l as [|x l IH]; [done|].
  change (stable_sort (fun y x => lt (f y) (f x)) (x :: l))
    with (insert_sorted (fun y x => lt (f y) (f x)) x
            (stable_sort (fun y x => lt (f y) (f x)) l)).
  rewrite map_insert_sorted, IH. done.
Qed.

(** ** What a cycle can do to the store

    A relation between stores that is a preorder and holds across each
    primitive update holds across every monadic computation built from them:
    the loop body, the loop and the whole cycle. *)

Section Preservation.

Variable polarity_scores : string -> gmap string pyval.
Variable float_of_str : string -> option float.
Variable w : World.

Variable R : relation Store.
Context `{!PreOrder R}.

Abbreviation preserves := (preserves R).

Lemma preserves_ret {A} (a : A) : preserves (ret a).
Proof. intros st. reflexivity. Qed.

Lemma preserves_lift {A} (r : result A) : preserves (lift r).
Proof. intros st. reflexivity. Qed.

Lemma preserves_bind {A B} (m : M A) (k : A -> M B) :
  preserves m -> (forall a, preserves (k a)) -> preserves (bind m k).
Proof.
  intros Hm Hk st. unfold bind. specialize (Hm st).
  destruct (m st) as [[a|e] st1]; simpl in *; [|exact Hm].
  etransitivity; [exact Hm|apply Hk].
Qed.

Lemma preserves_try {A} (m : M A) (h : exn -> M A) :
  preserves m -> (forall e, preserves (h e)) -> preserves (try_except m h).
Proof.
  intros Hm Hh st. unfold try_except. specialize (Hm st).
  destruct (m st) as [[a|e] st1]; simpl in *; [exact Hm|].
  etransitivity; [exact Hm|apply Hh].
Qed.

(** The primitive updates: a reading of the clock, a log record, a store
    operation that fails, an upsert that is not sent, and each store
    operation that succeeds. *)
Hypothesis R_tick : forall st, R st (tick st).
Hypothesis R_log : forall r st, R st (push_log r st).
Hypothesis R_fail : forall o st,
  store_fails w (length (ops st)) = true -> R st (push_op o st).
Hypothesis R_find : forall st,
  store_fails w (length (ops st)) = false -> R st (push_op OpFind st).
Hypothesis R_upsert : forall p st,
  store_fails w (length (ops st)) = false ->
  R st (set_proc (upsert_proc p) (push_op (OpUpsert (product_id p)) st)).
Hypothesis R_unsent : forall pid st,
  store_fails w (length (ops st)) = false -> R st (push_op (OpUpsert pid) st).
Hypothesis R_mark : forall oid ms st,
  store_fails w (length (ops st)) = false ->
  R st (set_raw (mark_raw oid ms) (push_op (OpMark oid) st)).

Lemma preserves_utcnow : preserves (utcnow w).
Proof. intros st. apply R_tick. Qed.

Lemma preserves_logger (r : LogRecord) : preserves (logger r).
Proof. intros st. apply R_log. Qed.

Lemma preserves_store_op (o : StoreOp) (effect : Store -> Store) :
  (forall st, store_fails w (length (ops st)) = false ->
              R st (effect (push_op o st))) ->
  preserves (store_op w o effect).
Proof.
  intros He st. unfold store_op.
  destruct (store_fails w (length (ops st))) eqn:E; simpl.
  - by apply R_fail.
  - by apply He.
Qed.

Lemma preserves_transform_doc (doc : RawDoc) :
  preserves (transform_doc polarity_scores float_of_str w doc).
Proof.
  unfold transform_doc.
  repeat first [ apply preserves_bind; [|intros ?]
               | apply preserves_lift | apply preserves_utcnow
               | apply preserves_ret ].
Qed.

Lemma preserves_upsert_doc (p : ProcDoc) : preserves (upsert_doc w p).
Proof.
  unfold upsert_doc. destruct (fits_int64 (product_id p)).
  - apply preserves_store_op. intros st. apply R_upsert.
  - apply preserves_bind; [|intros _ st; reflexivity].
    apply preserves_store_op. intros st. apply R_unsent.
Qed.

Lemma preserves_store_doc (doc : RawDoc) (p : ProcDoc) :
  preserves (store_doc w doc p).
Proof.
  unfold store_doc. apply preserves_bind; [|intros _].
  - apply preserves_upsert_doc.
  - apply preserves_try; [|intros _; apply preserves_logger].
    apply preserves_store_op. intros st. apply R_mark.
Qed.

Lemma preserves_process_doc (doc : RawDoc) :
  preserves (process_doc polarity_scores float_of_str w doc).
Proof.
  unfold process_doc. apply preserves_bind; [apply preserves_transform_doc|].
  intros p. apply preserves_bind; [apply preserves_store_doc|].
  intros _. apply preserves_ret.
Qed.

Lemma preserves_for_each (cursor : list RawDoc) (n : nat) (acc : list ProcDoc) :
  preserves (for_each polarity_scores float_of_str w cursor n acc).
Proof.
  revert n acc. induction cursor as [|doc rest IH]; intros n acc; simpl.
  - apply preserves_ret.
  - apply preserves_bind; [apply preserves_process_doc|]. intros p. apply IH.
Qed.

Lemma preserves_raw_find : preserves (raw_find w).
Proof.
  unfold raw_find. apply preserves_bind; [|intros _ st; reflexivity].
  apply preserves_store_op. exact R_find.
Qed.

Hypothesis R_replace : forall i st,
  store_fails w (length (ops st)) = false ->
  R st (set_insights (replace_latest i) (push_op OpReplaceInsights st)).

Lemma preserves_process_batch (st : Store) :
  R st (process_batch polarity_scores float_of_str w st).
Proof.
  unfold process_batch. revert st.
  apply preserves_try.
  - unfold process_batch_body.
    apply preserves_bind; [apply preserves_raw_find|]. intros cursor.
    apply preserves_bind; [apply preserves_for_each|]. intros [n acc].
    apply preserves_bind; [|intros _; apply preserves_logger].
    destruct acc as [|p acc]; simpl; [apply preserves_ret|].
    apply preserves_bind; [apply preserves_utcnow|]. intros t.
    apply preserves_store_op. intros st. apply R_replace.
  - intros []; apply preserves_logger.
Qed.

End Preservation.

(** ** The sentiment label *)

Lemma analyze_product_label ps fs (doc : gmap string pyval) score lbl :
  analyze_product ps fs doc = Ok (score, lbl) -> lbl = label_of score.
Proof.
  unfold analyze_product, rbind.
  destruct (py_add_str _ _); [|discriminate].
  destruct (py_str_add _ _); [|discriminate].
  destruct (py_float _ _); [|discriminate].
  intros [= <- <-]. reflexivity.
Qed.


(** ** The batch selector *)

Lemma unprocessed_flag (d : RawDoc) :
  unprocessed d = true <-> fields d !! "processed" <> Some (PBool true).
Proof.
  unfold unprocessed.
  destruct (fields d !! "processed") as [[| [] | | | |]|]; split; congruence.
Qed.

Lemma unprocessed_false (d : RawDoc) :
  unprocessed d = false <-> fields d !! "processed" = Some (PBool true).
Proof.
  unfold unprocessed.
  destruct (fields d !! "processed") as [[| [] | | | |]|]; split; congruence.
Qed.

Lemma select_batch_elem (raw : list RawDoc) (d : RawDoc) :
  d ∈ select_batch raw -> d ∈ raw /\ unprocessed d = true.
Proof.
  unfold select_batch. intros H.
  apply (subseteq_take 500) in H. rewrite stable_sort_perm in H.
  apply list_elem_of_In, filter_In in H as [H1 H2].
  split; [by apply list_elem_of_In|done].
Qed.

Lemma select_batch_none (raw : list RawDoc) :
  (forall d, d ∈ raw -> unprocessed d = false) -> select_batch raw = [].
Proof.
  intros H. unfold select_batch.
  replace (List.filter unprocessed raw) with (@nil RawDoc); [done|].
  symmetry. induction raw as [|d raw IH]; simpl; [done|].
  rewrite (H d) by constructor. apply IH. intros d' Hd'. apply H. by constructor.
Qed.

Lemma raw_find_eq (w : World) (st : Store) :
  raw_find w st
  = if store_fails w (length (ops st))
    then (Raise PyMongoError, push_op OpFind st)
    else (Ok (select_batch (raw_col st)), push_op OpFind st).
Proof.
  cbv beta delta [raw_find bind store_op].
  destruct (store_fails w (length (ops st))); reflexivity.
Qed.

(** The query itself never writes to a collection. *)
Lemma raw_find_pure (w : World) (st : Store) :
  raw_col (snd (raw_find w st)) = raw_col st /\
  proc_col (snd (raw_find w st)) = proc_col st /\
  insights_col (snd (raw_find w st)) = insights_col st /\
  (fst (raw_find w st) = Ok (select_batch (raw_col st)) \/
   fst (raw_find w st) = Raise PyMongoError).
Proof.
  rewrite raw_find_eq.
  destruct (store_fails w (length (ops st))); simpl; auto.
Qed.

(** A cycle whose selection is empty: the query is the only operation on the
    store, and no collection changes. *)
Lemma empty_batch_cycle ps fs (w : World) (st : Store) :
  select_batch (raw_col st) = [] ->
  process_batch ps fs w st
  = push_log (if store_fails w (length (ops st)) then LogMongoError
              else LogProcessed 0) (push_op OpFind st).
Proof.
  intros H. cbv beta delta [process_batch try_except process_batch_body bind].
  rewrite raw_find_eq.
  destruct (store_fails w (length (ops st))); [reflexivity|].
  rewrite H. reflexivity.
Qed.

(** The selection and the unconsumed documents it leaves out: together they
    are the unconsumed documents, and no document that is left out was
    ingested before a selected one. *)
Lemma select_batch_split (raw : list RawDoc) :
  exists later,
    select_batch raw ++ later ≡ₚ List.filter unprocessed raw /\
    forall d d', d ∈ select_batch raw -> d' ∈ later ->
                 ingested_at d <= ingested_at d'.
Proof.
  unfold select_batch.
  set (sorted := stable_sort (fun y x => ingested_at y <? ingested_at x)
                   (List.filter unprocessed raw)).
  exists (drop 500 sorted). split.
  - rewrite take_drop. apply stable_sort_perm.
  - intros d d'. apply (sorted_take_drop (key_le ingested_at) 500 sorted).
    apply stable_sort_asc.
Qed.

(** C7. The selection is made of the oldest unconsumed documents, at most
    500 of them: it has [min 500 u] documents when [u] are unconsumed, all of
    the raw collection and none with [processed] set to [True], in ascending
    order of [ingested_at]; together with the unconsumed documents it leaves
    out, none of which was ingested before a selected one, it is the list of
    the unconsumed documents, and it holds them all when they are at most
    500. The query returns the selection when the store answers, and changes
    no collection; with no unconsumed document the selection is empty, and
    the cycle then ends after logging that it processed 0 records, without
    touching any collection. *)
Theorem select_batch_contract (raw : list RawDoc) :
  (length (select_batch raw) <= 500)%nat /\
  (forall d, d ∈ select_batch raw ->
     d ∈ raw /\ fields d !! "processed" <> Some (PBool true)) /\
  StronglySorted (fun a b => ingested_at a <= ingested_at b) (select_batch raw) /\
  length (select_batch raw) = Nat.min 500 (length (List.filter unprocessed raw)) /\
  (exists later,
     select_batch raw ++ later ≡ₚ List.filter unprocessed raw /\
     forall d d', d ∈ select_batch raw -> d' ∈ later ->
                  ingested_at d <= ingested_at d') /\
  (forall d d', d ∈ select_batch raw -> d' ∈ raw ->
     fields d' !! "processed" <> Some (PBool true) ->
     d' ∉ select_batch raw -> ingested_at d <= ingested_at d') /\
  ((length (List.filter unprocessed raw) <= 500)%nat ->
   select_batch raw ≡ₚ List.filter unprocessed raw /\
   forall d, d ∈ raw -> fields d !! "processed" <> Some (PBool true) ->
             d ∈ select_batch raw) /\
  (forall w st, raw_col st = raw ->
     (store_fails w (length (ops st)) = false ->
      fst (raw_find w st) = Ok (select_batch raw)) /\
     raw_col (snd (raw_find w st)) = raw_col st /\
     proc_col (snd (raw_find w st)) = proc_col st /\
     insights_col (snd (raw_find w st)) = insights_col st) /\
  ((forall d, d ∈ raw -> fields d !! "processed" = Some (PBool true)) ->
   select_batch raw = []) /\
  (forall ps fs w st, raw_col st = raw -> select_batch raw = [] ->
     store_fails w (length (ops st)) = false ->
     let st' := process_batch ps fs w st in
     raw_col st' = raw /\ proc_col st' = proc_col st /\
     insights_col st' = insights_col st /\
     ops st' = ops st ++ [OpFind] /\
     log st' = log st ++ [LogProcessed 0]).
Proof.
  assert (Hunconsumed : forall d, d ∈ raw ->
            fields d !! "processed" <> Some (PBool true) ->
            d ∈ List.filter unprocessed raw).
  { intros d Hd Hflag. apply list_elem_of_In, filter_In.
    split; [by apply list_elem_of_In|]. by apply unprocessed_flag. }
  assert (Hlen : length (select_batch raw)
                 = Nat.min 500 (length (List.filter unprocessed raw))).
  { unfold select_batch. rewrite length_take, stable_sort_length. lia. }
  destruct (select_batch_split raw) as (later & Hperm & Hlater).
  split; [rewrite Hlen; lia|].
  split.
  { intros d Hd. apply select_batch_elem in Hd as [Hin Hun].
    split; [exact Hin|]. by apply unprocessed_flag. }
  split; [apply (StronglySorted_firstn (key_le ingested_at)), stable_sort_asc|].
  split; [exact Hlen|].
  split; [by exists later|].
  split.
  { intros d d' Hd Hd' Hflag Hout. apply Hlater; [done|].
    pose proof (Hunconsumed d' Hd' Hflag) as Hin. rewrite <- Hperm in Hin.
    apply elem_of_app in Hin as [Hin|Hin]; done. }
  split.
  { intros Hle.
    assert (Hall : select_batch raw ≡ₚ List.filter unprocessed raw).
    { unfold select_batch. rewrite take_ge; [apply stable_sort_perm|].
      rewrite stable_sort_length. lia. }
    split; [exact Hall|]. intros d Hd Hflag. rewrite Hall. by apply Hunconsumed. }
  split.
  { intros w st <-. pose proof (raw_find_pure w st) as (H1 & H2 & H3 & _).
    split; [|done]. intros Hok. by rewrite raw_find_eq, Hok. }
  split.
  { intros H. apply select_batch_none. intros d Hd.
    by apply unprocessed_false, H. }
  intros ps fs w st <- Hsel Hok st'. subst st'.
  rewrite (empty_batch_cycle _ _ _ _ Hsel), Hok. done.
Qed.

(** C8. A cycle that selects no raw document leaves the three collections
    as they were; the query is the only operation attempted on the store: no
    upsert, no consumption mark and no snapshot write. *)
Theorem empty_batch_changes_nothing ps fs (w : World) (st : Store) :
  select_batch (raw_col st) = [] ->
  let st' := process_batch ps fs w st in
  raw_col st' = raw_col st /\
  proc_col st' = proc_col st /\
  insights_col st' = insights_col st /\
  ops st' = ops st ++ [OpFind].
Proof.
  intros H st'. subst st'. rewrite (empty_batch_cycle _ _ _ _ H). done.
Qed.

(** ** Running the loop body *)

Ltac split_result :=
  match goal with
  | |- context [match ?r with Ok _ => _ | Raise _ => _ end] =>
      destruct r eqn:?
  end.

Ltac split_result_in H :=
  match type of H with
  | context [match ?r with Ok _ => _ | Raise _ => _ end] => destruct r eqn:?
  end.

Section Running.

Variable ps : string -> gmap string pyval.
Variable fs : string -> option float.
Variable w : World.

Lemma bind_ok {A B} (m : M A) (k : A -> M B) st a st1 :
  m st = (Ok a, st1) -> bind m k st = k a st1.
Proof. intros H. unfold bind. rewrite H. reflexivity. Qed.

Lemma bind_raise {A B} (m : M A) (k : A -> M B) st e st1 :
  m st = (Raise e, st1) -> bind m k st = (Raise e, st1).
Proof. intros H. unfold bind. rewrite H. reflexivity. Qed.

(** The transformation reads the clock twice and does nothing else to the
    store; its outcome is fixed by the three fallible conversions. *)
Lemma transform_doc_eq (doc : RawDoc) (st : Store) :
  transform_doc ps fs w doc st =
  match doc_pid (fields doc) with
  | Raise e => (Raise e, st)
  | Ok pid =>
  match analyze_product ps fs (fields doc) with
  | Raise e => (Raise e, st)
  | Ok sl =>
  match py_float fs (py_or (py_get (fields doc) "price") (PFloat 0)) with
  | Raise e => (Raise e, tick (tick st))
  | Ok price_ =>
  match py_method_get (py_get_default (fields doc) "rating" (PDict ∅)) "rate" with
  | Raise e => (Raise e, tick (tick st))
  | Ok rate =>
  match py_method_get (py_get_default (fields doc) "rating" (PDict ∅)) "count" with
  | Raise e => (Raise e, tick (tick st))
  | Ok count =>
      (Ok {| product_id := pid;
             title := py_get (fields doc) "title";
             category := py_get (fields doc) "category";
             price := price_;
             avg_rating := rate;
             rating_count := count;
             sentiment_score := fst sl;
             sentiment_label := snd sl;
             last_processed := isoformat (now w (clock st));
             timestamp := timestamp_ms (now w (S (clock st))) |},
       tick (tick st))
  end end end end end.
Proof.
  cbv beta delta [transform_doc bind lift ret utcnow].
  repeat split_result; reflexivity.
Qed.

Lemma store_doc_eq (doc : RawDoc) (p : ProcDoc) (st : Store) :
  store_doc w doc p st =
  if store_fails w (length (ops st))
  then (Raise PyMongoError, push_op (OpUpsert (product_id p)) st)
  else if fits_int64 (product_id p) then
    let st1 := set_proc (upsert_proc p) (push_op (OpUpsert (product_id p)) st) in
    if store_fails w (length (ops st1))
    then (Ok tt, push_log (LogMarkFailed (_id doc)) (push_op (OpMark (_id doc)) st1))
    else (Ok tt, set_raw (mark_raw (_id doc) (timestamp p))
                   (push_op (OpMark (_id doc)) st1))
  else (Raise OverflowError, push_op (OpUpsert (product_id p)) st).
Proof.
  cbv beta delta [store_doc upsert_doc].
  destruct (fits_int64 (product_id p));
    cbv beta delta [bind try_except store_op logger modify raise];
    destruct (store_fails w (length (ops st))); try reflexivity.
  cbv zeta.
  destruct (store_fails w _); reflexivity.
Qed.

Lemma process_doc_eq (doc : RawDoc) (st : Store) :
  process_doc ps fs w doc st =
  match transform_doc ps fs w doc st with
  | (Raise e, st1) => (Raise e, st1)
  | (Ok p, st1) =>
      match store_doc w doc p st1 with
      | (Raise e, st2) => (Raise e, st2)
      | (Ok _, st2) => (Ok p, st2)
      end
  end.
Proof.
  cbv beta delta [process_doc bind ret].
  destruct (transform_doc ps fs w doc st) as [[p|e] st1]; [|reflexivity].
  destruct (store_doc w doc p st1) as [[u|e] st2]; reflexivity.
Qed.

Lemma transform_doc_frame (doc : RawDoc) (st : Store) :
  let st1 := snd (transform_doc ps fs w doc st) in
  raw_col st1 = raw_col st /\ proc_col st1 = proc_col st /\
  insights_col st1 = insights_col st /\ ops st1 = ops st /\ log st1 = log st.
Proof.
  rewrite transform_doc_eq.
  repeat split_result; simpl; auto.
Qed.

Lemma transform_doc_pid (doc : RawDoc) (st : Store) p st1 :
  transform_doc ps fs w doc st = (Ok p, st1) ->
  doc_pid (fields doc) = Ok (product_id p).
Proof.
  rewrite transform_doc_eq.
  repeat split_result; try discriminate. intros H; inversion H; reflexivity.
Qed.

(** A transformation fails only where one of its conversions fails. *)
Lemma transform_doc_raises (doc : RawDoc) (st : Store) e st1 :
  transform_doc ps fs w doc st = (Raise e, st1) ->
  doc_pid (fields doc) = Raise e \/
  analyze_product ps fs (fields doc) = Raise e \/
  py_float fs (py_or (py_get (fields doc) "price") (PFloat 0)) = Raise e \/
  py_method_get (py_get_default (fields doc) "rating" (PDict ∅)) "rate" = Raise e \/
  py_method_get (py_get_default (fields doc) "rating" (PDict ∅)) "count" = Raise e.
Proof.
  rewrite transform_doc_eq.
  repeat split_result; try discriminate; intros H; inversion H; subst; auto.
Qed.

Lemma find_proc_upsert (p : ProcDoc) (col : list ProcDoc) :
  find_proc (product_id p) (upsert_proc p col) = Some p.
Proof.
  unfold find_proc. induction col as [|q col IH]; simpl.
  - by rewrite Z.eqb_refl.
  - destruct (product_id q =? product_id p) eqn:E; simpl.
    + by rewrite Z.eqb_refl.
    + by rewrite E.
Qed.

(** The trace of one run of the loop body: nothing, the upsert alone, or the
    upsert followed by the mark. *)
Lemma process_doc_ops (doc : RawDoc) (st : Store) :
  let r := process_doc ps fs w doc st in
  ops (snd r) = ops st \/
  (exists pid, ops (snd r) = ops st ++ [OpUpsert pid] /\
               (fst r = Raise PyMongoError \/ fst r = Raise OverflowError)) \/
  (exists p, ops (snd r) = ops st ++ [OpUpsert (product_id p); OpMark (_id doc)] /\
             fst r = Ok p).
Proof.
  rewrite process_doc_eq.
  pose proof (transform_doc_frame doc st) as (_ & _ & _ & Hops & _).
  destruct (transform_doc ps fs w doc st) as [[p|e] st1]; simpl in *; [|auto].
  rewrite store_doc_eq.
  destruct (store_fails w (length (ops st1))); simpl.
  - right; left. exists (product_id p). rewrite Hops. auto.
  - destruct (fits_int64 (product_id p)); simpl.
    + right; right. exists p.
      destruct (store_fails w _); simpl; rewrite Hops, <- app_assoc; done.
    + right; left. exists (product_id p). rewrite Hops. auto.
Qed.

(** A run of the loop body that raises has written to no collection. *)
Lemma process_doc_raise_frame (doc : RawDoc) (st : Store) e st2 :
  process_doc ps fs w doc st = (Raise e, st2) ->
  raw_col st2 = raw_col st /\ proc_col st2 = proc_col st /\
  insights_col st2 = insights_col st /\ log st2 = log st.
Proof.
  rewrite process_doc_eq.
  pose proof (transform_doc_frame doc st) as (Hr & Hp & Hi & _ & Hl).
  destruct (transform_doc ps fs w doc st) as [[p|e'] st1]; simpl in *.
  - rewrite store_doc_eq.
    destruct (store_fails w (length (ops st1))); simpl.
    + intros [= <- <-]. simpl. auto.
    + destruct (fits_int64 (product_id p)); simpl.
      * destruct (store_fails w _); discriminate.
      * intros [= <- <-]. simpl. auto.
  - intros [= <- <-]. auto.
Qed.

Lemma for_each_app (pre post : list RawDoc) (n : nat) (acc : list ProcDoc) (st : Store) :
  for_each ps fs w (pre ++ post) n acc st =
  match for_each ps fs w pre n acc st with
  | (Ok r, st1) => for_each ps fs w post (fst r) (snd r) st1
  | (Raise e, st1) => (Raise e, st1)
  end.
Proof.
  revert n acc st. induction pre as [|d pre IH]; intros n acc st; [done|].
  simpl. unfold bind.
  destruct (process_doc ps fs w d st) as [[p|e] st1]; [apply IH|done].
Qed.

Lemma handler_eq (e : exn) (st : Store) :
  handler e st = (Ok tt, push_log (log_of_exn e) st).
Proof. by destruct e. Qed.

#[local] Instance same_insights_preorder : PreOrder same_insights.
Proof. split; unfold same_insights; [done|intros x y z; congruence]. Qed.

Lemma for_each_same_insights (cursor : list RawDoc) n acc st :
  insights_col (snd (for_each ps fs w cursor n acc st)) = insights_col st.
Proof.
  apply (preserves_for_each ps fs w same_insights); done.
Qed.

End Running.

(** Two transformations of one raw document differ in their timestamps
    only, whatever the store and the world. *)
Lemma transform_doc_deterministic ps fs (w w' : World) (doc : RawDoc) st st' p p' st1 st1' :
  transform_doc ps fs w doc st = (Ok p, st1) ->
  transform_doc ps fs w' doc st' = (Ok p', st1') ->
  erase_timestamps p = erase_timestamps p'.
Proof.
  intros H H'. rewrite transform_doc_eq in H. rewrite transform_doc_eq in H'.
  repeat split_result_in H; try discriminate.
  inversion H; inversion H'. reflexivity.
Qed.

(** ** Failures inside a cycle *)

Section Failures.

Variable ps : string -> gmap string pyval.
Variable fs : string -> option float.
Variable w : World.

(** C2, as the code has it. The loop has no handler around the
    transformation and the upsert: when a record of the batch fails there,
    the records before it stay upserted, the cycle ends in the handler of
    [process_batch], which logs the exception; the failing record and the
    records after it are neither upserted nor marked, and no insights
    snapshot is written. *)
Theorem failure_ends_the_batch (st : Store) (pre post : list RawDoc)
    (d : RawDoc) (n : nat) (acc : list ProcDoc) (e : exn) (st1 st2 : Store) :
  store_fails w (length (ops st)) = false ->
  select_batch (raw_col st) = pre ++ d :: post ->
  for_each ps fs w pre 0%nat [] (push_op OpFind st) = (Ok (n, acc), st1) ->
  process_doc ps fs w d st1 = (Raise e, st2) ->
  process_batch ps fs w st = push_log (log_of_exn e) st2 /\
  proc_col (process_batch ps fs w st) = proc_col st1 /\
  raw_col (process_batch ps fs w st) = raw_col st1 /\
  insights_col (process_batch ps fs w st) = insights_col st /\
  (ops (process_batch ps fs w st) = ops st1 \/
   exists pid, ops (process_batch ps fs w st) = ops st1 ++ [OpUpsert pid]).
Proof.
  intros Hfind Hsel Hpre Hd.
  assert (Hrun : process_batch ps fs w st = push_log (log_of_exn e) st2).
  { cbv beta delta [process_batch try_except process_batch_body].
    rewrite (bind_ok _ _ st (pre ++ d :: post) (push_op OpFind st)).
    2:{ rewrite raw_find_eq, Hfind, Hsel. reflexivity. }
    rewrite (bind_raise _ _ (push_op OpFind st) e st2).
    2:{ rewrite for_each_app, Hpre. simpl. by rewrite (bind_raise _ _ _ _ _ Hd). }
    by rewrite handler_eq. }
  destruct (process_doc_raise_frame ps fs w d st1 e st2 Hd) as (Hr & Hp & Hi & _).
  rewrite Hrun. simpl. repeat split; try done.
  - rewrite Hi.
    pose proof (for_each_same_insights ps fs w pre 0%nat [] (push_op OpFind st)) as H.
    rewrite Hpre in H. exact H.
  - pose proof (process_doc_ops ps fs w d st1) as H. rewrite Hd in H. simpl in H.
    destruct H as [H|[(pid & H & _)|(p & _ & H)]]; [by left|right; eauto|done].
Qed.

(** C3, as the code has it. When [product_id] and [id] are both absent or
    false values ([None], [0], the empty string, ...), the identifier is 0:
    the expression does not raise, a transformation of the record can only
    fail in another field, and a record that is processed is stored under
    key 0. *)
Theorem missing_id_defaults_to_zero (doc : RawDoc) :
  truthy (py_get (fields doc) "product_id") = false ->
  truthy (py_get (fields doc) "id") = false ->
  doc_pid (fields doc) = Ok 0 /\
  (forall st e st1, transform_doc ps fs w doc st = (Raise e, st1) ->
     analyze_product ps fs (fields doc) = Raise e \/
     py_float fs (py_or (py_get (fields doc) "price") (PFloat 0)) = Raise e \/
     py_method_get (py_get_default (fields doc) "rating" (PDict ∅)) "rate"
     = Raise e \/
     py_method_get (py_get_default (fields doc) "rating" (PDict ∅)) "count"
     = Raise e) /\
  (forall st p st2, process_doc ps fs w doc st = (Ok p, st2) ->
     product_id p = 0 /\ find_proc 0 (proc_col st2) = Some p).
Proof.
  intros Hpid Hid.
  assert (H0 : doc_pid (fields doc) = Ok 0).
  { unfold doc_pid, py_or. rewrite Hpid, Hid. reflexivity. }
  split; [exact H0|]. split.
  - intros st e st1 Ht.
    destruct (transform_doc_raises ps fs w doc st e st1 Ht) as [H|H]; [|exact H].
    rewrite H0 in H. discriminate.
  - intros st p st2. rewrite process_doc_eq.
    destruct (transform_doc ps fs w doc st) as [[q|e] st1] eqn:Ht; [|discriminate].
    apply transform_doc_pid in Ht. rewrite H0 in Ht.
    rewrite store_doc_eq.
    destruct (store_fails w (length (ops st1))); [discriminate|].
    destruct (fits_int64 (product_id q)); [|discriminate]. cbv zeta.
    assert (product_id q = 0) as Hq by congruence.
    destruct (store_fails w _); intros H; inversion H; subst; simpl;
      (split; [done|]); rewrite <- Hq; apply find_proc_upsert.
Qed.

(** C5. Processing one raw document twice, in any two stores and worlds,
    gives two processed documents that agree in every field but
    [last_processed] and [timestamp]; each time the document is the one
    stored under its product identifier. *)
Theorem reprocessing_is_idempotent (w' : World) (doc : RawDoc)
    (st st' : Store) (p p' : ProcDoc) (st2 st2' : Store) :
  process_doc ps fs w doc st = (Ok p, st2) ->
  process_doc ps fs w' doc st' = (Ok p', st2') ->
  erase_timestamps p' = erase_timestamps p /\
  product_id p' = product_id p /\
  find_proc (product_id p) (proc_col st2) = Some p /\
  find_proc (product_id p) (proc_col st2') = Some p'.
Proof.
  intros H H'.
  rewrite process_doc_eq in H. rewrite process_doc_eq in H'.
  destruct (transform_doc ps fs w doc st) as [[q|e] st1] eqn:Ht; [|discriminate].
  destruct (transform_doc ps fs w' doc st') as [[q'|e] st1'] eqn:Ht'; [|discriminate].
  pose proof (transform_doc_deterministic _ _ _ _ _ _ _ _ _ _ _ Ht Ht') as Heq.
  rewrite store_doc_eq in H. rewrite store_doc_eq in H'.
  destruct (store_fails w (length (ops st1))); [discriminate|].
  destruct (store_fails w' (length (ops st1'))); [discriminate|].
  destruct (fits_int64 (product_id q)); [|discriminate].
  destruct (fits_int64 (product_id q')); [|discriminate].
  cbv zeta in H, H'.
  assert (Hpid : product_id q' = product_id q).
  { change (product_id (erase_timestamps q') = product_id (erase_timestamps q)).
    by rewrite Heq. }
  destruct (store_fails w _); destruct (store_fails w' _);
    inversion H; inversion H'; subst; simpl;
    repeat split; try done; try apply find_proc_upsert;
    rewrite <- Hpid; apply find_proc_upsert.
Qed.

End Failures.

(** ** Raw documents across cycles *)

#[local] Instance raw_step_preorder : PreOrder raw_step.
Proof.
  split.
  - intros d. unfold raw_step. auto.
  - intros a b c (H1 & H2 & H3 & H4) (H1' & H2' & H3' & H4').
    unfold raw_step. repeat split; try congruence; [|auto].
    intros k Hk Hk'. rewrite H3', H3; auto.
Qed.

#[local] Instance raw_rel_preorder : PreOrder raw_rel.
Proof.
  split.
  - intros st. unfold raw_rel. reflexivity.
  - intros a b c. unfold raw_rel. intros. by etransitivity.
Qed.

Lemma set_processed_step (now_ms : Z) (d : RawDoc) :
  raw_step d (set_processed now_ms d).
Proof.
  unfold raw_step, set_processed, unprocessed. simpl. repeat split.
  - intros k Hk Hk'. by rewrite !lookup_insert_ne.
  - intros _. rewrite lookup_insert_ne by done. by rewrite lookup_insert_eq.
Qed.

Lemma mark_raw_step (oid now_ms : Z) (col : list RawDoc) :
  Forall2 raw_step col (mark_raw oid now_ms col).
Proof.
  induction col as [|d col IH]; simpl; [constructor|].
  destruct (_id d =? oid).
  - constructor; [apply set_processed_step|reflexivity].
  - constructor; [reflexivity|exact IH].
Qed.

Lemma process_batch_raw_rel ps fs (w : World) (st : Store) :
  raw_rel st (process_batch ps fs w st).
Proof.
  apply (preserves_process_batch ps fs w raw_rel);
    intros; unfold raw_rel; simpl; try reflexivity.
  apply mark_raw_step.
Qed.

Lemma run_cycles_raw_rel ps fs (w : World) (n : nat) (st : Store) :
  raw_rel st (run_cycles ps fs w n st).
Proof.
  induction n as [|n IH]; [reflexivity|].
  etransitivity; [exact IH|]. apply process_batch_raw_rel.
Qed.

(** *** A document whose mark failed *)

#[local] Instance kept_unless_marked_preorder (w : World) :
  PreOrder (kept_unless_marked w).
Proof.
  split.
  - intros st. split; [exists []; by rewrite app_nil_r|]. intros i d Hd. by left.
  - intros a b c [[t Ht] Hab] [[t' Ht'] Hbc]. split.
    + exists (t ++ t'). by rewrite Ht', Ht, app_assoc.
    + intros i d Hd. destruct (Hab i d Hd) as [Hb|(k & Hk & Hop & Hok)].
      * destruct (Hbc i d Hb) as [Hc|(k & Hk & Hop & Hok)]; [by left|].
        right. exists k. repeat split; try done.
        rewrite Ht, length_app in Hk. lia.
      * right. exists k. repeat split; try done.
        rewrite Ht'. rewrite lookup_app_l; [done|]. by eapply lookup_lt_Some.
Qed.

Lemma kept_same_raw (w : World) (st st' : Store) (t : list StoreOp) :
  ops st' = ops st ++ t -> raw_col st' = raw_col st ->
  kept_unless_marked w st st'.
Proof.
  intros Hops Hraw. split; [by exists t|].
  intros i d Hd. left. by rewrite Hraw.
Qed.

Lemma mark_raw_lookup (oid now_ms : Z) (col : list RawDoc) (i : nat) (d : RawDoc) :
  col !! i = Some d -> mark_raw oid now_ms col !! i = Some d \/ _id d = oid.
Proof.
  revert i. induction col as [|c col IH]; intros i Hd; [done|].
  simpl. destruct (_id c =? oid) eqn:E.
  - destruct i as [|i]; simpl in *; [|by left].
    right. injection Hd as <-. lia.
  - destruct i as [|i]; simpl in *; [by left|]. by apply IH.
Qed.

Lemma process_batch_kept ps fs (w : World) (st : Store) :
  kept_unless_marked w st (process_batch ps fs w st).
Proof.
  apply (preserves_process_batch ps fs w (kept_unless_marked w)).
  - intros s. by apply (kept_same_raw w s (tick s) []); [rewrite app_nil_r|].
  - intros r s. by apply (kept_same_raw w s _ []); [rewrite app_nil_r|].
  - intros o s _. by apply (kept_same_raw w s _ [o]).
  - intros s _. by apply (kept_same_raw w s _ [OpFind]).
  - intros p s _. by apply (kept_same_raw w s _ [OpUpsert (product_id p)]).
  - intros pid s _. by apply (kept_same_raw w s _ [OpUpsert pid]).
  - intros oid ms s Hok. split; [by exists [OpMark oid]|].
    intros i d Hd. simpl.
    destruct (mark_raw_lookup oid ms _ i d Hd) as [H|H]; [by left|].
    right. exists (length (ops s)). repeat split; [lia| |done].
    rewrite lookup_app_r by lia. rewrite Nat.sub_diag, H. done.
  - intros ins s _. by apply (kept_same_raw w s _ [OpReplaceInsights]).
Qed.

(** A raw document is still in its place, unchanged, after a cycle in which
    every mark attempted for its [_id] failed. *)
Lemma unmarked_document_survives ps fs (w : World) (st : Store) (i : nat) (d : RawDoc) :
  raw_col st !! i = Some d ->
  (forall k : nat,
     ops (process_batch ps fs w st) !! k = Some (OpMark (_id d)) ->
     (length (ops st) <= k)%nat -> store_fails w k = true) ->
  raw_col (process_batch ps fs w st) !! i = Some d.
Proof.
  intros Hd Hfail.
  destruct (process_batch_kept ps fs w st) as [_ H].
  destruct (H i d Hd) as [Hkept|(k & Hk & Hop & Hok)]; [done|].
  rewrite (Hfail k Hop Hk) in Hok. discriminate.
Qed.

(** *** A record whose mark failed, over the cycle *)

Lemma process_doc_raw_other ps fs (w : World) (doc : RawDoc) (st : Store)
    (i : nat) (d : RawDoc) :
  raw_col st !! i = Some d -> _id d <> _id doc ->
  raw_col (snd (process_doc ps fs w doc st)) !! i = Some d.
Proof.
  intros Hd Hne. rewrite process_doc_eq.
  pose proof (transform_doc_frame ps fs w doc st) as (Hr & _).
  destruct (transform_doc ps fs w doc st) as [[p|e] st1]; simpl in *;
    [|by rewrite Hr].
  rewrite store_doc_eq.
  destruct (store_fails w (length (ops st1))); simpl; [by rewrite Hr|].
  destruct (fits_int64 (product_id p)); simpl; [|by rewrite Hr].
  destruct (store_fails w _); simpl; rewrite Hr; [done|].
  by destruct (mark_raw_lookup (_id doc) (timestamp p) _ i d Hd).
Qed.

Lemma for_each_raw_other ps fs (w : World) (cursor : list RawDoc) (n : nat)
    (acc : list ProcDoc) (st : Store) (i : nat) (d : RawDoc) :
  raw_col st !! i = Some d -> _id d ∉ map _id cursor ->
  raw_col (snd (for_each ps fs w cursor n acc st)) !! i = Some d.
Proof.
  revert n acc st. induction cursor as [|c cursor IH]; intros n acc st Hd Hout;
    [done|].
  simpl in *. apply not_elem_of_cons in Hout as [Hne Hout].
  pose proof (process_doc_raw_other ps fs w c st i d Hd Hne) as Hc.
  unfold bind. destruct (process_doc ps fs w c st) as [[p|e] st1]; simpl in *;
    [by apply IH|done].
Qed.

(** The loop counts the records it goes through, and appends one processed
    document for each. *)
Lemma for_each_count ps fs (w : World) (cursor : list RawDoc) (n : nat)
    (acc : list ProcDoc) (st : Store) m all st' :
  for_each ps fs w cursor n acc st = (Ok (m, all), st') ->
  m = (n + length cursor)%nat /\
  exists acc', all = acc ++ acc' /\ length acc' = length cursor.
Proof.
  revert n acc st. induction cursor as [|c cursor IH]; intros n acc st; simpl.
  - intros [= <- <- <-]. split; [lia|]. exists []. by rewrite app_nil_r.
  - unfold bind. destruct (process_doc ps fs w c st) as [[p|e] st1];
      [|discriminate].
    intros H. apply IH in H as (-> & acc' & -> & Hlen).
    split; [lia|]. exists (p :: acc'). rewrite <- app_assoc. simpl.
    by rewrite Hlen.
Qed.

Lemma select_batch_ids (raw : list RawDoc) :
  NoDup (map _id raw) -> NoDup (map _id (select_batch raw)).
Proof.
  intros H. unfold select_batch.
  apply (sublist_NoDup _ (map _id (stable_sort
           (fun y x => ingested_at y <? ingested_at x)
           (List.filter unprocessed raw)))).
  - rewrite stable_sort_perm.
    apply (sublist_NoDup _ (map _id raw)); [exact H|].
    apply (fmap_sublist _id). clear H.
    induction raw as [|d raw IH]; simpl; [constructor|].
    destruct (unprocessed d); by constructor.
  - apply (fmap_sublist _id), sublist_take.
Qed.

Lemma marks_only_nil : marks_only [].
Proof. intros r Hr. by apply elem_of_nil in Hr. Qed.

Lemma marks_only_app (t t' : list LogRecord) :
  marks_only t -> marks_only t' -> marks_only (t ++ t').
Proof. intros M M' r [Hr|Hr]%elem_of_app; auto. Qed.

Lemma marks_only_no_count (t : list LogRecord) (k : nat) :
  marks_only t -> LogProcessed k ∉ t.
Proof. intros M Hin. destruct (M _ Hin) as [id H]. discriminate. Qed.

(** The loop logs nothing but the marks that fail. *)
Lemma process_doc_log ps fs (w : World) (d : RawDoc) (st : Store) :
  exists t, log (snd (process_doc ps fs w d st)) = log st ++ t /\ marks_only t.
Proof.
  assert (Hnil : forall s : Store, log s = log st ->
            exists t, log s = log st ++ t /\ marks_only t).
  { intros s Hs. exists []. rewrite app_nil_r. split; [done|apply marks_only_nil]. }
  rewrite process_doc_eq.
  pose proof (transform_doc_frame ps fs w d st) as (_ & _ & _ & _ & Hl).
  destruct (transform_doc ps fs w d st) as [[p|e] st1]; simpl in *;
    [|by apply Hnil].
  rewrite store_doc_eq.
  destruct (store_fails w (length (ops st1))); simpl; [by apply Hnil|].
  destruct (fits_int64 (product_id p)); simpl; [|by apply Hnil].
  destruct (store_fails w _); simpl; [|by apply Hnil].
  exists [LogMarkFailed (_id d)]. rewrite Hl. split; [done|].
  intros r ->%list_elem_of_singleton. eauto.
Qed.

Lemma for_each_log ps fs (w : World) (cursor : list RawDoc) (n : nat)
    (acc : list ProcDoc) (st : Store) :
  exists t,
    log (snd (for_each ps fs w cursor n acc st)) = log st ++ t /\ marks_only t.
Proof.
  revert n acc st. induction cursor as [|c cursor IH]; intros n acc st; simpl.
  - exists []. rewrite app_nil_r. split; [done|apply marks_only_nil].
  - unfold bind. destruct (process_doc_log ps fs w c st) as (t1 & H1 & M1).
    destruct (process_doc ps fs w c st) as [[p|e] st1]; simpl in *.
    + destruct (IH (S n) (acc ++ [p]) st1) as (t2 & H2 & M2).
      exists (t1 ++ t2). rewrite H2, H1, app_assoc.
      split; [done|by apply marks_only_app].
    + by exists t1.
Qed.

(** The log of a cycle up to some point after a record whose mark failed:
    what the cycle has added holds the record of the failed mark, and
    records of failed marks only. *)
Lemma mark_failure_log ps fs (w : World) (doc : RawDoc) (st0 : Store)
    (pre mid : list RawDoc) (m0 : nat) (acc0 : list ProcDoc) (st1 : Store)
    (p : ProcDoc) (st1' : Store) :
  for_each ps fs w pre 0%nat [] (push_op OpFind st0) = (Ok (m0, acc0), st1) ->
  transform_doc ps fs w doc st1 = (Ok p, st1') ->
  store_fails w (length (ops st1')) = false ->
  fits_int64 (product_id p) = true ->
  store_fails w (S (length (ops st1'))) = true ->
  process_doc ps fs w doc st1 = (Ok p, snd (store_doc w doc p st1')) /\
  exists t,
    log (snd (for_each ps fs w mid (S m0) (acc0 ++ [p])
                (snd (store_doc w doc p st1'))))
    = log st0 ++ t /\
    LogMarkFailed (_id doc) ∈ t /\ marks_only t.
Proof.
  intros Hpre Ht Hup Hfit Hmark.
  assert (Hlen : length (ops (set_proc (upsert_proc p)
                   (push_op (OpUpsert (product_id p)) st1')))
                 = S (length (ops st1'))).
  { simpl. rewrite length_app. simpl. lia. }
  assert (Hstore : store_doc w doc p st1'
            = (Ok tt, push_log (LogMarkFailed (_id doc))
                        (push_op (OpMark (_id doc))
                           (set_proc (upsert_proc p)
                              (push_op (OpUpsert (product_id p)) st1'))))).
  { rewrite store_doc_eq, Hup, Hfit. cbv zeta. by rewrite Hlen, Hmark. }
  split; [by rewrite process_doc_eq, Ht, Hstore|].
  destruct (for_each_log ps fs w pre 0%nat [] (push_op OpFind st0))
    as (t1 & H1 & M1).
  rewrite Hpre in H1. simpl in H1.
  pose proof (transform_doc_frame ps fs w doc st1) as (_ & _ & _ & _ & Hl).
  rewrite Ht in Hl. simpl in Hl.
  destruct (for_each_log ps fs w mid (S m0) (acc0 ++ [p])
              (snd (store_doc w doc p st1'))) as (t2 & H2 & M2).
  exists (t1 ++ [LogMarkFailed (_id doc)] ++ t2).
  rewrite H2, Hstore. simpl. rewrite Hl, H1, <- !app_assoc. simpl.
  split; [done|]. split.
  - apply elem_of_app. right. by left.
  - apply marks_only_app; [done|].
    intros r [->|Hr]%elem_of_cons; [eauto|by apply M2].
Qed.

(** The cycle of a record whose mark fails, when a later record raises. *)
Lemma mark_failure_aborted ps fs (w : World) (doc : RawDoc) (st0 : Store)
    (pre mid post : list RawDoc) (m0 : nat) (acc0 : list ProcDoc)
    (st1 : Store) (p : ProcDoc) (st1' : Store) (r2 : nat * list ProcDoc)
    (st2 : Store) (d : RawDoc) (e : exn) (st3 : Store) :
  store_fails w (length (ops st0)) = false ->
  select_batch (raw_col st0) = pre ++ doc :: mid ++ d :: post ->
  for_each ps fs w pre 0%nat [] (push_op OpFind st0) = (Ok (m0, acc0), st1) ->
  transform_doc ps fs w doc st1 = (Ok p, st1') ->
  store_fails w (length (ops st1')) = false ->
  fits_int64 (product_id p) = true ->
  store_fails w (S (length (ops st1'))) = true ->
  for_each ps fs w mid (S m0) (acc0 ++ [p]) (snd (store_doc w doc p st1'))
  = (Ok r2, st2) ->
  process_doc ps fs w d st2 = (Raise e, st3) ->
  process_batch ps fs w st0 = push_log (log_of_exn e) st3 /\
  insights_col st3 = insights_col st0 /\
  exists t,
    log st3 = log st0 ++ t /\ LogMarkFailed (_id doc) ∈ t /\ marks_only t.
Proof.
  intros Hfind Hsel Hpre Ht Hup Hfit Hmark Hmid Hd.
  destruct (mark_failure_log ps fs w doc st0 pre mid m0 acc0 st1 p st1'
              Hpre Ht Hup Hfit Hmark) as (Hdoc & t & Hlog & Hin & Hmarks).
  rewrite Hmid in Hlog. simpl in Hlog.
  assert (Hloop : for_each ps fs w (pre ++ doc :: mid ++ d :: post) 0%nat []
                    (push_op OpFind st0) = (Raise e, st3)).
  { rewrite for_each_app, Hpre. simpl. unfold bind at 1. rewrite Hdoc.
    rewrite for_each_app, Hmid. simpl. by rewrite (bind_raise _ _ _ _ _ Hd). }
  destruct (process_doc_raise_frame ps fs w d st2 e st3 Hd) as (_ & _ & _ & Hl).
  split; [|split].
  - cbv beta delta [process_batch try_except process_batch_body].
    rewrite (bind_ok _ _ st0 (pre ++ doc :: mid ++ d :: post) (push_op OpFind st0)).
    2:{ by rewrite raw_find_eq, Hfind, Hsel. }
    rewrite (bind_raise _ _ _ _ _ Hloop). by rewrite handler_eq.
  - pose proof (for_each_same_insights ps fs w (pre ++ doc :: mid ++ d :: post)
                  0%nat [] (push_op OpFind st0)) as Hins.
    by rewrite Hloop in Hins.
  - exists t. by rewrite Hl.
Qed.

(** The cycle of a record whose mark fails while the rest of the batch is
    processed and the snapshot is written. *)
Lemma mark_failure_cycle ps fs (w : World) (doc : RawDoc) (st0 : Store)
    (pre post : list RawDoc) (m0 : nat) (acc0 : list ProcDoc) (st1 : Store)
    (p : ProcDoc) (st1' : Store) (m : nat) (all : list ProcDoc) (st3 : Store) :
  NoDup (map _id (raw_col st0)) ->
  store_fails w (length (ops st0)) = false ->
  select_batch (raw_col st0) = pre ++ doc :: post ->
  for_each ps fs w pre 0%nat [] (push_op OpFind st0) = (Ok (m0, acc0), st1) ->
  transform_doc ps fs w doc st1 = (Ok p, st1') ->
  store_fails w (length (ops st1')) = false ->
  fits_int64 (product_id p) = true ->
  store_fails w (S (length (ops st1'))) = true ->
  for_each ps fs w post (S m0) (acc0 ++ [p]) (snd (store_doc w doc p st1'))
  = (Ok (m, all), st3) ->
  store_fails w (length (ops st3)) = false ->
  m = length (pre ++ doc :: post) /\
  length all = m /\
  p ∈ all /\
  process_batch ps fs w st0
  = push_log (LogProcessed m)
      (set_insights
         (replace_latest (compute_insights (isoformat (now w (clock st3))) all))
         (push_op OpReplaceInsights (tick st3))) /\
  (exists t,
     log st3 = log st0 ++ t /\ LogMarkFailed (_id doc) ∈ t /\ marks_only t) /\
  insights_col st3 = insights_col st0 /\
  doc ∈ raw_col st3.
Proof.
  intros Hnd Hfind Hsel Hpre Ht Hup Hfit Hmark Hpost Hsnap.
  assert (Hlen : length (ops (set_proc (upsert_proc p)
                   (push_op (OpUpsert (product_id p)) st1')))
                 = S (length (ops st1'))).
  { simpl. rewrite length_app. simpl. lia. }
  assert (Hstore : store_doc w doc p st1'
            = (Ok tt, push_log (LogMarkFailed (_id doc))
                        (push_op (OpMark (_id doc))
                           (set_proc (upsert_proc p)
                              (push_op (OpUpsert (product_id p)) st1'))))).
  { rewrite store_doc_eq, Hup, Hfit. cbv zeta. by rewrite Hlen, Hmark. }
  assert (Hdoc : process_doc ps fs w doc st1
                 = (Ok p, snd (store_doc w doc p st1'))).
  { by rewrite process_doc_eq, Ht, Hstore. }
  assert (Hloop : for_each ps fs w (pre ++ doc :: post) 0%nat []
                    (push_op OpFind st0) = (Ok (m, all), st3)).
  { rewrite for_each_app, Hpre. simpl. unfold bind at 1. by rewrite Hdoc. }
  destruct (for_each_count _ _ _ _ _ _ _ _ _ _ Hloop) as (Hm & acc' & Hall & Hacc').
  destruct (for_each_count _ _ _ _ _ _ _ _ _ _ Hpost) as (_ & rest' & Hall' & _).
  simpl in Hm, Hall.
  assert (Hin : p ∈ all).
  { rewrite Hall'. apply elem_of_app. left. apply elem_of_app. right. by left. }
  split; [exact Hm|]. split; [by rewrite Hall, Hacc', Hm|].
  split; [exact Hin|]. split; [|split; [|split]].
  - cbv beta delta [process_batch try_except process_batch_body].
    rewrite (bind_ok _ _ st0 (pre ++ doc :: post) (push_op OpFind st0)).
    2:{ by rewrite raw_find_eq, Hfind, Hsel. }
    rewrite (bind_ok _ _ _ _ _ Hloop). cbn [fst snd].
    destruct all as [|q all]; [by apply elem_of_nil in Hin|].
    cbv beta iota delta [bind utcnow logger modify store_op].
    simpl. by rewrite Hsnap.
  - destruct (mark_failure_log ps fs w doc st0 pre post m0 acc0 st1 p st1'
                Hpre Ht Hup Hfit Hmark) as (_ & t & Hlog & Ht_in & Hmarks).
    rewrite Hpost in Hlog. by exists t.
  - pose proof (for_each_same_insights ps fs w (pre ++ doc :: post) 0%nat []
                  (push_op OpFind st0)) as Hins.
    by rewrite Hloop in Hins.
  - assert (Hsel_in : doc ∈ select_batch (raw_col st0)).
    { rewrite Hsel. apply elem_of_app. right. by left. }
    apply select_batch_elem in Hsel_in as [Hraw _].
    apply list_elem_of_lookup in Hraw as [i Hi].
    pose proof (select_batch_ids _ Hnd) as Hids.
    rewrite Hsel, map_app in Hids. simpl in Hids.
    apply NoDup_app in Hids as (_ & Hpre_out & Hids).
    apply NoDup_cons in Hids as [Hpost_out _].
    assert (H1 : raw_col st1 !! i = Some doc).
    { pose proof (for_each_raw_other ps fs w pre 0%nat [] (push_op OpFind st0)
                    i doc Hi) as H.
      rewrite Hpre in H. apply H. intros Hin'. apply (Hpre_out _ Hin'). by left. }
    assert (H2 : raw_col (snd (store_doc w doc p st1')) !! i = Some doc).
    { rewrite Hstore. simpl.
      pose proof (transform_doc_frame ps fs w doc st1) as (Hr & _).
      rewrite Ht in Hr. simpl in Hr. by rewrite Hr. }
    pose proof (for_each_raw_other ps fs w post (S m0) (acc0 ++ [p]) _ i doc
                  H2 Hpost_out) as H3.
    rewrite Hpost in H3. by eapply list_elem_of_lookup_2.
Qed.

(** The cycle of a record whose mark fails, when the snapshot write fails. *)
Lemma mark_failure_unwritten ps fs (w : World) (doc : RawDoc) (st0 : Store)
    (pre post : list RawDoc) (m0 : nat) (acc0 : list ProcDoc) (st1 : Store)
    (p : ProcDoc) (st1' : Store) (m : nat) (all : list ProcDoc) (st3 : Store) :
  store_fails w (length (ops st0)) = false ->
  select_batch (raw_col st0) = pre ++ doc :: post ->
  for_each ps fs w pre 0%nat [] (push_op OpFind st0) = (Ok (m0, acc0), st1) ->
  transform_doc ps fs w doc st1 = (Ok p, st1') ->
  store_fails w (length (ops st1')) = false ->
  fits_int64 (product_id p) = true ->
  store_fails w (S (length (ops st1'))) = true ->
  for_each ps fs w post (S m0) (acc0 ++ [p]) (snd (store_doc w doc p st1'))
  = (Ok (m, all), st3) ->
  store_fails w (length (ops st3)) = true ->
  process_batch ps fs w st0
  = push_log LogMongoError (push_op OpReplaceInsights (tick st3)) /\
  insights_col st3 = insights_col st0 /\
  exists t,
    log st3 = log st0 ++ t /\ LogMarkFailed (_id doc) ∈ t /\ marks_only t.
Proof.
  intros Hfind Hsel Hpre Ht Hup Hfit Hmark Hpost Hsnap.
  destruct (mark_failure_log ps fs w doc st0 pre post m0 acc0 st1 p st1'
              Hpre Ht Hup Hfit Hmark) as (Hdoc & t & Hlog & Hin & Hmarks).
  rewrite Hpost in Hlog. simpl in Hlog.
  assert (Hloop : for_each ps fs w (pre ++ doc :: post) 0%nat []
                    (push_op OpFind st0) = (Ok (m, all), st3)).
  { rewrite for_each_app, Hpre. simpl. unfold bind at 1. by rewrite Hdoc. }
  destruct (for_each_count _ _ _ _ _ _ _ _ _ _ Hpost) as (_ & rest' & Hall & _).
  split; [|split].
  - cbv beta delta [process_batch try_except process_batch_body].
    rewrite (bind_ok _ _ st0 (pre ++ doc :: post) (push_op OpFind st0)).
    2:{ by rewrite raw_find_eq, Hfind, Hsel. }
    rewrite (bind_ok _ _ _ _ _ Hloop). cbn [fst snd].
    destruct all as [|q all].
    { destruct acc0; discriminate. }
    cbv beta iota delta [bind utcnow logger modify store_op].
    simpl. by rewrite Hsnap.
  - pose proof (for_each_same_insights ps fs w (pre ++ doc :: post) 0%nat []
                  (push_op OpFind st0)) as Hins.
    by rewrite Hloop in Hins.
  - by exists t.
Qed.

(** C4, as the code has it. Whatever happens to a record, the trace of its
    processing is empty, or the upsert alone (which then raised), or the
    upsert followed by the mark: the upsert is attempted before the mark.
    When the transformation and the upsert succeed, the loop goes on with
    the record counted and appended to the documents to aggregate, whether
    or not the mark succeeds; a failing mark is logged and leaves the raw
    collection as it was; and a raw document for which no mark went through
    is still in its place, unchanged, at the end of the cycle. When the mark
    of a record fails and the rest of the batch is then processed and the
    snapshot written, the cycle logs the failed mark and a count that
    includes the record, the snapshot it stores is computed from a list that
    holds the record's processed document (its score is in the mean, and in
    a batch of at most five its entry is in [top_positive]), and the raw
    document is in the collection as it was, unconsumed. When instead a
    later record of the batch raises, or the snapshot write fails, the cycle
    ends in the handler: the insights collection is as it was, and what the
    cycle adds to the log is the failed marks and the exception, with no
    count of processed records. *)
Theorem mark_failure_is_tolerated ps fs (w : World) (doc : RawDoc)
    (rest : list RawDoc) (n : nat) (acc : list ProcDoc) (st : Store) :
  (ops (snd (process_doc ps fs w doc st)) = ops st \/
   (exists pid,
      ops (snd (process_doc ps fs w doc st)) = ops st ++ [OpUpsert pid] /\
      (fst (process_doc ps fs w doc st) = Raise PyMongoError \/
       fst (process_doc ps fs w doc st) = Raise OverflowError)) \/
   (exists p,
      ops (snd (process_doc ps fs w doc st))
      = ops st ++ [OpUpsert (product_id p); OpMark (_id doc)] /\
      fst (process_doc ps fs w doc st) = Ok p)) /\
  (forall p st1,
     transform_doc ps fs w doc st = (Ok p, st1) ->
     store_fails w (length (ops st1)) = false ->
     fits_int64 (product_id p) = true ->
     exists st2,
       for_each ps fs w (doc :: rest) n acc st
       = for_each ps fs w rest (S n) (acc ++ [p]) st2 /\
       ops st2 = ops st ++ [OpUpsert (product_id p); OpMark (_id doc)] /\
       proc_col st2 = upsert_proc p (proc_col st) /\
       (store_fails w (S (length (ops st1))) = true ->
          raw_col st2 = raw_col st /\
          log st2 = log st ++ [LogMarkFailed (_id doc)]) /\
       (store_fails w (S (length (ops st1))) = false ->
          raw_col st2 = mark_raw (_id doc) (timestamp p) (raw_col st) /\
          log st2 = log st)) /\
  (forall (st0 : Store) (i : nat),
     raw_col st0 !! i = Some doc ->
     (forall k : nat,
        ops (process_batch ps fs w st0) !! k = Some (OpMark (_id doc)) ->
        (length (ops st0) <= k)%nat -> store_fails w k = true) ->
     raw_col (process_batch ps fs w st0) !! i = Some doc) /\
  (forall (st0 : Store) (pre post : list RawDoc) (m0 : nat)
          (acc0 : list ProcDoc) (st1 : Store) (p : ProcDoc) (st1' : Store)
          (m : nat) (all : list ProcDoc) (st3 : Store),
     NoDup (map _id (raw_col st0)) ->
     store_fails w (length (ops st0)) = false ->
     select_batch (raw_col st0) = pre ++ doc :: post ->
     for_each ps fs w pre 0%nat [] (push_op OpFind st0) = (Ok (m0, acc0), st1) ->
     transform_doc ps fs w doc st1 = (Ok p, st1') ->
     store_fails w (length (ops st1')) = false ->
     fits_int64 (product_id p) = true ->
     store_fails w (S (length (ops st1'))) = true ->
     for_each ps fs w post (S m0) (acc0 ++ [p]) (snd (store_doc w doc p st1'))
     = (Ok (m, all), st3) ->
     store_fails w (length (ops st3)) = false ->
     let st' := process_batch ps fs w st0 in
     let snapshot := compute_insights (isoformat (now w (clock st3))) all in
     m = length (select_batch (raw_col st0)) /\
     length all = m /\
     p ∈ all /\
     (exists t,
        log st' = log st0 ++ t ++ [LogProcessed m] /\
        LogMarkFailed (_id doc) ∈ t /\ marks_only t) /\
     insights_col st' = replace_latest snapshot (insights_col st0) /\
     avg_sentiment snapshot
     = PrimFloat.div (py_sum (map sentiment_score all))
         (Z_to_float (Z.of_nat (length all))) /\
     ((length all <= 5)%nat -> entry_of p ∈ top_positive snapshot) /\
     doc ∈ raw_col st' /\
     fields doc !! "processed" <> Some (PBool true)) /\
  (forall (st0 : Store) (pre mid post : list RawDoc) (m0 : nat)
          (acc0 : list ProcDoc) (st1 : Store) (p : ProcDoc) (st1' : Store)
          (r2 : nat * list ProcDoc) (st2 : Store) (d : RawDoc) (e : exn)
          (st3 : Store),
     store_fails w (length (ops st0)) = false ->
     select_batch (raw_col st0) = pre ++ doc :: mid ++ d :: post ->
     for_each ps fs w pre 0%nat [] (push_op OpFind st0) = (Ok (m0, acc0), st1) ->
     transform_doc ps fs w doc st1 = (Ok p, st1') ->
     store_fails w (length (ops st1')) = false ->
     fits_int64 (product_id p) = true ->
     store_fails w (S (length (ops st1'))) = true ->
     for_each ps fs w mid (S m0) (acc0 ++ [p]) (snd (store_doc w doc p st1'))
     = (Ok r2, st2) ->
     process_doc ps fs w d st2 = (Raise e, st3) ->
     let st' := process_batch ps fs w st0 in
     insights_col st' = insights_col st0 /\
     exists t,
       log st' = log st0 ++ t ++ [log_of_exn e] /\
       LogMarkFailed (_id doc) ∈ t /\ marks_only t) /\
  (forall (st0 : Store) (pre post : list RawDoc) (m0 : nat)
          (acc0 : list ProcDoc) (st1 : Store) (p : ProcDoc) (st1' : Store)
          (m : nat) (all : list ProcDoc) (st3 : Store),
     store_fails w (length (ops st0)) = false ->
     select_batch (raw_col st0) = pre ++ doc :: post ->
     for_each ps fs w pre 0%nat [] (push_op OpFind st0) = (Ok (m0, acc0), st1) ->
     transform_doc ps fs w doc st1 = (Ok p, st1') ->
     store_fails w (length (ops st1')) = false ->
     fits_int64 (product_id p) = true ->
     store_fails w (S (length (ops st1'))) = true ->
     for_each ps fs w post (S m0) (acc0 ++ [p]) (snd (store_doc w doc p st1'))
     = (Ok (m, all), st3) ->
     store_fails w (length (ops st3)) = true ->
     let st' := process_batch ps fs w st0 in
     insights_col st' = insights_col st0 /\
     exists t,
       log st' = log st0 ++ t ++ [LogMongoError] /\
       LogMarkFailed (_id doc) ∈ t /\ marks_only t).
Proof.
  split; [apply process_doc_ops|].
  split; [|split; [intros st0 i; apply unmarked_document_survives|split;
                   [|split]]].
  - intros p st1 Ht Hup Hfit.
    pose proof (transform_doc_frame ps fs w doc st) as (Hr & Hp & _ & Ho & Hl).
    rewrite Ht in Hr, Hp, Ho, Hl. simpl in Hr, Hp, Ho, Hl.
    exists (snd (store_doc w doc p st1)).
    assert (Hlen : length (ops (set_proc (upsert_proc p)
                     (push_op (OpUpsert (product_id p)) st1)))
                   = S (length (ops st1))).
    { simpl. rewrite length_app. simpl. lia. }
    rewrite store_doc_eq, Hup, Hfit. cbv zeta. rewrite Hlen.
    split.
    + simpl. unfold bind at 1.
      rewrite process_doc_eq, Ht, store_doc_eq, Hup, Hfit. cbv zeta.
      rewrite Hlen.
      destruct (store_fails w (S (length (ops st1)))); reflexivity.
    + destruct (store_fails w (S (length (ops st1)))); simpl;
        rewrite Ho, Hp, Hr, Hl, <- app_assoc; repeat split; done.
  - intros st0 pre post m0 acc0 st1 p st1' m all st3
      Hnd Hfind Hsel Hpre Ht Hup Hfit Hmark Hpost Hsnap st' snapshot.
    destruct (mark_failure_cycle ps fs w doc st0 pre post m0 acc0 st1 p st1'
                m all st3 Hnd Hfind Hsel Hpre Ht Hup Hfit Hmark Hpost Hsnap)
      as (Hm & Hlen & Hin & Hrun & (t & Hlog & Ht_in & Hmarks) & Hins & Hraw).
    subst st' snapshot. rewrite Hrun. simpl.
    split; [by rewrite Hsel|]. split; [exact Hlen|]. split; [exact Hin|].
    split; [exists t; by rewrite Hlog, <- app_assoc|].
    split; [by rewrite Hins|]. split; [reflexivity|].
    split.
    { intros Hle. unfold compute_insights. cbn [top_positive].
      unfold sorted_by_sent.
      rewrite take_ge by (rewrite stable_sort_length; lia).
      apply list_elem_of_fmap. exists p. split; [done|].
      by rewrite stable_sort_perm. }
    split; [exact Hraw|].
    apply unprocessed_flag.
    assert (Hsel_in : doc ∈ select_batch (raw_col st0)).
    { rewrite Hsel. apply elem_of_app. right. by left. }
    by apply select_batch_elem in Hsel_in as [_ ?].
  - intros st0 pre mid post m0 acc0 st1 p st1' r2 st2 d e st3
      Hfind Hsel Hpre Ht Hup Hfit Hmark Hmid Hd st'.
    destruct (mark_failure_aborted ps fs w doc st0 pre mid post m0 acc0 st1 p
                st1' r2 st2 d e st3 Hfind Hsel Hpre Ht Hup Hfit Hmark Hmid Hd)
      as (Hrun & Hins & t & Hlog & Ht_in & Hmarks).
    subst st'. rewrite Hrun. simpl. split; [exact Hins|].
    exists t. by rewrite Hlog, <- app_assoc.
  - intros st0 pre post m0 acc0 st1 p st1' m all st3
      Hfind Hsel Hpre Ht Hup Hfit Hmark Hpost Hsnap st'.
    destruct (mark_failure_unwritten ps fs w doc st0 pre post m0 acc0 st1 p
                st1' m all st3 Hfind Hsel Hpre Ht Hup Hfit Hmark Hpost Hsnap)
      as (Hrun & Hins & t & Hlog & Ht_in & Hmarks).
    subst st'. rewrite Hrun. simpl. split; [exact Hins|].
    exists t. by rewrite Hlog, <- app_assoc.
Qed.

(** C9. Over any number of cycles the raw collection keeps its documents in
    place, each with its [_id], its [ingested_at] and every key other than
    [processed] and [processed_at]; a document whose [processed] is [True]
    keeps the flag and is not in the selection of any later cycle. *)
Theorem raw_only_flag_mutated ps fs (w : World) (n : nat) (st : Store)
    (i : nat) (d : RawDoc) :
  raw_col st !! i = Some d ->
  length (raw_col (run_cycles ps fs w n st)) = length (raw_col st) /\
  exists d',
    raw_col (run_cycles ps fs w n st) !! i = Some d' /\
    _id d' = _id d /\
    ingested_at d' = ingested_at d /\
    (forall k, k <> "processed" -> k <> "processed_at" ->
               fields d' !! k = fields d !! k) /\
    (fields d !! "processed" = Some (PBool true) ->
       fields d' !! "processed" = Some (PBool true) /\
       d' ∉ select_batch (raw_col (run_cycles ps fs w n st))).
Proof.
  intros Hd. pose proof (run_cycles_raw_rel ps fs w n st) as Hrel.
  unfold raw_rel in Hrel. split.
  - symmetry. eapply Forall2_length, Hrel.
  - destruct (Forall2_lookup_l _ _ _ _ _ Hrel Hd) as (d' & Hd' & H1 & H2 & H3 & H4).
    exists d'. repeat split; try done.
    + apply unprocessed_false, H4, unprocessed_false. done.
    + intros Hin. apply select_batch_elem in Hin as [_ Hin].
      apply unprocessed_false in H. rewrite (H4 H) in Hin. discriminate.
Qed.

(** ** The insights of a batch *)

Lemma scores_of_entries (l : list ProcDoc) :
  map entry_score (map entry_of l) = map sentiment_score l.
Proof. rewrite map_map. reflexivity. Qed.

Lemma scores_sorted_by_sent (l : list ProcDoc) :
  map sentiment_score (sorted_by_sent l)
  = stable_sort (fun y x => PrimFloat.ltb x y) (map sentiment_score l).
Proof.
  exact (map_stable_sort sentiment_score (fun a b => PrimFloat.ltb b a) l).
Qed.

Lemma map_last5 {A B} (f : A -> B) (l : list A) :
  map f (last5 l) = last5 (map f l).
Proof. unfold last5. by rewrite length_map, skipn_map. Qed.

(** The scores of the two rankings, as functions of the scores of the batch
    alone. *)
Lemma top_positive_scores (generated : string) (all_proc : list ProcDoc) :
  map entry_score (top_positive (compute_insights generated all_proc))
  = firstn 5 (stable_sort (fun y x => PrimFloat.ltb x y)
                (map sentiment_score all_proc)).
Proof.
  simpl. by rewrite scores_of_entries, <- firstn_map, scores_sorted_by_sent.
Qed.

Lemma top_negative_scores (generated : string) (all_proc : list ProcDoc) :
  map entry_score (top_negative (compute_insights generated all_proc))
  = last5 (stable_sort (fun y x => PrimFloat.ltb x y)
             (map sentiment_score all_proc)).
Proof.
  simpl. by rewrite scores_of_entries, map_last5, scores_sorted_by_sent.
Qed.

Lemma avg_sentiment_scores (generated : string) (all_proc : list ProcDoc) :
  avg_sentiment (compute_insights generated all_proc)
  = PrimFloat.div (py_sum (map sentiment_score all_proc))
      (Z_to_float (Z.of_nat (length (map sentiment_score all_proc)))).
Proof. simpl. by rewrite length_map. Qed.

(** C1, as the code has it. For a batch with the eleven scores of the
    example, [top_positive] holds the five largest scores in descending
    order, [top_negative] holds the five smallest scores, also in descending
    order (the tail of the same descending list, so the most negative score
    comes last), and [avg_sentiment] is the float sum of the eleven scores
    divided by 11, which is within [1e-16] of the exact mean [3/55]. *)
Theorem insights_of_eleven_scores (generated : string) (all_proc : list ProcDoc) :
  map sentiment_score all_proc = Sample.eleven_scores ->
  let i := compute_insights generated all_proc in
  map entry_score (top_positive i) = [0.9; 0.7; 0.5; 0.3; 0.2]%float /\
  map entry_score (top_negative i) = [0.0; -0.1; -0.3; -0.8; -0.9]%float /\
  avg_sentiment i = PrimFloat.div (py_sum Sample.eleven_scores) 11%float /\
  exists q, float_to_Q (avg_sentiment i) = Some q /\
            (Qabs (q - (3 # 55)) <= (1 # 10000000000000000))%Q.
Proof.
  intros H i. subst i.
  rewrite top_positive_scores, top_negative_scores, avg_sentiment_scores, H.
  repeat split; try (vm_compute; reflexivity).
  eexists. split; [vm_compute; reflexivity|]. vm_compute. discriminate.
Qed.

(** ** The daily report *)


(** * The properties on the sample data *)

Import Sample.

(** The eleven listings go through one cycle: the processed documents carry
    the eleven scores in batch order, and the snapshot is the one computed
    from them. *)
Lemma insights_of_eleven_scores_witness :
  map sentiment_score (proc_col (run calm (store_of eleven))) = eleven_scores /\
  insights_col (run calm (store_of eleven))
  = [compute_insights "2024-01-01T00:00:00+00:00"
       (proc_col (run calm (store_of eleven)))] /\
  let i := compute_insights "2024-01-01T00:00:00+00:00"
             (proc_col (run calm (store_of eleven))) in
  map entry_score (top_positive i) = [0.9; 0.7; 0.5; 0.3; 0.2]%float /\
  map entry_score (top_negative i) = [0.0; -0.1; -0.3; -0.8; -0.9]%float /\
  avg_sentiment i = PrimFloat.div (py_sum eleven_scores) 11%float /\
  exists q, float_to_Q (avg_sentiment i) = Some q /\
            (Qabs (q - (3 # 55)) <= (1 # 10000000000000000))%Q.
Proof.
  split; [vm_compute; reflexivity|].
  split; [vm_compute; reflexivity|].
  apply (insights_of_eleven_scores "2024-01-01T00:00:00+00:00"
           (proc_col (run calm (store_of eleven)))).
  vm_compute; reflexivity.
Defined.

(** C1 as stated fails: after the cycle over the eleven listings the
    snapshot's [top_negative] is not the ascending list of the claim. *)
Lemma top_negative_is_not_ascending :
  map sentiment_score (proc_col (run calm (store_of eleven))) = eleven_scores /\
  map (fun i => map entry_score (top_negative i))
    (insights_col (run calm (store_of eleven)))
  = [[0.0; -0.1; -0.3; -0.8; -0.9]%float] /\
  map (fun i => map entry_score (top_negative i))
    (insights_col (run calm (store_of eleven)))
  <> [[-0.9; -0.8; -0.3; -0.1; 0.0]%float].
Proof.
  split; [vm_compute; reflexivity|].
  split; [vm_compute; reflexivity|].
  intros H.
  apply (f_equal (fun l => match l with
                           | (x :: _) :: _ => PrimFloat.ltb x 0%float
                           | _ => false
                           end)) in H.
  vm_compute in H. discriminate H.
Qed.

(** A batch of three whose second record has a word as identifier. *)
Lemma failure_ends_the_batch_witness :
  store_fails calm (length (ops (store_of three_with_word_id))) = false /\
  select_batch (raw_col (store_of three_with_word_id))
  = [listing 1 "p01"] ++ word_id :: [listing 3 "p03"] /\
  for_each table_scores no_parse calm [listing 1 "p01"] 0%nat []
    (push_op OpFind (store_of three_with_word_id))
  = (Ok (1%nat, [processed_listing 1 "p01" 0.9 "positive" 1]), before_word_id) /\
  process_doc table_scores no_parse calm word_id before_word_id
  = (Raise ValueError, at_word_id) /\
  run calm (store_of three_with_word_id)
  = push_log (LogUnexpected ValueError) at_word_id /\
  proc_col (run calm (store_of three_with_word_id)) = proc_col before_word_id /\
  insights_col (run calm (store_of three_with_word_id)) = [].
Proof.
  assert (Hfind : store_fails calm (length (ops (store_of three_with_word_id)))
                  = false) by (vm_compute; reflexivity).
  assert (Hsel : select_batch (raw_col (store_of three_with_word_id))
                 = [listing 1 "p01"] ++ word_id :: [listing 3 "p03"])
    by (vm_compute; reflexivity).
  assert (Hpre : for_each table_scores no_parse calm [listing 1 "p01"] 0%nat []
                   (push_op OpFind (store_of three_with_word_id))
                 = (Ok (1%nat, [processed_listing 1 "p01" 0.9 "positive" 1]),
                    before_word_id))
    by (vm_compute; reflexivity).
  assert (Hd : process_doc table_scores no_parse calm word_id before_word_id
               = (Raise ValueError, at_word_id))
    by (vm_compute; reflexivity).
  destruct (failure_ends_the_batch table_scores no_parse calm
              (store_of three_with_word_id) [listing 1 "p01"]
              [listing 3 "p03"] word_id 1%nat
              [processed_listing 1 "p01" 0.9 "positive" 1] ValueError
              before_word_id at_word_id Hfind Hsel Hpre Hd)
    as (H1 & H2 & _ & H4 & _).
  unfold run.
  split; [exact Hfind|]. split; [exact Hsel|]. split; [exact Hpre|].
  split; [exact Hd|]. split; [exact H1|]. split; [exact H2|].
  rewrite H4. reflexivity.
Defined.

(** C2 as stated fails: the second of three records fails in its
    transformation, and the third is then neither upserted nor marked, nor is
    any snapshot written; only the first record reaches the processed
    store. *)
Lemma third_record_is_not_processed :
  select_batch (raw_col (store_of three_with_word_id)) = three_with_word_id /\
  fst (process_doc table_scores no_parse calm word_id before_word_id)
  = Raise ValueError /\
  map product_id (proc_col (run calm (store_of three_with_word_id))) = [1] /\
  find_proc 3 (proc_col (run calm (store_of three_with_word_id))) = None /\
  insights_col (run calm (store_of three_with_word_id)) = [] /\
  map unprocessed (raw_col (run calm (store_of three_with_word_id)))
  = [false; true; true] /\
  ops (run calm (store_of three_with_word_id)) = [OpFind; OpUpsert 1; OpMark 1] /\
  log (run calm (store_of three_with_word_id)) = [LogUnexpected ValueError].
Proof. repeat split; vm_compute; reflexivity. Qed.

(** The same happens when the failure of the second record is in its
    upsert. *)
Example third_record_after_failed_upsert :
  map product_id
    (proc_col (run (failing_at 3)
                 (store_of [listing 1 "p01"; listing 2 "p02"; listing 3 "p03"])))
  = [1] /\
  insights_col (run (failing_at 3)
                  (store_of [listing 1 "p01"; listing 2 "p02"; listing 3 "p03"]))
  = [] /\
  ops (run (failing_at 3)
         (store_of [listing 1 "p01"; listing 2 "p02"; listing 3 "p03"]))
  = [OpFind; OpUpsert 1; OpMark 1; OpUpsert 2] /\
  log (run (failing_at 3)
         (store_of [listing 1 "p01"; listing 2 "p02"; listing 3 "p03"]))
  = [LogMongoError].
Proof. repeat split; vm_compute; reflexivity. Qed.

(** A record without identifier is processed under key 0. *)
Lemma missing_id_defaults_to_zero_witness :
  truthy (py_get (fields no_id) "product_id") = false /\
  truthy (py_get (fields no_id) "id") = false /\
  doc_pid (fields no_id) = Ok 0 /\
  fst (process_doc table_scores no_parse calm no_id (store_of [no_id]))
  = Ok {| product_id := 0; title := PStr "p02"; category := PNone;
          price := 3; avg_rating := PNone; rating_count := PNone;
          sentiment_score := 0.5; sentiment_label := "positive";
          last_processed := "2024-01-01T00:00:00+00:00";
          timestamp := 1704067200001 |}.
Proof.
  assert (Hpid : truthy (py_get (fields no_id) "product_id") = false)
    by (vm_compute; reflexivity).
  assert (Hid : truthy (py_get (fields no_id) "id") = false)
    by (vm_compute; reflexivity).
  split; [exact Hpid|]. split; [exact Hid|].
  split; [|vm_compute; reflexivity].
  exact (proj1 (missing_id_defaults_to_zero table_scores no_parse calm no_id
                  Hpid Hid)).
Defined.

(** C3 as stated fails: a non-numeric string as identifier makes [int]
    raise; the record gets no identifier, nothing is stored, and the cycle
    ends in the handler. *)
Lemma word_id_is_not_zero :
  py_get (fields word_id) "product_id" = PStr "abc" /\
  py_get (fields word_id) "id" = PNone /\
  py_int (PStr "abc") = Raise ValueError /\
  doc_pid (fields word_id) <> Ok 0 /\
  doc_pid (fields word_id) = Raise ValueError /\
  proc_col (run calm (store_of [word_id])) = [] /\
  map unprocessed (raw_col (run calm (store_of [word_id]))) = [true] /\
  log (run calm (store_of [word_id])) = [LogUnexpected ValueError].
Proof.
  split; [vm_compute; reflexivity|]. split; [vm_compute; reflexivity|].
  split; [vm_compute; reflexivity|].
  split; [vm_compute; discriminate|].
  repeat split; vm_compute; reflexivity.
Qed.

(** The mark of the first of two records fails: it is logged, the second
    record is processed, and the cycle counts and aggregates both; the raw
    document of the first is still unconsumed. *)
Lemma mark_failure_is_tolerated_witness :
  select_batch (raw_col (store_of Cases.two_listings))
  = [] ++ listing 1 "p01" :: [listing 2 "p02"] /\
  store_fails (failing_at 2) (S (length (ops Cases.first_transformed))) = true /\
  log (run (failing_at 2) (store_of Cases.two_listings))
  = [LogMarkFailed 1; LogProcessed 2] /\
  insights_col (run (failing_at 2) (store_of Cases.two_listings))
  = [compute_insights "2024-01-01T00:00:00+00:00"
       [processed_listing 1 "p01" 0.9 "positive" 1;
        processed_listing 2 "p02" 0.5 "positive" 3]] /\
  entry_of (processed_listing 1 "p01" 0.9 "positive" 1)
  ∈ top_positive
      (compute_insights "2024-01-01T00:00:00+00:00"
         [processed_listing 1 "p01" 0.9 "positive" 1;
          processed_listing 2 "p02" 0.5 "positive" 3]) /\
  listing 1 "p01" ∈ raw_col (run (failing_at 2) (store_of Cases.two_listings)) /\
  fields (listing 1 "p01") !! "processed" <> Some (PBool true).
Proof.
  assert (Hnd : NoDup (map _id (raw_col (store_of Cases.two_listings))))
    by (apply (bool_decide_unpack _); vm_compute; exact I).
  assert (Hfind : store_fails (failing_at 2)
                    (length (ops (store_of Cases.two_listings))) = false)
    by (vm_compute; reflexivity).
  assert (Hsel : select_batch (raw_col (store_of Cases.two_listings))
                 = [] ++ listing 1 "p01" :: [listing 2 "p02"])
    by (vm_compute; reflexivity).
  assert (Hpre : for_each table_scores no_parse (failing_at 2) [] 0%nat []
                   (push_op OpFind (store_of Cases.two_listings))
                 = (Ok (0%nat, []), push_op OpFind (store_of Cases.two_listings)))
    by reflexivity.
  assert (Ht : transform_doc table_scores no_parse (failing_at 2)
                 (listing 1 "p01") (push_op OpFind (store_of Cases.two_listings))
               = (Ok (processed_listing 1 "p01" 0.9 "positive" 1),
                  Cases.first_transformed))
    by (vm_compute; reflexivity).
  assert (Hup : store_fails (failing_at 2) (length (ops Cases.first_transformed))
                = false) by (vm_compute; reflexivity).
  assert (Hfit : fits_int64
                   (product_id (processed_listing 1 "p01" 0.9 "positive" 1))
                 = true) by (vm_compute; reflexivity).
  assert (Hmark : store_fails (failing_at 2)
                    (S (length (ops Cases.first_transformed))) = true)
    by (vm_compute; reflexivity).
  assert (Hpost : for_each table_scores no_parse (failing_at 2)
                    [listing 2 "p02"] 1%nat
                    ([] ++ [processed_listing 1 "p01" 0.9 "positive" 1])
                    (snd (store_doc (failing_at 2) (listing 1 "p01")
                            (processed_listing 1 "p01" 0.9 "positive" 1)
                            Cases.first_transformed))
                  = (Ok (2%nat, [processed_listing 1 "p01" 0.9 "positive" 1;
                                 processed_listing 2 "p02" 0.5 "positive" 3]),
                     Cases.both_processed))
    by (vm_compute; reflexivity).
  assert (Hsnap : store_fails (failing_at 2) (length (ops Cases.both_processed))
                  = false) by (vm_compute; reflexivity).
  destruct (proj1 (proj2 (proj2 (proj2
              (mark_failure_is_tolerated table_scores no_parse (failing_at 2)
                 (listing 1 "p01") [] 0%nat []
                 (store_of Cases.two_listings)))))
              (store_of Cases.two_listings) [] [listing 2 "p02"] 0%nat []
              (push_op OpFind (store_of Cases.two_listings))
              (processed_listing 1 "p01" 0.9 "positive" 1)
              Cases.first_transformed 2%nat
              [processed_listing 1 "p01" 0.9 "positive" 1;
               processed_listing 2 "p02" 0.5 "positive" 3]
              Cases.both_processed
              Hnd Hfind Hsel Hpre Ht Hup Hfit Hmark Hpost Hsnap)
    as (_ & _ & _ & _ & Hins & _ & Htop & Hraw & Hflag).
  assert (Hlen : (length [processed_listing 1 "p01" 0.9 "positive" 1;
                          processed_listing 2 "p02" 0.5 "positive" 3] <= 5)%nat)
    by (simpl; lia).
  unfold run.
  split; [exact Hsel|]. split; [exact Hmark|].
  split; [vm_compute; reflexivity|].
  split; [rewrite Hins; vm_compute; reflexivity|].
  split; [exact (Htop Hlen)|].
  split; [exact Hraw|exact Hflag].
Defined.

(** C4 as stated fails: the store is lost after the upsert of the first
    record. Its mark fails and is logged, but the upsert of the second
    record then ends the cycle in the handler: the first record, whose
    processed document is stored, is counted in no log line and aggregated
    in no snapshot. *)
Lemma failed_mark_is_not_aggregated :
  select_batch (raw_col (store_of Cases.two_listings)) = Cases.two_listings /\
  ops (run (Cases.down_from 2) (store_of Cases.two_listings))
  = [OpFind; OpUpsert 1; OpMark 1; OpUpsert 2] /\
  log (run (Cases.down_from 2) (store_of Cases.two_listings))
  = [LogMarkFailed 1; LogMongoError] /\
  map product_id (proc_col (run (Cases.down_from 2) (store_of Cases.two_listings)))
  = [1] /\
  insights_col (run (Cases.down_from 2) (store_of Cases.two_listings)) = [] /\
  (forall n, LogProcessed n
             ∉ log (run (Cases.down_from 2) (store_of Cases.two_listings))).
Proof.
  split; [vm_compute; reflexivity|]. split; [vm_compute; reflexivity|].
  assert (Hlog : log (run (Cases.down_from 2) (store_of Cases.two_listings))
                 = [LogMarkFailed 1; LogMongoError])
    by (vm_compute; reflexivity).
  split; [exact Hlog|]. split; [vm_compute; reflexivity|].
  split; [vm_compute; reflexivity|].
  intros n Hin. rewrite Hlog in Hin.
  apply elem_of_cons in Hin as [Hin|Hin]; [discriminate|].
  apply list_elem_of_singleton in Hin. discriminate.
Qed.

(** A whole cycle in which the mark of the only record fails: the record is
    aggregated and logged as processed, the raw document is unchanged, and
    the next selection takes it again. *)
Example failed_mark_over_a_cycle :
  raw_col (run (failing_at 2) (store_of [listing 1 "p01"])) = [listing 1 "p01"] /\
  map (fun i => map entry_product_id (top_positive i))
    (insights_col (run (failing_at 2) (store_of [listing 1 "p01"]))) = [[1]] /\
  ops (run (failing_at 2) (store_of [listing 1 "p01"]))
  = [OpFind; OpUpsert 1; OpMark 1; OpReplaceInsights] /\
  log (run (failing_at 2) (store_of [listing 1 "p01"]))
  = [LogMarkFailed 1; LogProcessed 1] /\
  select_batch (raw_col (run (failing_at 2) (store_of [listing 1 "p01"])))
  = [listing 1 "p01"].
Proof. repeat split; vm_compute; reflexivity. Qed.

(** The listing is processed once in a world where its mark fails, and once
    more in the store that this leaves: the two processed documents differ
    in their timestamp only. *)
Lemma reprocessing_is_idempotent_witness :
  process_doc table_scores no_parse (failing_at 1) (listing 1 "p01")
    (store_of [listing 1 "p01"])
  = (Ok (processed_listing 1 "p01" 0.9 "positive" 1),
     snd (process_doc table_scores no_parse (failing_at 1) (listing 1 "p01")
            (store_of [listing 1 "p01"]))) /\
  raw_col (snd (process_doc table_scores no_parse (failing_at 1)
                  (listing 1 "p01") (store_of [listing 1 "p01"])))
  = [listing 1 "p01"] /\
  process_doc table_scores no_parse calm (listing 1 "p01")
    (snd (process_doc table_scores no_parse (failing_at 1) (listing 1 "p01")
            (store_of [listing 1 "p01"])))
  = (Ok (processed_listing 1 "p01" 0.9 "positive" 3),
     snd (process_doc table_scores no_parse calm (listing 1 "p01")
            (snd (process_doc table_scores no_parse (failing_at 1)
                    (listing 1 "p01") (store_of [listing 1 "p01"]))))) /\
  erase_timestamps (processed_listing 1 "p01" 0.9 "positive" 3)
  = erase_timestamps (processed_listing 1 "p01" 0.9 "positive" 1) /\
  timestamp (processed_listing 1 "p01" 0.9 "positive" 3)
  <> timestamp (processed_listing 1 "p01" 0.9 "positive" 1).
Proof.
  assert (H : process_doc table_scores no_parse (failing_at 1)
                (listing 1 "p01") (store_of [listing 1 "p01"])
              = (Ok (processed_listing 1 "p01" 0.9 "positive" 1),
                 snd (process_doc table_scores no_parse (failing_at 1)
                        (listing 1 "p01") (store_of [listing 1 "p01"]))))
    by (vm_compute; reflexivity).
  assert (H' : process_doc table_scores no_parse calm (listing 1 "p01")
                 (snd (process_doc table_scores no_parse (failing_at 1)
                         (listing 1 "p01") (store_of [listing 1 "p01"])))
               = (Ok (processed_listing 1 "p01" 0.9 "positive" 3),
                  snd (process_doc table_scores no_parse calm (listing 1 "p01")
                         (snd (process_doc table_scores no_parse (failing_at 1)
                                 (listing 1 "p01")
                                 (store_of [listing 1 "p01"]))))))
    by (vm_compute; reflexivity).
  split; [exact H|]. split; [vm_compute; reflexivity|]. split; [exact H'|].
  split; [|vm_compute; discriminate].
  exact (proj1 (reprocessing_is_idempotent table_scores no_parse
                  (failing_at 1) calm (listing 1 "p01") _ _ _ _ _ _ H H')).
Defined.

(** A store whose only raw document is consumed. *)
Lemma empty_batch_changes_nothing_witness :
  select_batch (raw_col (store_of [consumed])) = [] /\
  raw_col (run calm (store_of [consumed])) = [consumed] /\
  proc_col (run calm (store_of [consumed])) = [] /\
  insights_col (run calm (store_of [consumed])) = [] /\
  ops (run calm (store_of [consumed])) = [OpFind].
Proof.
  assert (H : select_batch (raw_col (store_of [consumed])) = [])
    by (vm_compute; reflexivity).
  split; [exact H|].
  exact (empty_batch_changes_nothing table_scores no_parse calm
           (store_of [consumed]) H).
Defined.

(** Two cycles over a store with a listing, a record without identifier and
    a consumed document, the first mark failing: the consumed document is
    still there, unchanged and not selected. *)
Lemma raw_only_flag_mutated_witness :
  raw_col (store_of [listing 1 "p01"; no_id; consumed]) !! 2%nat = Some consumed /\
  length (raw_col (run_cycles table_scores no_parse (failing_at 2) 2
                     (store_of [listing 1 "p01"; no_id; consumed]))) = 3%nat /\
  exists d',
    raw_col (run_cycles table_scores no_parse (failing_at 2) 2
               (store_of [listing 1 "p01"; no_id; consumed])) !! 2%nat = Some d' /\
    _id d' = 4 /\
    fields d' !! "title" = Some (PStr "p04") /\
    fields d' !! "processed" = Some (PBool true) /\
    d' ∉ select_batch
           (raw_col (run_cycles table_scores no_parse (failing_at 2) 2
                       (store_of [listing 1 "p01"; no_id; consumed]))).
Proof.
  assert (H : raw_col (store_of [listing 1 "p01"; no_id; consumed]) !! 2%nat
              = Some consumed) by reflexivity.
  split; [exact H|].
  destruct (raw_only_flag_mutated table_scores no_parse (failing_at 2) 2
              (store_of [listing 1 "p01"; no_id; consumed]) 2 consumed H)
    as (Hlen & d' & Hd' & Hid & _ & Hk & Hflag).
  split; [exact Hlen|].
  exists d'. split; [exact Hd'|]. split; [exact Hid|].
  split; [rewrite Hk by discriminate; vm_compute; reflexivity|].
  apply Hflag. vm_compute; reflexivity.
Defined.



(** With a ["latest"] snapshot in the collection the report serves it, also
    when it is not the first document. *)
Example daily_report_prefers_latest :
  App.daily_insights
    [stray_snapshot;
     compute_insights "2024-01-01T00:00:00+00:00"
       [processed_listing 1 "p01" 0.9 "positive" 1]]
  = Some (compute_insights "2024-01-01T00:00:00+00:00"
            [processed_listing 1 "p01" 0.9 "positive" 1]).
Proof. vm_compute; reflexivity. Qed.

Example int_of_numeric_string : py_int (PStr " 1_000 ") = Ok 1000.
Proof. reflexivity. Qed.

Example int_of_float : py_int (PFloat (-2.75)%float) = Ok (-2).
Proof. reflexivity. Qed.

Example label_at_thresholds :
  label_of 0.05%float = "positive" /\ label_of (-0.05)%float = "negative" /\
  label_of 0.049%float = "neutral" /\ label_of (-0.049)%float = "neutral" /\
  label_of 0%float = "neutral".
Proof. repeat split; reflexivity. Qed.

From Stdlib Require OrderedTypeEx.

(** * Further properties of the processor *)

(** ** One processed document per product *)

Lemma upsert_proc_ids (p : ProcDoc) (col : list ProcDoc) :
  map product_id (upsert_proc p col) = map product_id col /\
  product_id p ∈ map product_id col
  \/
  map product_id (upsert_proc p col) = map product_id col ++ [product_id p] /\
  product_id p ∉ map product_id col.
Proof.
  induction col as [|q col IH]; simpl.
  - right. split; [done|]. apply not_elem_of_nil.
  - destruct (product_id q =? product_id p) eqn:E.
    + left. apply Z.eqb_eq in E. simpl. rewrite E. split; [done|]. by left.
    + apply Z.eqb_neq in E. destruct IH as [[H1 H2]|[H1 H2]].
      * left. simpl. rewrite H1. split; [done|]. by right.
      * right. simpl. rewrite H1. split; [done|].
        intros [?|?]%elem_of_cons; [congruence|done].
Qed.

#[local] Instance one_per_product_preorder : PreOrder one_per_product.
Proof.
  split.
  - intros st. split; auto.
  - intros a b c [H1 H2] [H1' H2']. split; auto.
Qed.

Lemma one_per_product_same (st st' : Store) :
  proc_col st' = proc_col st -> one_per_product st st'.
Proof. intros H. unfold one_per_product. rewrite H. auto. Qed.

Lemma process_batch_one_per_product ps fs (w : World) (st : Store) :
  one_per_product st (process_batch ps fs w st).
Proof.
  apply (preserves_process_batch ps fs w one_per_product);
    intros; try (by apply one_per_product_same).
  unfold one_per_product. simpl.
  destruct (upsert_proc_ids p (proc_col st0)) as [[-> Hin]|[-> Hnin]].
  - auto.
  - split.
    + intros Hnd. apply NoDup_app. repeat split; [done| |apply NoDup_singleton].
      intros x Hx ->%list_elem_of_singleton. done.
    + intros pid Hpid. apply elem_of_app. by left.
Qed.

(** X1. Over any number of cycles the processed collection keeps at most one
    document per [product_id], provided it starts so, and a product that has
    a document keeps one: the processor never deletes. *)
Theorem one_document_per_product ps fs (w : World) (n : nat) (st : Store) :
  NoDup (map product_id (proc_col st)) ->
  NoDup (map product_id (proc_col (run_cycles ps fs w n st))) /\
  (forall pid, pid ∈ map product_id (proc_col st) ->
               pid ∈ map product_id (proc_col (run_cycles ps fs w n st))).
Proof.
  intros Hnd.
  assert (H : one_per_product st (run_cycles ps fs w n st)).
  { induction n as [|n IH]; [reflexivity|].
    etransitivity; [exact IH|]. apply process_batch_one_per_product. }
  destruct H as [H1 H2]. auto.
Qed.

(** ** The shape of a snapshot *)

Lemma last5_length {A} (l : list A) : length (last5 l) = Nat.min 5 (length l).
Proof. unfold last5. rewrite length_drop. lia. Qed.

Lemma last5_short {A} (l : list A) :
  (length l <= 5)%nat -> last5 l = firstn 5 l.
Proof.
  intros H. unfold last5.
  replace (length l - 5)%nat with 0%nat by lia.
  rewrite drop_0. symmetry. by apply take_ge.
Qed.

Lemma sorted_by_sent_perm (l : list ProcDoc) : sorted_by_sent l ≡ₚ l.
Proof. apply stable_sort_perm. Qed.

(** X2. Each of the two rankings of a snapshot has [min 5 n] entries for a
    batch of [n] documents, every entry is built from a document of the
    batch, and for a batch of at most five documents the two rankings are the
    same list. *)
Theorem insights_shape (generated : string) (all_proc : list ProcDoc) :
  length (top_positive (compute_insights generated all_proc))
  = Nat.min 5 (length all_proc) /\
  length (top_negative (compute_insights generated all_proc))
  = Nat.min 5 (length all_proc) /\
  (forall e, e ∈ top_positive (compute_insights generated all_proc)
                 ++ top_negative (compute_insights generated all_proc) ->
             exists d, d ∈ all_proc /\ e = entry_of d) /\
  ((length all_proc <= 5)%nat ->
   top_negative (compute_insights generated all_proc)
   = top_positive (compute_insights generated all_proc) /\
   top_positive (compute_insights generated all_proc)
   ≡ₚ map entry_of all_proc).
Proof.
  pose proof (stable_sort_length
                (fun y x => PrimFloat.ltb (sentiment_score x) (sentiment_score y))
                all_proc) as Hlen.
  fold (sorted_by_sent all_proc) in Hlen.
  unfold compute_insights. cbn [top_positive top_negative]. repeat split.
  - rewrite length_map, length_take, Hlen. lia.
  - rewrite length_map, last5_length, Hlen. lia.
  - intros e He. rewrite <- map_app in He.
    apply list_elem_of_fmap in He as (d & -> & Hd).
    exists d. split; [|done].
    rewrite <- (sorted_by_sent_perm all_proc).
    apply elem_of_app in Hd as [Hd|Hd].
    + by apply (subseteq_take 5).
    + by apply (subseteq_drop (length (sorted_by_sent all_proc) - 5)).
  - rewrite last5_short; [done|]. by rewrite Hlen.
  - rewrite take_ge by (rewrite Hlen; lia).
    by rewrite sorted_by_sent_perm.
Qed.

(** ** The selection takes the oldest documents *)

(** X3. The selection is the oldest part of the unconsumed documents: a
    document that is unconsumed and not selected was not ingested before any
    selected one; the selection has [min 500 u] documents when [u] are
    unconsumed, and with at most 500 unconsumed documents it holds all of
    them. *)
Theorem select_batch_takes_oldest (raw : list RawDoc) :
  (forall d d', d ∈ select_batch raw -> d' ∈ raw ->
     fields d' !! "processed" <> Some (PBool true) ->
     d' ∉ select_batch raw -> ingested_at d <= ingested_at d') /\
  length (select_batch raw) = Nat.min 500 (length (List.filter unprocessed raw)) /\
  ((length (List.filter unprocessed raw) <= 500)%nat ->
   select_batch raw ≡ₚ List.filter unprocessed raw).
Proof.
  unfold select_batch.
  set (sorted := stable_sort (fun y x => ingested_at y <? ingested_at x)
                   (List.filter unprocessed raw)).
  assert (Hperm : sorted ≡ₚ List.filter unprocessed raw)
    by apply stable_sort_perm.
  assert (Hsorted : StronglySorted (key_le ingested_at) sorted)
    by apply stable_sort_asc.
  repeat split.
  - intros d d' Hd Hd' Hflag Hout.
    apply (sorted_take_drop (key_le ingested_at) 500 sorted); [done..|].
    assert (Hin : d' ∈ sorted).
    { rewrite Hperm. apply list_elem_of_In, filter_In.
      split; [by apply list_elem_of_In|]. by apply unprocessed_flag. }
    rewrite <- (take_drop 500 sorted) in Hin.
    apply elem_of_app in Hin as [Hin|Hin]; done.
  - rewrite length_take, (Permutation_length Hperm). lia.
  - intros Hle. rewrite take_ge; [done|].
    rewrite (Permutation_length Hperm). lia.
Qed.

(** ** A cycle without failures *)

Lemma unprocessed_set_processed (now_ms : Z) (d : RawDoc) :
  unprocessed (set_processed now_ms d) = false.
Proof.
  unfold unprocessed, set_processed. simpl.
  rewrite lookup_insert_ne by done. by rewrite lookup_insert_eq.
Qed.

Lemma mark_raw_ids (oid now_ms : Z) (col : list RawDoc) :
  map _id (mark_raw oid now_ms col) = map _id col.
Proof.
  induction col as [|d col IH]; simpl; [done|].
  destruct (_id d =? oid); simpl; [done|by rewrite IH].
Qed.

Lemma mark_raw_elem (oid now_ms : Z) (col : list RawDoc) (d' : RawDoc) :
  d' ∈ mark_raw oid now_ms col ->
  d' ∈ col \/ exists c, c ∈ col /\ d' = set_processed now_ms c.
Proof.
  induction col as [|d col IH]; simpl; [by left|].
  destruct (_id d =? oid).
  - intros [->|H]%elem_of_cons.
    + right. exists d. split; [by left|done].
    + left. by right.
  - intros [->|H]%elem_of_cons; [left; by left|].
    destruct (IH H) as [H'|(c & Hc & ->)]; [left; by right|].
    right. exists c. split; [by right|done].
Qed.

Lemma mark_raw_marked (oid now_ms : Z) (col : list RawDoc) (d' : RawDoc) :
  NoDup (map _id col) ->
  d' ∈ mark_raw oid now_ms col -> _id d' = oid -> unprocessed d' = false.
Proof.
  induction col as [|d col IH]; simpl; intros Hnd Hd' Hid.
  - by apply elem_of_nil in Hd'.
  - apply NoDup_cons in Hnd as [Hd Hnd].
    destruct (_id d =? oid) eqn:E.
    + apply Z.eqb_eq in E. apply elem_of_cons in Hd' as [->|Hd'].
      * apply unprocessed_set_processed.
      * destruct Hd. rewrite E, <- Hid. apply list_elem_of_fmap. by exists d'.
    + apply Z.eqb_neq in E. apply elem_of_cons in Hd' as [->|Hd']; [done|].
      by apply IH.
Qed.

Section Clean.

Variable ps : string -> gmap string pyval.
Variable fs : string -> option float.
Variable w : World.
Hypothesis never_fails : forall k, store_fails w k = false.

Lemma process_doc_clean (d : RawDoc) (st : Store) :
  transformable ps fs d ->
  exists p st2,
    process_doc ps fs w d st = (Ok p, st2) /\
    raw_col st2 = mark_raw (_id d) (timestamp p) (raw_col st) /\
    log st2 = log st.
Proof.
  intros (pid & sl & price_ & rate & count & H1 & Hfit & H2 & H3 & H4 & H5).
  rewrite process_doc_eq, transform_doc_eq, H1, H2, H3, H4, H5.
  rewrite store_doc_eq, never_fails. cbn [product_id]. rewrite Hfit.
  cbv zeta. rewrite never_fails.
  do 2 eexists. split; [reflexivity|]. split; reflexivity.
Qed.

Lemma for_each_clean (cursor : list RawDoc) (n : nat) (acc : list ProcDoc)
    (st : Store) :
  Forall (transformable ps fs) cursor ->
  NoDup (map _id (raw_col st)) ->
  exists acc' st',
    for_each ps fs w cursor n acc st
    = (Ok ((n + length cursor)%nat, acc ++ acc'), st') /\
    length acc' = length cursor /\
    map _id (raw_col st') = map _id (raw_col st) /\
    log st' = log st /\
    (forall ids, consumed_ids ids st ->
                 consumed_ids (ids ++ map _id cursor) st').
Proof.
  intros Hall. revert n acc st.
  induction Hall as [|d cursor Hd Hall IH]; intros n acc st Hnd.
  - exists [], st. simpl. rewrite Nat.add_0_r, !app_nil_r.
    repeat split; try done. intros ids H. by rewrite app_nil_r.
  - destruct (process_doc_clean d st Hd) as (p & st2 & Hp & Hraw & Hlog).
    assert (Hids : map _id (raw_col st2) = map _id (raw_col st))
      by (rewrite Hraw; apply mark_raw_ids).
    destruct (IH (S n) (acc ++ [p]) st2) as (acc' & st' & Hrun & Hlen & Hids' & Hlog' & Hcons).
    { by rewrite Hids. }
    exists (p :: acc'), st'. simpl. unfold bind at 1. rewrite Hp, Hrun.
    repeat split.
    + rewrite <- app_assoc. simpl.
      replace (n + S (length cursor))%nat with (S (n + length cursor)) by lia.
      reflexivity.
    + simpl. by rewrite Hlen.
    + by rewrite Hids'.
    + by rewrite Hlog'.
    + intros ids H.
      replace (ids ++ _id d :: map _id cursor)
        with ((ids ++ [_id d]) ++ map _id cursor) by (by rewrite <- app_assoc).
      apply Hcons. intros d' Hd' Hin. rewrite Hraw in Hd'.
      apply elem_of_app in Hin as [Hin|Hin%list_elem_of_singleton].
      * destruct (mark_raw_elem _ _ _ _ Hd') as [Hold|(c & Hc & ->)];
          [by apply H|apply unprocessed_set_processed].
      * by apply (mark_raw_marked (_id d) (timestamp p) (raw_col st)).
Qed.

(** A cycle in which nothing fails: its final state, from the state that the
    loop leaves. *)
Lemma process_batch_clean (st : Store) :
  Forall (transformable ps fs) (select_batch (raw_col st)) ->
  NoDup (map _id (raw_col st)) ->
  exists acc st1,
    for_each ps fs w (select_batch (raw_col st)) 0%nat [] (push_op OpFind st)
    = (Ok (length (select_batch (raw_col st)), acc), st1) /\
    length acc = length (select_batch (raw_col st)) /\
    map _id (raw_col st1) = map _id (raw_col st) /\
    log st1 = log st /\
    consumed_ids (map _id (select_batch (raw_col st))) st1 /\
    process_batch ps fs w st
    = push_log (LogProcessed (length (select_batch (raw_col st))))
        match acc with
        | [] => st1
        | _ :: _ =>
            set_insights
              (replace_latest
                 (compute_insights (isoformat (now w (clock st1))) acc))
              (push_op OpReplaceInsights (tick st1))
        end.
Proof.
  intros Hall Hnd.
  destruct (for_each_clean (select_batch (raw_col st)) 0%nat []
              (push_op OpFind st) Hall Hnd)
    as (acc & st1 & Hrun & Hlen & Hids & Hlog & Hcons).
  simpl in Hrun. exists acc, st1.
  split; [exact Hrun|]. split; [exact Hlen|]. split; [exact Hids|].
  split; [exact Hlog|]. split.
  { apply (Hcons []). intros d' _ Hin. by apply elem_of_nil in Hin. }
  cbv beta delta [process_batch try_except process_batch_body].
  rewrite (bind_ok _ _ st (select_batch (raw_col st)) (push_op OpFind st)).
  2:{ by rewrite raw_find_eq, never_fails. }
  rewrite (bind_ok _ _ _ _ _ Hrun). cbn [fst snd].
  destruct acc as [|p acc]; [reflexivity|].
  cbv beta iota delta [bind utcnow logger modify store_op].
  rewrite never_fails. reflexivity.
Qed.

End Clean.

(** X4. A cycle in which no store operation fails and every selected document
    can be transformed, to an identifier of at most 64 bits, consumes its
    whole batch, given that the raw documents have distinct [_id]s: every document of the batch ends up with
    [processed] set to [True], the cycle logs the size of the batch as the
    number of processed records, and no document of the batch is in the next
    selection; with at most 500 unconsumed documents the next selection is
    empty. *)
Theorem clean_cycle_consumes_batch ps fs (w : World) (st : Store) :
  (forall k, store_fails w k = false) ->
  NoDup (map _id (raw_col st)) ->
  Forall (transformable ps fs) (select_batch (raw_col st)) ->
  map _id (raw_col (process_batch ps fs w st)) = map _id (raw_col st) /\
  (forall d', d' ∈ raw_col (process_batch ps fs w st) ->
     _id d' ∈ map _id (select_batch (raw_col st)) ->
     fields d' !! "processed" = Some (PBool true)) /\
  (forall d', d' ∈ select_batch (raw_col (process_batch ps fs w st)) ->
     _id d' ∉ map _id (select_batch (raw_col st))) /\
  log (process_batch ps fs w st)
  = log st ++ [LogProcessed (length (select_batch (raw_col st)))] /\
  ((length (List.filter unprocessed (raw_col st)) <= 500)%nat ->
   select_batch (raw_col (process_batch ps fs w st)) = []).
Proof.
  intros Hok Hnd Hall.
  destruct (process_batch_clean ps fs w Hok st Hall Hnd)
    as (acc & st1 & _ & _ & Hids & Hlog & Hcons & Hrun).
  assert (Hraw : raw_col (process_batch ps fs w st) = raw_col st1).
  { rewrite Hrun. by destruct acc. }
  assert (Hdone : forall d', d' ∈ raw_col (process_batch ps fs w st) ->
            _id d' ∈ map _id (select_batch (raw_col st)) ->
            unprocessed d' = false).
  { intros d' Hd' Hin. rewrite Hraw in Hd'. by apply Hcons. }
  split; [by rewrite Hraw|]. split.
  { intros d' Hd' Hin. by apply unprocessed_false, Hdone. }
  split.
  { intros d' Hd' Hin. apply select_batch_elem in Hd' as [Hd' Hun].
    rewrite (Hdone d' Hd' Hin) in Hun. discriminate. }
  split.
  { rewrite Hrun. destruct acc; simpl; by rewrite Hlog. }
  intros Hle. apply select_batch_none. intros d' Hd'.
  destruct (unprocessed d') eqn:Hun; [|done].
  pose proof (process_batch_raw_rel ps fs w st) as Hrel. unfold raw_rel in Hrel.
  apply list_elem_of_lookup in Hd' as [i Hi].
  destruct (Forall2_lookup_r _ _ _ _ _ Hrel Hi) as (d & Hd & Hid & _ & _ & Hmono).
  assert (Hd_un : unprocessed d = true).
  { destruct (unprocessed d) eqn:E; [done|]. rewrite (Hmono eq_refl) in Hun.
    discriminate. }
  assert (Hsel : d ∈ select_batch (raw_col st)).
  { unfold select_batch. rewrite take_ge.
    - rewrite stable_sort_perm. apply list_elem_of_In, filter_In.
      split; [|done]. apply list_elem_of_In. by eapply list_elem_of_lookup_2.
    - rewrite stable_sort_length. lia. }
  assert (unprocessed d' = false); [|congruence].
  apply Hdone; [by eapply list_elem_of_lookup_2|].
  rewrite Hid. apply list_elem_of_fmap. by exists d.
Qed.

(** ** The snapshot of a cycle *)

Lemma replace_latest_found (i : Insights) (col : list Insights) :
  is_latest i = true ->
  App.find_one_latest (replace_latest i col) = Some i.
Proof.
  intros Hi. unfold App.find_one_latest.
  induction col as [|j col IH]; simpl.
  - by rewrite Hi.
  - destruct (is_latest j) eqn:E; simpl.
    + by rewrite Hi.
    + by rewrite E.
Qed.

Lemma replace_latest_count (i : Insights) (col : list Insights) :
  is_latest i = true ->
  latest_count (replace_latest i col) = Nat.max 1 (latest_count col).
Proof.
  intros Hi. unfold latest_count.
  induction col as [|j col IH]; simpl.
  - by rewrite Hi.
  - destruct (is_latest j) eqn:E; simpl.
    + rewrite Hi. simpl. lia.
    + rewrite E. exact IH.
Qed.

Lemma replace_latest_elem (i j : Insights) (col : list Insights) :
  j ∈ replace_latest i col -> j = i \/ j ∈ col.
Proof.
  induction col as [|k col IH]; simpl.
  - intros ->%list_elem_of_singleton. by left.
  - destruct (is_latest k).
    + intros [->|H]%elem_of_cons; [by left|right; by right].
    + intros [->|H]%elem_of_cons; [right; by left|].
      destruct (IH H); [by left|right; by right].
Qed.

(** X5. When the loop of a cycle ends normally with at least one processed
    document and the snapshot write goes through, the insights collection
    holds the snapshot computed from the documents of this cycle alone in
    place of the previous ["latest"] document (or as a new document when
    there was none); the daily report then serves exactly this snapshot, and
    the number of ["latest"] documents does not grow beyond one. *)
Theorem snapshot_replaces_latest ps fs (w : World) (st : Store) (n : nat)
    (p : ProcDoc) (acc : list ProcDoc) (st1 : Store) :
  store_fails w (length (ops st)) = false ->
  for_each ps fs w (select_batch (raw_col st)) 0%nat [] (push_op OpFind st)
  = (Ok (n, p :: acc), st1) ->
  store_fails w (length (ops st1)) = false ->
  insights_col (process_batch ps fs w st)
  = replace_latest (compute_insights (isoformat (now w (clock st1))) (p :: acc))
      (insights_col st) /\
  App.daily_insights (insights_col (process_batch ps fs w st))
  = Some (compute_insights (isoformat (now w (clock st1))) (p :: acc)) /\
  latest_count (insights_col (process_batch ps fs w st))
  = Nat.max 1 (latest_count (insights_col st)) /\
  (forall j, j ∈ insights_col (process_batch ps fs w st) ->
     j = compute_insights (isoformat (now w (clock st1))) (p :: acc) \/
     j ∈ insights_col st).
Proof.
  intros Hfind Hrun Hrep.
  assert (Hins : insights_col st1 = insights_col st).
  { pose proof (for_each_same_insights ps fs w (select_batch (raw_col st))
                  0%nat [] (push_op OpFind st)) as H.
    by rewrite Hrun in H. }
  assert (Hcol : insights_col (process_batch ps fs w st)
                 = replace_latest
                     (compute_insights (isoformat (now w (clock st1))) (p :: acc))
                     (insights_col st)).
  { cbv beta delta [process_batch try_except process_batch_body].
    rewrite (bind_ok _ _ st (select_batch (raw_col st)) (push_op OpFind st)).
    2:{ by rewrite raw_find_eq, Hfind. }
    rewrite (bind_ok _ _ _ _ _ Hrun). cbn [fst snd].
    cbv beta iota delta [bind utcnow logger modify store_op].
    change (ops (tick st1)) with (ops st1). rewrite Hrep. simpl.
    by rewrite Hins. }
  rewrite Hcol. split; [done|]. split.
  { unfold App.daily_insights. by rewrite replace_latest_found. }
  split; [by apply replace_latest_count|].
  intros j. apply replace_latest_elem.
Qed.

(** ** Optional fields of a raw document *)

(** X6. The [rating] of a raw document must be a document or be absent: when
    the key holds anything else, [None] included, the transformation raises
    and yields no processed document; when the key is absent both rating
    fields of the processed document are [None]; and when it holds a
    document they are its [rate] and [count], [None] where missing. *)
Theorem rating_must_be_a_document ps fs (w : World) (doc : RawDoc) :
  (forall v, fields doc !! "rating" = Some v -> (forall r, v <> PDict r) ->
     forall st, exists e st1, transform_doc ps fs w doc st = (Raise e, st1)) /\
  (fields doc !! "rating" = None ->
     forall st p st1, transform_doc ps fs w doc st = (Ok p, st1) ->
       avg_rating p = PNone /\ rating_count p = PNone) /\
  (forall r, fields doc !! "rating" = Some (PDict r) ->
     forall st p st1, transform_doc ps fs w doc st = (Ok p, st1) ->
       avg_rating p = py_get r "rate" /\ rating_count p = py_get r "count").
Proof.
  split; [|split].
  - intros v Hv Hnot st. rewrite transform_doc_eq.
    unfold py_get_default. rewrite Hv. simpl.
    assert (Hget : forall k, py_method_get v k = Raise AttributeError).
    { intros k. destruct v; try reflexivity. by destruct (Hnot d). }
    rewrite !Hget.
    repeat split_result; eauto.
  - intros Hnone st p st1. rewrite transform_doc_eq.
    unfold py_get_default. rewrite Hnone. simpl.
    repeat split_result; try discriminate.
    intros H. inversion H. split; reflexivity.
  - intros r Hr st p st1. rewrite transform_doc_eq.
    unfold py_get_default. rewrite Hr. simpl.
    repeat split_result; try discriminate.
    intros H. inversion H. split; reflexivity.
Qed.

(** X7. A raw document that has an identifier and none of [title],
    [description], [price] and [rating] is transformed without error: the
    scorer is given the text [". "], the price is [0.0] and the other missing
    fields are [None]. *)
Theorem missing_fields_default ps fs (w : World) (doc : RawDoc) (pid : Z)
    (score : float) (st : Store) :
  fields doc !! "title" = None ->
  fields doc !! "description" = None ->
  fields doc !! "price" = None ->
  fields doc !! "rating" = None ->
  doc_pid (fields doc) = Ok pid ->
  py_float fs (py_get_default (ps ". ") "compound" (PFloat 0)) = Ok score ->
  transform_doc ps fs w doc st
  = (Ok {| product_id := pid;
           title := PNone;
           category := py_get (fields doc) "category";
           price := 0;
           avg_rating := PNone;
           rating_count := PNone;
           sentiment_score := score;
           sentiment_label := label_of score;
           last_processed := isoformat (now w (clock st));
           timestamp := timestamp_ms (now w (S (clock st))) |},
     tick (tick st)).
Proof.
  intros Ht Hd Hp Hr Hpid Hscore.
  rewrite transform_doc_eq, Hpid.
  unfold analyze_product, py_get_default, py_get.
  rewrite Ht, Hd, Hp, Hr. simpl.
  change (("" +:+ ". ") +:+ "") with ". ".
  unfold py_get_default in Hscore. rewrite Hscore. simpl.
  unfold py_get. rewrite !lookup_empty. reflexivity.
Qed.

(** * Further properties of the daily report *)

(** ** Counting mentions *)

Lemma bump_keys (pid : Z) (counts : list (Z * nat)) :
  NoDup (map fst counts) -> NoDup (map fst (App.bump pid counts)).
Proof.
  induction counts as [|[k v] counts IH]; simpl; intros Hnd.
  - apply NoDup_singleton.
  - apply NoDup_cons in Hnd as [Hk Hnd].
    destruct (k =? pid) eqn:E; simpl.
    + by apply NoDup_cons.
    + apply NoDup_cons. split; [|by apply IH].
      intros Hin. apply Hk. clear IH Hk Hnd.
      induction counts as [|[k' v'] counts IH]; simpl in *.
      * apply list_elem_of_singleton in Hin. apply Z.eqb_neq in E. congruence.
      * destruct (k' =? pid); simpl in *; [done|].
        apply elem_of_cons in Hin as [->|Hin]; [by left|right; by apply IH].
Qed.

Lemma bump_count (pid q : Z) (counts : list (Z * nat)) :
  count_in q (App.bump pid counts)
  = ((if (pid =? q)%Z then 1 else 0) + count_in q counts)%nat.
Proof.
  induction counts as [|[k v] counts IH]; simpl.
  - lia.
  - destruct (k =? pid) eqn:E; simpl.
    + apply Z.eqb_eq in E. subst k. destruct (pid =? q); lia.
    + rewrite IH. lia.
Qed.

Lemma bump_positive (pid : Z) (counts : list (Z * nat)) :
  Forall (fun kv => (1 <= snd kv)%nat) counts ->
  Forall (fun kv => (1 <= snd kv)%nat) (App.bump pid counts).
Proof.
  induction counts as [|[k v] counts IH]; simpl; intros H.
  - repeat constructor.
  - apply Forall_cons in H as [Hv H].
    destruct (k =? pid); constructor; simpl in *; auto; lia.
Qed.

Lemma count_mentions_spec (docs : list RawDoc) (counts counts' : list (Z * nat)) :
  App.count_mentions docs counts = Ok counts' ->
  (NoDup (map fst counts) -> NoDup (map fst counts')) /\
  (Forall (fun kv => (1 <= snd kv)%nat) counts ->
   Forall (fun kv => (1 <= snd kv)%nat) counts') /\
  (forall q, count_in q counts' = (count_in q counts + mentions q docs)%nat).
Proof.
  revert counts. induction docs as [|d docs IH]; simpl; intros counts H.
  - injection H as <-. repeat split; auto; intros q; unfold mentions; simpl; lia.
  - unfold mentions. simpl. unfold mention_of at 1.
    destruct (py_int (py_or (py_get (fields d) "product_id") (PInt 0)))
      as [pid|e]; [|discriminate].
    destruct (IH _ H) as (H1 & H2 & H3). repeat split.
    + intros Hnd. by apply H1, bump_keys.
    + intros Hpos. by apply H2, bump_positive.
    + intros q. rewrite H3, bump_count. fold (mentions q docs).
      unfold mentions. destruct (pid =? q); simpl; lia.
Qed.

Lemma count_mentions_raises (docs : list RawDoc) (counts : list (Z * nat))
    (d : RawDoc) (e : exn) :
  d ∈ docs -> mention_of d = Raise e ->
  exists e', App.count_mentions docs counts = Raise e'.
Proof.
  revert counts. induction docs as [|c docs IH]; intros counts Hd He.
  - by apply elem_of_nil in Hd.
  - simpl. apply elem_of_cons in Hd as [<-|Hd].
    + unfold mention_of in He. rewrite He. eauto.
    + destruct (py_int _); [by apply IH|eauto].
Qed.

Lemma count_in_elem (pid : Z) (c : nat) (counts : list (Z * nat)) :
  NoDup (map fst counts) -> (pid, c) ∈ counts -> count_in pid counts = c.
Proof.
  induction counts as [|[k v] counts IH]; simpl; intros Hnd Hin.
  - by apply elem_of_nil in Hin.
  - apply NoDup_cons in Hnd as [Hk Hnd].
    assert (Hrest : forall c', (pid, c') ∈ counts -> pid ∈ map fst counts).
    { intros c' H. apply list_elem_of_fmap. by exists (pid, c'). }
    apply elem_of_cons in Hin as [[= <- <-]|Hin].
    + rewrite Z.eqb_refl.
      assert (count_in pid counts = 0%nat); [|lia].
      clear IH Hnd Hrest. induction counts as [|[k' v'] counts IH]; simpl; [done|].
      destruct (k' =? pid) eqn:E.
      * apply Z.eqb_eq in E. subst. destruct Hk. by left.
      * simpl. apply IH. intros H. apply Hk. by right.
    + destruct (k =? pid) eqn:E.
      * apply Z.eqb_eq in E. subst. destruct Hk. by eapply Hrest.
      * simpl. by apply IH.
Qed.

(** Descending order of the counts, by the ascending order of their
    opposites. *)
Lemma stable_sort_ext {A} (f g : A -> A -> bool) (l : list A) :
  (forall a b, f a b = g a b) -> stable_sort f l = stable_sort g l.
Proof.
  intros H. induction l as [|x l IH]; [done|].
  change (insert_sorted f x (stable_sort f l)
          = insert_sorted g x (stable_sort g l)).
  rewrite IH. generalize (stable_sort g l). intros m.
  induction m as [|y m IHm]; simpl; [done|]. by rewrite H, IHm.
Qed.

Lemma StronglySorted_weaken {A} (R R' : A -> A -> Prop) (l : list A) :
  (forall a b, R a b -> R' a b) -> StronglySorted R l -> StronglySorted R' l.
Proof.
  intros H. induction 1 as [|x l Hl IH Hx]; constructor; [done|].
  eapply Forall_impl; [exact Hx|]. auto.
Qed.

Lemma NoDup_firstn {A} (n : nat) (l : list A) : NoDup l -> NoDup (firstn n l).
Proof.
  intros H. rewrite <- (take_drop n l) in H. by apply NoDup_app in H as [? _].
Qed.

Lemma mentions_sorted (counts : list (Z * nat)) :
  StronglySorted (fun a b => (snd b <= snd a)%nat)
    (stable_sort (fun y x => (snd x <? snd y)%nat) counts).
Proof.
  rewrite (stable_sort_ext _ (key_before (fun kv => - Z.of_nat (snd kv)))).
  - eapply StronglySorted_weaken; [|apply stable_sort_asc].
    unfold key_le. intros a b. simpl. lia.
  - intros a b. unfold key_before. simpl.
    destruct (Nat.ltb_spec (snd b) (snd a)), (Z.ltb_spec (- Z.of_nat (snd a)) (- Z.of_nat (snd b))); lia.
Qed.

(** X8. In a daily report that is served, [total_posts] is the number of raw
    documents ingested since [since_ms]; [top_mentions] has at most ten
    entries, no product twice, in descending order of mentions, and the
    count of each entry is the number of those documents whose [product_id]
    converts to that product (at least one). The report is served when
    every [product_id] converts and the insights document can be rendered.
    When the [product_id] of one of those documents, not a string with a
    character outside ASCII, does not convert to an integer, the answer is
    the generic error instead. *)
Theorem daily_report_counts (since_ms : Z) (raw : list RawDoc)
    (col : list Insights) :
  (forall data, App.api_daily since_ms true raw col = App.RespOk data ->
     App.total_posts data = length (App.recent since_ms raw) /\
     (length (App.top_mentions data) <= 10)%nat /\
     NoDup (map fst (App.top_mentions data)) /\
     StronglySorted (fun a b => (snd b <= snd a)%nat) (App.top_mentions data) /\
     (forall pid c, (pid, c) ∈ App.top_mentions data ->
        c = mentions pid (App.recent since_ms raw) /\ (1 <= c)%nat)) /\
  (forall counts,
     App.count_mentions (App.recent since_ms raw) [] = Ok counts ->
     from_option App.jsonable true (App.daily_insights col) = true ->
     exists data, App.api_daily since_ms true raw col = App.RespOk data) /\
  (forall d e, d ∈ App.recent since_ms raw ->
     ascii_value (py_get (fields d) "product_id") = true ->
     mention_of d = Raise e ->
     App.api_daily since_ms true raw col = App.RespError).
Proof.
  split; [|split].
  - intros data. unfold App.api_daily.
    destruct (App.count_mentions (App.recent since_ms raw) []) as [counts|e] eqn:E;
      [|discriminate].
    destruct (from_option App.jsonable true (App.daily_insights col));
      [|discriminate].
    intros [= <-]. cbn [App.total_posts App.top_mentions].
    destruct (count_mentions_spec _ _ _ E) as (Hnd & Hpos & Hcount).
    specialize (Hnd (NoDup_nil_2)). specialize (Hpos (Forall_nil_2 _)).
    set (sorted := stable_sort (fun y x => (snd x <? snd y)%nat) counts).
    assert (Hperm : sorted ≡ₚ counts) by apply stable_sort_perm.
    split; [done|]. split; [rewrite length_take; lia|]. split.
    { rewrite <- firstn_map. apply NoDup_firstn. by rewrite Hperm. }
    split; [apply StronglySorted_firstn, mentions_sorted|].
    intros pid c Hin. apply (subseteq_take 10) in Hin. rewrite Hperm in Hin.
    split.
    + rewrite <- (count_in_elem pid c counts Hnd Hin), Hcount. simpl. lia.
    + rewrite Forall_forall in Hpos. exact (Hpos _ Hin).
  - intros counts Hc Hj. unfold App.api_daily. rewrite Hc, Hj. eauto.
  - intros d e Hd _ He. unfold App.api_daily.
    destruct (count_mentions_raises _ [] d e Hd He) as [e' ->]. done.
Qed.

(** * Further properties of the listings *)

(** ** Sorting in descending order of a key *)

Section Descending.

Context {A K : Type}.
Variable key : A -> K.
Variable ltb : K -> K -> bool.
Variable le : K -> K -> Prop.
Variable good : K -> Prop.

Hypothesis le_trans : forall a b c, le a b -> le b c -> le a c.
Hypothesis ltb_le : forall a b, ltb a b = true -> le a b.
Hypothesis not_ltb_le : forall a b, good a -> good b -> ltb a b = false -> le b a.

Lemma insert_sorted_desc (x : A) (l : list A) :
  good (key x) -> Forall (fun y => good (key y)) l ->
  StronglySorted (fun a b => le (key b) (key a)) l ->
  StronglySorted (fun a b => le (key b) (key a))
    (insert_sorted (fun y x => ltb (key x) (key y)) x l).
Proof.
  intros Hx Hgood Hs. induction Hs as [|y l Hl IH Hy]; simpl.
  - repeat constructor.
  - apply Forall_cons in Hgood as [Hgy Hgood].
    destruct (ltb (key x) (key y)) eqn:E.
    + constructor; [by apply IH|].
      rewrite insert_sorted_perm. constructor; [by apply ltb_le|exact Hy].
    + assert (Hyx : le (key y) (key x)) by (by apply not_ltb_le).
      constructor; [by constructor|].
      constructor; [exact Hyx|].
      eapply Forall_impl; [exact Hy|]. simpl. intros z Hz.
      by apply (le_trans _ (key y)).
Qed.

Lemma stable_sort_desc (l : list A) :
  Forall (fun y => good (key y)) l ->
  StronglySorted (fun a b => le (key b) (key a))
    (stable_sort (fun y x => ltb (key x) (key y)) l).
Proof.
  induction l as [|x l IH]; intros H; [constructor|].
  apply Forall_cons in H as [Hx H].
  change (StronglySorted (fun a b => le (key b) (key a))
            (insert_sorted (fun y x => ltb (key x) (key y)) x
               (stable_sort (fun y x => ltb (key x) (key y)) l))).
  apply insert_sorted_desc; [done| |by apply IH].
  rewrite stable_sort_perm. exact H.
Qed.

End Descending.

(** The order of strings. *)
Lemma string_leb_trans (a b c : string) :
  String.leb a b = true -> String.leb b c = true -> String.leb a c = true.
Proof.
  unfold String.leb.
  destruct (a ?= b)%string eqn:Eab; try discriminate;
    destruct (b ?= c)%string eqn:Ebc; try discriminate; intros _ _.
  - apply String.compare_eq_iff in Eab, Ebc. subst.
    pose proof (proj2 (OrderedTypeEx.String_as_OT.cmp_eq c c) eq_refl) as H.
    unfold OrderedTypeEx.String_as_OT.cmp in H. by rewrite H.
  - apply String.compare_eq_iff in Eab. subst. by rewrite Ebc.
  - apply String.compare_eq_iff in Ebc. subst. by rewrite Eab.
  - apply OrderedTypeEx.String_as_OT.cmp_lt in Eab, Ebc.
    pose proof (OrderedTypeEx.String_as_OT.lt_trans _ _ _ Eab Ebc) as H.
    apply OrderedTypeEx.String_as_OT.cmp_lt in H. unfold OrderedTypeEx.String_as_OT.cmp in H. by rewrite H.
Qed.

Lemma string_ltb_leb (a b : string) :
  String.ltb a b = true -> String.leb a b = true.
Proof.
  unfold String.ltb, String.leb. by destruct (a ?= b)%string.
Qed.

Lemma string_not_ltb_leb (a b : string) :
  String.ltb a b = false -> String.leb b a = true.
Proof.
  unfold String.ltb, String.leb. rewrite (String.compare_antisym a b).
  by destruct (b ?= a)%string.
Qed.

(** X9. The summary that is served lists every processed document exactly
    once, in descending order of [last_processed]; when the store does not
    answer, the response is the generic error. *)
Theorem summary_lists_every_product (col : list ProcDoc) :
  (exists data, Reads.api_summary true col = Reads.RespOk data /\
     data ≡ₚ col /\
     StronglySorted
       (fun a b => String.leb (last_processed b) (last_processed a) = true)
       data) /\
  Reads.api_summary false col = Reads.RespError.
Proof.
  split; [|done]. eexists. split; [reflexivity|]. split.
  - apply stable_sort_perm.
  - apply (stable_sort_desc last_processed String.ltb
             (fun a b => String.leb a b = true) (fun _ => True)).
    + apply string_leb_trans.
    + apply string_ltb_leb.
    + intros a b _ _. apply string_not_ltb_leb.
    + by apply Forall_forall.
Qed.

(** ** The latest raw documents *)

Lemma apply_limit_firstn {A} (first_batch : nat) (limit : Z) (l : list A) :
  limit <> 0 ->
  Reads.apply_limit first_batch limit l
  = firstn (if limit <? 0 then Nat.min (Z.to_nat (- limit)) first_batch
            else Z.to_nat limit) l.
Proof.
  intros H. unfold Reads.apply_limit.
  destruct (Z.eqb_spec limit 0); [done|]. by destruct (limit <? 0).
Qed.

(** X10. [api_latest] serves the raw documents in descending order of
    [ingested_at], without their [_id]: all of them when the [limit]
    parameter reads as 0, the first [limit] of that order when it is
    positive, and for a negative [limit] the first [-limit] or the first
    batch of the server if that is less; 5 when the request has no [limit].
    No document that is left out was ingested after one that is served. An
    ASCII [limit] that does not read as an integer, or that does not fit 64
    bits, gives the generic error. *)
Theorem latest_respects_limit (first_batch : nat) (limit_arg : option string)
    (raw : list RawDoc) :
  (forall limit, parse_int (default "5" limit_arg) = Some limit ->
     Z.abs limit < 2 ^ 63 ->
     exists served,
       Reads.api_latest first_batch limit_arg true raw
       = Reads.RespOk (map Reads.project_raw served) /\
       length served
       = (if limit =? 0 then length raw
          else if limit <? 0
               then Nat.min (Nat.min (Z.to_nat (- limit)) first_batch) (length raw)
               else Nat.min (Z.to_nat limit) (length raw)) /\
       StronglySorted (fun a b => ingested_at b <= ingested_at a) served /\
       (forall d, d ∈ served -> d ∈ raw) /\
       (forall d d', d ∈ served -> d' ∈ raw -> d' ∉ served ->
                     ingested_at d' <= ingested_at d)) /\
  (forall read_ok,
     ascii_only (default "5" limit_arg) = true ->
     match parse_int (default "5" limit_arg) with
     | Some limit => 2 ^ 63 <= Z.abs limit
     | None => True
     end ->
     Reads.api_latest first_batch limit_arg read_ok raw = Reads.RespError) /\
  (limit_arg = None ->
   exists served,
     Reads.api_latest first_batch limit_arg true raw
     = Reads.RespOk (map Reads.project_raw served) /\
     length served = Nat.min 5 (length raw)).
Proof.
  set (sorted := stable_sort (fun y x => ingested_at x <? ingested_at y) raw).
  assert (Hperm : sorted ≡ₚ raw) by apply stable_sort_perm.
  assert (Hsorted : StronglySorted (fun a b => ingested_at b <= ingested_at a) sorted).
  { apply (stable_sort_desc ingested_at Z.ltb Z.le (fun _ => True)).
    - intros a b c. lia.
    - intros a b H%Z.ltb_lt. lia.
    - intros a b _ _ H%Z.ltb_ge. lia.
    - by apply Forall_forall. }
  split; [|split].
  - intros limit Hlimit Hfit.
    exists (Reads.apply_limit first_batch limit sorted).
    unfold Reads.api_latest. rewrite Hlimit.
    apply Z.ltb_lt in Hfit. rewrite Hfit. split; [done|].
    destruct (Z.eqb_spec limit 0) as [->|Hnz].
    + unfold Reads.apply_limit. simpl.
      split; [by rewrite (Permutation_length Hperm)|].
      split; [exact Hsorted|]. split.
      * intros d Hd. by rewrite <- Hperm.
      * intros d d' _ Hd' Hout. destruct Hout. by rewrite Hperm.
    + rewrite apply_limit_firstn by done.
      set (n := if limit <? 0 then Nat.min (Z.to_nat (- limit)) first_batch
                else Z.to_nat limit).
      split.
      { rewrite length_take, (Permutation_length Hperm). subst n.
        by destruct (limit <? 0). }
      split; [by apply StronglySorted_firstn|]. split.
      * intros d Hd%(subseteq_take _). by rewrite <- Hperm.
      * intros d d' Hd Hd' Hout.
        apply (sorted_take_drop _ n sorted d d' Hsorted Hd).
        rewrite <- Hperm, <- (take_drop n sorted) in Hd'.
        apply elem_of_app in Hd' as [Hd'|Hd']; done.
  - intros read_ok _. unfold Reads.api_latest.
    destruct (parse_int (default "5" limit_arg)) as [limit|]; [|done].
    intros H%Z.ltb_ge. rewrite H. by rewrite andb_false_r.
  - intros ->. exists (Reads.apply_limit first_batch 5 sorted). split; [done|].
    rewrite apply_limit_firstn by done. simpl.
    by rewrite length_take, (Permutation_length Hperm).
Qed.

(** * Further properties of the rankings *)

(** ** The order of floats that are not NaN *)

Section FloatOrder.

Ltac close_bool := intros; first [reflexivity | discriminate].

Ltac split_compare :=
  repeat match goal with
         | |- context [(?a ?= ?b)%Z] => destruct (Z.compare_spec a b)
         end;
  repeat match goal with
         | |- context [PosDef.Pos.compare_cont Eq ?a ?b] =>
             change (PosDef.Pos.compare_cont Eq a b) with (Pos.compare a b);
             destruct (Pos.compare_spec a b)
         end;
  cbv [CompOpp]; intros; first [reflexivity | discriminate | lia].

Lemma SFleb_trans (x y z : spec_float) :
  SFleb x y = true -> SFleb y z = true -> SFleb x z = true.
Proof.
  destruct x as [sx|sx| |sx mx ex], y as [sy|sy| |sy my ey],
           z as [sz|sz| |sz mz ez];
    cbv [SFleb SFcompare];
    try destruct sx; try destruct sy; try destruct sz;
    try close_bool; split_compare.
Qed.

Lemma SFltb_leb (x y : spec_float) : SFltb x y = true -> SFleb x y = true.
Proof.
  unfold SFltb, SFleb. by destruct (SFcompare x y) as [[]|].
Qed.

Lemma SFnot_ltb_leb (x y : spec_float) :
  x <> S754_nan -> y <> S754_nan -> SFltb x y = false -> SFleb y x = true.
Proof.
  destruct x as [sx|sx| |sx mx ex], y as [sy|sy| |sy my ey];
    cbv [SFltb SFleb SFcompare]; intros Hx Hy;
    try destruct sx; try destruct sy; try done; split_compare.
Qed.

Lemma SFleb_refl (x : spec_float) : x <> S754_nan -> SFleb x x = true.
Proof.
  destruct x as [sx|sx| |sx mx ex]; cbv [SFleb SFcompare]; intros Hx;
    try destruct sx; try done; split_compare.
Qed.

Lemma not_nan_spec (f : float) :
  PrimFloat.is_nan f = false -> Prim2SF f <> S754_nan.
Proof.
  unfold PrimFloat.is_nan. rewrite FloatAxioms.eqb_spec. intros H E. rewrite E in H.
  discriminate.
Qed.

Lemma float_leb_trans (a b c : float) :
  PrimFloat.leb a b = true -> PrimFloat.leb b c = true ->
  PrimFloat.leb a c = true.
Proof. rewrite !FloatAxioms.leb_spec. apply SFleb_trans. Qed.

Lemma float_ltb_leb (a b : float) :
  PrimFloat.ltb a b = true -> PrimFloat.leb a b = true.
Proof. rewrite FloatAxioms.ltb_spec, FloatAxioms.leb_spec. apply SFltb_leb. Qed.

Lemma float_not_ltb_leb (a b : float) :
  PrimFloat.is_nan a = false -> PrimFloat.is_nan b = false ->
  PrimFloat.ltb a b = false -> PrimFloat.leb b a = true.
Proof.
  intros Ha Hb. rewrite FloatAxioms.ltb_spec, FloatAxioms.leb_spec.
  apply SFnot_ltb_leb; by apply not_nan_spec.
Qed.

Lemma float_leb_refl (a : float) :
  PrimFloat.is_nan a = false -> PrimFloat.leb a a = true.
Proof. intros Ha. rewrite FloatAxioms.leb_spec. by apply SFleb_refl, not_nan_spec. Qed.

End FloatOrder.

(** ** The rankings are ordered *)

Lemma sorted_by_sent_desc (all_proc : list ProcDoc) :
  Forall (fun d => PrimFloat.is_nan (sentiment_score d) = false) all_proc ->
  StronglySorted
    (fun a b => PrimFloat.leb (sentiment_score b) (sentiment_score a) = true)
    (sorted_by_sent all_proc).
Proof.
  intros H.
  apply (stable_sort_desc sentiment_score PrimFloat.ltb
           (fun a b => PrimFloat.leb a b = true)
           (fun s => PrimFloat.is_nan s = false)); try done.
  - apply float_leb_trans.
  - apply float_ltb_leb.
  - apply float_not_ltb_leb.
Qed.

Lemma StronglySorted_skipn {A} (R : A -> A -> Prop) (n : nat) (l : list A) :
  StronglySorted R l -> StronglySorted R (skipn n l).
Proof.
  intros H. revert n. induction H as [|x l Hl IH Hx]; intros [|n]; simpl.
  - constructor.
  - constructor.
  - by constructor.
  - apply IH.
Qed.

Lemma StronglySorted_map {A B} (f : A -> B) (R : B -> B -> Prop) (l : list A) :
  StronglySorted (fun a b => R (f a) (f b)) l -> StronglySorted R (map f l).
Proof.
  induction 1 as [|x l Hl IH Hx]; simpl; constructor; [done|].
  rewrite Forall_forall in Hx. apply Forall_forall.
  intros y (a & -> & Ha)%list_elem_of_fmap. by apply Hx.
Qed.

Lemma last_skipn {A} (n : nat) (l : list A) :
  (n < length l)%nat -> last (skipn n l) = last l.
Proof.
  revert n. induction l as [|x l IH]; intros n Hn; [simpl in Hn; lia|].
  destruct n as [|n]; [done|]. simpl in Hn. simpl skipn.
  rewrite IH by lia. destruct l; [simpl in Hn; lia|done].
Qed.

Lemma sorted_head_bounds {A} (R : A -> A -> Prop) (l : list A) (x a : A) :
  StronglySorted R l -> head l = Some x -> a ∈ l -> a = x \/ R x a.
Proof.
  intros H Hx Ha. destruct H as [|y l Hl Hy]; [done|].
  simpl in Hx. injection Hx as ->. apply elem_of_cons in Ha as [->|Ha].
  - by left.
  - right. rewrite Forall_forall in Hy. by apply Hy.
Qed.

Lemma sorted_last_bounds {A} (R : A -> A -> Prop) (l : list A) (z a : A) :
  StronglySorted R l -> last l = Some z -> a ∈ l -> a = z \/ R a z.
Proof.
  intros H. induction H as [|y l Hl IH Hy]; intros Hz Ha; [done|].
  destruct l as [|y' l].
  - simpl in Hz. injection Hz as ->. apply list_elem_of_singleton in Ha. by left.
  - change (last (y :: y' :: l)) with (last (y' :: l)) in Hz.
    apply elem_of_cons in Ha as [->|Ha]; [|by apply IH].
    right. rewrite Forall_forall in Hy. apply Hy.
    apply last_Some_elem_of in Hz. done.
Qed.

(** X11. For a batch whose scores are numbers (none is NaN), both rankings
    of the snapshot are in descending order of score, the first entry of
    [top_positive] has the highest score of the batch and the last entry of
    [top_negative] the lowest; and with ten documents or more no score of
    [top_negative] exceeds a score of [top_positive]. *)
Theorem rankings_are_ordered (generated : string) (all_proc : list ProcDoc) :
  Forall (fun d => PrimFloat.is_nan (sentiment_score d) = false) all_proc ->
  StronglySorted
    (fun a b => PrimFloat.leb (entry_score b) (entry_score a) = true)
    (top_positive (compute_insights generated all_proc)) /\
  StronglySorted
    (fun a b => PrimFloat.leb (entry_score b) (entry_score a) = true)
    (top_negative (compute_insights generated all_proc)) /\
  (forall e d, head (top_positive (compute_insights generated all_proc)) = Some e ->
     d ∈ all_proc ->
     PrimFloat.leb (sentiment_score d) (entry_score e) = true) /\
  (forall e d, last (top_negative (compute_insights generated all_proc)) = Some e ->
     d ∈ all_proc ->
     PrimFloat.leb (entry_score e) (sentiment_score d) = true) /\
  ((10 <= length all_proc)%nat ->
   forall e f, e ∈ top_positive (compute_insights generated all_proc) ->
     f ∈ top_negative (compute_insights generated all_proc) ->
     PrimFloat.leb (entry_score f) (entry_score e) = true).
Proof.
  intros Hgood.
  pose proof (sorted_by_sent_desc all_proc Hgood) as Hsorted.
  pose proof (sorted_by_sent_perm all_proc) as Hperm.
  assert (Hgood' : forall d, d ∈ sorted_by_sent all_proc ->
            PrimFloat.is_nan (sentiment_score d) = false).
  { intros d Hd. rewrite Hperm in Hd. rewrite Forall_forall in Hgood. auto. }
  unfold compute_insights. cbn [top_positive top_negative].
  split; [|split; [|split; [|split]]].
  - apply StronglySorted_map. by apply StronglySorted_firstn.
  - apply StronglySorted_map. by apply StronglySorted_skipn.
  - intros e d He Hd.
    destruct (sorted_by_sent all_proc) as [|x l] eqn:El; [done|].
    simpl in He. injection He as <-. simpl.
    rewrite <- Hperm in Hd.
    destruct (sorted_head_bounds _ _ x d Hsorted eq_refl Hd) as [->|H]; [|done].
    apply float_leb_refl, Hgood'. by left.
  - intros e d He Hd. unfold last5 in He.
    rewrite <- Hperm in Hd.
    assert (Hlast : exists z, last (sorted_by_sent all_proc) = Some z /\ e = entry_of z).
    { rewrite fmap_last in He. rewrite last_skipn in He.
      - destruct (last (sorted_by_sent all_proc)) as [z|]; [|done].
        injection He as <-. eauto.
      - destruct (sorted_by_sent all_proc); [by apply elem_of_nil in Hd|].
        simpl. lia. }
    destruct Hlast as (z & Hz & ->). simpl.
    destruct (sorted_last_bounds _ _ z d Hsorted Hz Hd) as [->|H]; [|done].
    apply float_leb_refl, Hgood'. by apply last_Some_elem_of.
  - intros Hten e f (a & -> & Ha)%list_elem_of_fmap (b & -> & Hb)%list_elem_of_fmap.
    simpl. unfold last5 in Hb.
    apply (sorted_take_drop _ 5 (sorted_by_sent all_proc) a b Hsorted Ha).
    assert (Hlen : (5 <= length (sorted_by_sent all_proc) - 5)%nat).
    { rewrite (Permutation_length Hperm). lia. }
    revert Hb. generalize (length (sorted_by_sent all_proc) - 5)%nat Hlen.
    intros k Hk Hb.
    replace k with (5 + (k - 5))%nat in Hb by lia.
    rewrite <- drop_drop in Hb. by apply subseteq_drop in Hb.
Qed.

(** * Further properties of the scraper *)

Import Scraper.

Lemma py_int_not_store_error v e : py_int v = Raise e -> e <> PyMongoError.
Proof.
  destruct v as [| b | z | f | s | d]; simpl; try discriminate;
    try (intros [= <-]; discriminate).
  - unfold float_trunc. destruct (Prim2SF f); try discriminate;
      intros [= <-]; discriminate.
  - destruct (parse_int s); try discriminate. intros [= <-]; discriminate.
Qed.

Lemma scraped_not_store_error id_name p now_ms e :
  scraped id_name p now_ms = Raise e -> e <> PyMongoError.
Proof.
  unfold scraped, py_dict.
  destruct p as [| b | z | f | s | d]; simpl; try (intros [= <-]; discriminate).
  - destruct (String.eqb s ""); simpl; try (intros [= <-]; discriminate).
  - destruct (py_int (py_get_default d "id" (PInt 0))) eqn:E; simpl;
      try discriminate.
    intros [= <-]. eapply py_int_not_store_error, E.
Qed.

Lemma scraped_body id_name p now_ms doc :
  scraped id_name p now_ms = Ok doc ->
  exists d pid,
    py_dict p = Ok d /\
    py_int (py_get_default d "id" (PInt 0)) = Ok pid /\
    doc_id doc = id_name <$> d !! "_id" /\
    doc_ingested_at doc = now_ms /\
    doc_body doc = <["raw_payload" := p]>
                     (<["product_id" := PInt pid]>
                        (delete "ingested_at" (delete "_id" d))).
Proof.
  unfold scraped. destruct (py_dict p) as [d|] eqn:Ed; simpl; try discriminate.
  destruct (py_int (py_get_default d "id" (PInt 0))) as [pid|] eqn:Ep; simpl;
    try discriminate.
  intros [= <-]. exists d, pid. simpl. auto.
Qed.

Lemma scraped_lookup id_name p now_ms doc k :
  scraped id_name p now_ms = Ok doc ->
  k <> "raw_payload" -> k <> "product_id" -> k <> "ingested_at" -> k <> "_id" ->
  exists d, py_dict p = Ok d /\ doc_body doc !! k = d !! k.
Proof.
  intros H k1 k2 k3 k4.
  destruct (scraped_body _ _ _ _ H) as (d & pid & Hd & _ & _ & _ & ->).
  exists d. split; [exact Hd|].
  rewrite !lookup_insert_ne, !lookup_delete_ne by congruence. reflexivity.
Qed.

Lemma scraped_product_id id_name p now_ms doc :
  scraped id_name p now_ms = Ok doc ->
  doc_body doc !! "product_id" = Some (PInt (doc_product_id doc)).
Proof.
  intros H. destruct (scraped_body _ _ _ _ H) as (d & pid & _ & _ & _ & _ & Hb).
  unfold doc_product_id. rewrite Hb.
  rewrite lookup_insert_ne by discriminate. rewrite lookup_insert_eq.
  reflexivity.
Qed.

(** X12: the identifier the scraper stores is the one the processor and the
    daily report read back: for every document built from a payload,
    [product_id] holds [int(payload.get('id', 0))], the processor's
    [int(doc.get('product_id') or doc.get('id') or 0)] and the report's
    [int(d.get('product_id') or 0)] give that integer, and the filter
    [{'product_id': pid}] of the upsert selects the document. *)
Theorem scraped_id_is_read_back id_name p now_ms doc oid :
  scraped id_name p now_ms = Ok doc ->
  exists d pid,
    py_dict p = Ok d /\
    py_int (py_get_default d "id" (PInt 0)) = Ok pid /\
    doc_product_id doc = pid /\
    doc_pid (fields (to_raw oid doc)) = Ok pid /\
    mention_of (to_raw oid doc) = Ok pid /\
    matches_pid pid (to_raw oid doc) = true.
Proof.
  intros H.
  pose proof (scraped_product_id _ _ _ _ H) as Hp.
  destruct (scraped_lookup _ _ _ _ "id" H) as (d' & Hd' & Hid); try discriminate.
  destruct (scraped_body _ _ _ _ H) as (d & pid & Hd & Hpid & _ & _ & Hb).
  assert (d' = d) by congruence. subst d'.
  assert (Hq : doc_product_id doc = pid).
  { unfold doc_product_id. rewrite Hb.
    rewrite lookup_insert_ne by discriminate. rewrite lookup_insert_eq.
    reflexivity. }
  exists d, pid. rewrite Hq in Hp.
  split; [exact Hd|]. split; [exact Hpid|]. split; [exact Hq|].
  unfold doc_pid, mention_of, matches_pid, py_get. simpl fields.
  rewrite Hp, Hid. simpl.
  unfold py_or at 2. unfold py_or at 2. simpl truthy.
  destruct (Z.eqb_spec pid 0) as [->|Hne]; simpl.
  - split; [|split; [reflexivity | reflexivity]].
    unfold py_get_default in Hpid. unfold py_or.
    destruct (d !! "id") as [v|]; simpl in *.
    + destruct (truthy v); [exact Hpid | reflexivity].
    + reflexivity.
  - unfold py_or. simpl. rewrite Z.eqb_refl.
    destruct (Z.eqb_spec pid 0); [contradiction|]. simpl. auto.
Qed.

Lemma set_onto_ok doc d d' :
  set_onto doc d = Ok d' ->
  _id d' = _id d /\ ingested_at d' = doc_ingested_at doc /\
  fields d' = doc_body doc ∪ fields d.
Proof.
  unfold set_onto. destruct (doc_id doc) as [oid|].
  - destruct (oid =? _id d); try discriminate. intros [= <-]. auto.
  - intros [= <-]. auto.
Qed.

Lemma update_first_none pid doc raw :
  update_first pid doc raw = None <-> existsb (matches_pid pid) raw = false.
Proof.
  induction raw as [|d raw IH]; simpl; [tauto|].
  destruct (matches_pid pid d); simpl.
  - split; discriminate.
  - rewrite <- IH. destruct (update_first pid doc raw) as [[?|?]|];
      split; congruence.
Qed.

Lemma update_first_ok pid doc raw raw' :
  doc_body doc !! "processed" = None ->
  (forall d, d ∈ raw -> matches_pid pid d = true -> unprocessed d = false) ->
  update_first pid doc raw = Some (Ok raw') ->
  map _id raw' = map _id raw /\
  List.filter unprocessed raw' = List.filter unprocessed raw.
Proof.
  intros Hb. revert raw'.
  induction raw as [|d raw IH]; intros raw' Hc; simpl; try discriminate.
  destruct (matches_pid pid d) eqn:Em.
  - destruct (set_onto doc d) as [d'|] eqn:Es; try discriminate.
    intros [= <-]. apply set_onto_ok in Es. destruct Es as (Hi & _ & Hf).
    simpl. rewrite Hi. split; [reflexivity|].
    assert (Hu : unprocessed d = false) by (apply Hc; [left | exact Em]).
    assert (Hu' : unprocessed d' = false).
    { unfold unprocessed in *. rewrite Hf.
      rewrite lookup_union_r by exact Hb. exact Hu. }
    rewrite Hu, Hu'. reflexivity.
  - destruct (update_first pid doc raw) as [[raw''|]|] eqn:Eu; try discriminate.
    intros [= <-]. destruct (IH raw'') as [Hi Hf]; [|reflexivity|].
    { intros x Hx. apply Hc. right. exact Hx. }
    simpl. rewrite Hi, Hf. auto.
Qed.

(** X13: under the [upsert] strategy a product that was consumed stays
    consumed when it is scraped again: if the payload has no [processed]
    key and the stored documents of its product are all consumed (there is
    one), a successful [store_product] keeps the [_id]s of the collection
    and leaves the processor's next batch as it was. *)
Theorem upsert_hides_rescrapes id_name c p doc raw raw' :
  scraped id_name p (call_now c) = Ok doc ->
  payload_lacks "processed" p ->
  (exists d, d ∈ raw /\ matches_pid (doc_product_id doc) d = true) ->
  (forall d, d ∈ raw -> matches_pid (doc_product_id doc) d = true ->
             unprocessed d = false) ->
  store_product id_name "upsert" c p raw = Ok raw' ->
  map _id raw' = map _id raw /\ select_batch raw' = select_batch raw.
Proof.
  intros Hs Hl (d0 & Hin & Hm) Hc.
  unfold store_product. rewrite Hs. simpl.
  unfold update_one. destruct (update_fails c); try discriminate.
  destruct (update_first (doc_product_id doc) doc raw) as [r|] eqn:Eu.
  - intros ->.
    destruct (scraped_lookup _ _ _ _ "processed" Hs) as (d & Hd & Hk);
      try discriminate.
    assert (Hb : doc_body doc !! "processed" = None).
    { rewrite Hk. unfold py_dict in Hd.
      destruct p as [| | | | s | dd]; try discriminate.
      - destruct (String.eqb s ""); try discriminate.
        injection Hd as <-. apply lookup_empty.
      - injection Hd as <-. apply Hl. reflexivity. }
    destruct (update_first_ok _ _ _ _ Hb Hc Eu) as [Hi Hf].
    split; [exact Hi|]. unfold select_batch. rewrite Hf. reflexivity.
  - apply update_first_none in Eu.
    assert (existsb (matches_pid (doc_product_id doc)) raw = true) as Ht.
    { apply existsb_exists. exists d0. split; [|exact Hm].
      apply list_elem_of_In. exact Hin. }
    congruence.
Qed.

Lemma insert_as_fresh oid doc raw :
  oid ∉ map _id raw -> insert_as oid doc raw = Ok (raw ++ [to_raw oid doc]).
Proof.
  intros Hf. unfold insert_as.
  destruct (existsb (fun d => _id d =? oid) raw) eqn:E; [|reflexivity].
  exfalso. apply existsb_exists in E. destruct E as (d & Hin & He).
  apply Hf. apply Z.eqb_eq in He. subst oid.
  apply list_elem_of_fmap. exists d. split; [reflexivity|].
  apply list_elem_of_In. exact Hin.
Qed.

Lemma store_product_inserts id_name strategy c d pid raw :
  strategy <> "upsert" ->
  insert_fails c = None ->
  d !! "_id" = None ->
  py_int (py_get_default d "id" (PInt 0)) = Ok pid ->
  call_new_id c ∉ map _id raw ->
  exists x,
    store_product id_name strategy c (PDict d) raw = Ok (raw ++ [x]) /\
    _id x = call_new_id c /\ ingested_at x = call_now c /\
    fields x !! "raw_payload" = Some (PDict d) /\
    fields x !! "product_id" = Some (PInt pid).
Proof.
  intros Hs Hi Hd Hp Hf.
  unfold store_product, scraped. simpl. rewrite Hp. simpl.
  destruct (String.eqb_spec strategy "upsert") as [|_]; [contradiction|].
  unfold insert_one. rewrite Hi, Hd. simpl.
  rewrite insert_as_fresh by exact Hf.
  eexists. split; [reflexivity|]. simpl.
  rewrite lookup_insert_eq. rewrite lookup_insert_ne by discriminate.
  rewrite lookup_insert_eq. auto.
Qed.

Lemma store_all_inserts id_name strategy calls items :
  strategy <> "upsert" ->
  (forall k, insert_fails (calls k) = None) ->
  Forall plain_item items ->
  forall k raw,
    NoDup (map _id raw ++
           map (fun i => call_new_id (calls i)) (seq k (length items))) ->
    exists new,
      store_all id_name strategy calls k items raw = (Ok tt, raw ++ new) /\
      Forall2 (fun p x => fields x !! "raw_payload" = Some p) items new /\
      map _id new = map (fun i => call_new_id (calls i)) (seq k (length items)) /\
      map ingested_at new = map (fun i => call_now (calls i)) (seq k (length items)).
Proof.
  intros Hs Hi. induction 1 as [|p items (d & pid & -> & Hd & Hp & _ & _) _ IH];
    intros k raw Hn.
  - exists []. rewrite app_nil_r. simpl. auto.
  - simpl in Hn. apply NoDup_app in Hn. destruct Hn as (Hn1 & Hn2 & Hn3).
    destruct (store_product_inserts id_name strategy (calls k) d pid raw)
      as (x & Hx & Hx1 & Hx2 & Hx3 & _); auto.
    { intros Hin. apply (Hn2 _ Hin). left. }
    simpl. rewrite Hx.
    destruct (IH (S k) (raw ++ [x])) as (new & Hnew & Hf & Hids & Hts).
    { rewrite map_app. simpl. rewrite Hx1.
      apply NoDup_app. split; [|split].
      - apply NoDup_app. split; [exact Hn1|]. split.
        + intros y Hy Hy'. apply list_elem_of_singleton in Hy'. subst y.
          apply (Hn2 _ Hy). left.
        + apply NoDup_singleton.
      - intros y Hy Hy'. apply elem_of_app in Hy. destruct Hy as [Hy|Hy].
        + apply (Hn2 _ Hy). right. exact Hy'.
        + apply list_elem_of_singleton in Hy. subst y.
          apply NoDup_cons in Hn3. destruct Hn3 as [Hn3 _]. exact (Hn3 Hy').
      - apply NoDup_cons in Hn3. tauto. }
    exists (x :: new). rewrite Hnew, <- app_assoc. simpl.
    split; [reflexivity|]. split; [constructor; auto|].
    rewrite Hx1, Hx2, Hids, Hts. auto.
Qed.

(** X14: under the [insert] strategy the collection keeps its history: when
    the insertions go through, the items are JSON objects without ["_id"]
    whose ["id"] converts and whose integers are of 64 bits, and the
    generated [ObjectId]s are new, a run of
    [fetch_and_store] leaves every stored document as it was and appends one
    document per item, in the order of the response, each with the payload
    under [raw_payload] and the time of its call as [ingested_at]; it logs
    the number of items. *)
Theorem insert_strategy_keeps_history id_name strategy calls items raw :
  strategy <> "upsert" ->
  (forall k, insert_fails (calls k) = None) ->
  Forall plain_item items ->
  NoDup (map _id raw ++
         map (fun i => call_new_id (calls i)) (seq 0 (length items))) ->
  exists new,
    fetch_and_store id_name strategy calls (Body (Some items)) raw
    = (Returned, raw ++ new, [LogStored (length items)]) /\
    Forall2 (fun p x => fields x !! "raw_payload" = Some p) items new /\
    map _id new = map (fun i => call_new_id (calls i)) (seq 0 (length items)) /\
    map ingested_at new
    = map (fun i => call_now (calls i)) (seq 0 (length items)).
Proof.
  intros Hs Hi Hp Hn.
  destruct (store_all_inserts id_name strategy calls items Hs Hi Hp 0%nat raw Hn)
    as (new & Hnew & Hf & Hids & Hts).
  exists new. unfold fetch_and_store. rewrite Hnew. auto.
Qed.

Lemma store_all_app id_name strategy calls pre post :
  forall k raw,
    store_all id_name strategy calls k (pre ++ post) raw
    = match store_all id_name strategy calls k pre raw with
      | (Ok _, raw1) =>
          store_all id_name strategy calls (k + length pre) post raw1
      | r => r
      end.
Proof.
  induction pre as [|p pre IH]; intros k raw; simpl.
  - rewrite Nat.add_0_r. reflexivity.
  - destruct (store_product id_name strategy (calls k) p raw) as [raw'|e];
      [|reflexivity].
    rewrite IH. replace (S k + length pre)%nat with (k + S (length pre))%nat
      by lia. reflexivity.
Qed.

(** X15: a store error ends the run: when [store_product] raises
    [PyMongoError] at an item, [fetch_and_store] returns after logging the
    error once; the items before it stay stored, the items after it are not
    attempted, and the count of stored products is not logged. *)
Theorem store_error_ends_the_run id_name strategy calls pre p post raw raw1 :
  store_all id_name strategy calls 0 pre raw = (Ok tt, raw1) ->
  store_product id_name strategy (calls (length pre)) p raw1
  = Raise PyMongoError ->
  fetch_and_store id_name strategy calls (Body (Some (pre ++ p :: post))) raw
  = (Returned, raw1, [LogStoreFailed]).
Proof.
  intros Hpre Hp. unfold fetch_and_store.
  rewrite store_all_app, Hpre. simpl. rewrite Hp. reflexivity.
Qed.

(** X16: an item that cannot be made into a document (it is not a JSON
    object, or its ["id"], not a string with a character outside ASCII, does
    not convert to an integer) is not handled: the [TypeError], [ValueError]
    or [OverflowError] leaves [fetch_and_store], which logs nothing; the
    items before it stay stored and the items after it are not attempted. *)
Theorem malformed_item_escapes id_name strategy calls pre p post raw raw1 e :
  store_all id_name strategy calls 0 pre raw = (Ok tt, raw1) ->
  ascii_id p = true ->
  scraped id_name p (call_now (calls (length pre))) = Raise e ->
  fetch_and_store id_name strategy calls (Body (Some (pre ++ p :: post))) raw
  = (Escaped e, raw1, []) /\
  (e = TypeError \/ e = ValueError \/ e = OverflowError).
Proof.
  intros Hpre _ Hp. pose proof (scraped_not_store_error _ _ _ _ Hp) as He.
  unfold fetch_and_store. rewrite store_all_app, Hpre. simpl.
  unfold store_product. rewrite Hp. simpl.
  assert (Hk : e = TypeError \/ e = ValueError \/ e = OverflowError).
  { revert Hp. unfold scraped, py_dict.
    destruct p as [| b | z | f | s | d]; simpl;
      try (intros [= <-]; tauto).
    - destruct (String.eqb s ""); simpl; try (intros [= <-]; tauto);
        try discriminate.
    - destruct (py_get_default d "id" (PInt 0)) as [| b | z | f | s | d'];
        simpl; try discriminate; try (intros [= <-]; tauto).
      + unfold float_trunc. destruct (Prim2SF f); simpl; try discriminate;
          intros [= <-]; tauto.
      + destruct (parse_int s); simpl; try discriminate. intros [= <-]; tauto. }
  split; [|exact Hk]. destruct e; try reflexivity; contradiction.
Qed.

Lemma update_first_foreign_id pid doc oid raw :
  doc_id doc = Some oid -> oid ∉ map _id raw ->
  existsb (matches_pid pid) raw = true ->
  update_first pid doc raw = Some (Raise PyMongoError).
Proof.
  intros Hd. induction raw as [|d raw IH]; simpl; intros Hf He;
    try discriminate.
  destruct (matches_pid pid d).
  - unfold set_onto. rewrite Hd.
    destruct (Z.eqb_spec oid (_id d)) as [->|_]; [|reflexivity].
    exfalso. apply Hf. left.
  - simpl in He. rewrite IH; [reflexivity | | exact He].
    intros Hin. apply Hf. right. exact Hin.
Qed.

(** X17: the fall-back of the [insert] strategy after a failed insertion:
    [insert_one] has given the dict a new ["_id"] before it failed, so the
    [update_one] that follows sets this ["_id"]; when the collection has a
    document of the same product the store refuses to change its
    identifier and [store_product] raises [PyMongoError], and only when it
    has none is the document stored, as a new one. *)
Theorem fallback_cannot_update id_name strategy c p doc raw e :
  strategy <> "upsert" ->
  scraped id_name p (call_now c) = Ok doc ->
  payload_lacks "_id" p ->
  insert_fails c = Some e ->
  update_fails c = None ->
  call_new_id c ∉ map _id raw ->
  store_product id_name strategy c p raw
  = if existsb (matches_pid (doc_product_id doc)) raw
    then Raise PyMongoError
    else Ok (raw ++ [to_raw (call_new_id c) doc]).
Proof.
  intros Hs Hd Hl Hi Hu Hf.
  assert (Hid : doc_id doc = None).
  { destruct (scraped_body _ _ _ _ Hd) as (d & pid & Hp & _ & -> & _).
    unfold py_dict in Hp. destruct p as [| | | | s | dd]; try discriminate.
    - destruct (String.eqb s ""); try discriminate. injection Hp as <-.
      rewrite lookup_empty. reflexivity.
    - injection Hp as <-. rewrite (Hl dd eq_refl). reflexivity. }
  unfold store_product. rewrite Hd. simpl.
  destruct (String.eqb_spec strategy "upsert") as [|_]; [contradiction|].
  unfold insert_one. rewrite Hi, Hid. simpl.
  unfold update_one. rewrite Hu.
  change (doc_product_id
            {| doc_id := Some (call_new_id c);
               doc_ingested_at := doc_ingested_at doc;
               doc_body := doc_body doc |}) with (doc_product_id doc).
  destruct (existsb (matches_pid (doc_product_id doc)) raw) eqn:Ee.
  - rewrite (update_first_foreign_id _ _ (call_new_id c) raw); auto.
  - rewrite (proj2 (update_first_none (doc_product_id doc)
                      {| doc_id := Some (call_new_id c);
                         doc_ingested_at := doc_ingested_at doc;
                         doc_body := doc_body doc |} raw) Ee). simpl.
    rewrite insert_as_fresh by exact Hf. reflexivity.
Qed.

(** * Sample runs of the further properties *)

Lemma converts_Ok {A} (r : result A) : converts r = true -> exists a, r = Ok a.
Proof. destruct r; [eauto|discriminate]. Qed.

Lemma transformableb_sound ps fs (l : list RawDoc) :
  forallb (transformableb ps fs) l = true -> Forall (transformable ps fs) l.
Proof.
  intros H. apply Forall_forall. intros d Hd.
  rewrite forallb_forall in H. specialize (H d).
  rewrite <- list_elem_of_In in H. specialize (H Hd).
  unfold transformableb in H.
  apply andb_prop in H as [H H5]. apply andb_prop in H as [H H4].
  apply andb_prop in H as [H H3]. apply andb_prop in H as [H H2].
  apply andb_prop in H as [H1 Hfit].
  apply converts_Ok in H1 as [pid H1]. apply converts_Ok in H2 as [sl H2].
  apply converts_Ok in H3 as [price_ H3]. apply converts_Ok in H4 as [rate H4].
  apply converts_Ok in H5 as [count H5].
  rewrite H1 in Hfit.
  exists pid, sl, price_, rate, count. auto 10.
Qed.

Lemma no_nan_sound (l : list ProcDoc) :
  forallb (fun d => negb (PrimFloat.is_nan (sentiment_score d))) l = true ->
  Forall (fun d => PrimFloat.is_nan (sentiment_score d) = false) l.
Proof.
  intros H. apply Forall_forall. intros d Hd.
  rewrite forallb_forall in H. specialize (H d).
  rewrite <- list_elem_of_In in H. specialize (H Hd).
  by apply negb_true_iff in H.
Qed.

Import Cases.

(** A product scraped again after its first processing is stored over its
    processed document. *)
Lemma one_document_per_product_witness :
  NoDup (map product_id (proc_col rescraped)) /\
  NoDup (map product_id
           (proc_col (run_cycles table_scores no_parse calm 2 rescraped))).
Proof.
  assert (H : NoDup (map product_id (proc_col rescraped)))
    by (apply (bool_decide_unpack _); vm_compute; exact I).
  split; [exact H|].
  exact (proj1 (one_document_per_product table_scores no_parse calm 2
                  rescraped H)).
Defined.

(** The eleven listings are consumed by one calm cycle. *)
Lemma clean_cycle_consumes_batch_witness :
  Forall (transformable table_scores no_parse)
    (select_batch (raw_col (store_of eleven))) /\
  log (process_batch table_scores no_parse calm (store_of eleven))
  = log (store_of eleven)
    ++ [LogProcessed (length (select_batch (raw_col (store_of eleven))))] /\
  select_batch (raw_col (process_batch table_scores no_parse calm
                           (store_of eleven))) = [].
Proof.
  assert (Hf : forall k, store_fails calm k = false)
    by (intros k; reflexivity).
  assert (Hn : NoDup (map _id (raw_col (store_of eleven))))
    by (apply (bool_decide_unpack _); vm_compute; exact I).
  assert (Ht : Forall (transformable table_scores no_parse)
                 (select_batch (raw_col (store_of eleven))))
    by (apply transformableb_sound; vm_compute; reflexivity).
  destruct (clean_cycle_consumes_batch table_scores no_parse calm
              (store_of eleven) Hf Hn Ht) as (_ & _ & _ & Hl & He).
  split; [exact Ht|]. split; [exact Hl|].
  apply He. vm_compute. lia.
Defined.

(** The cycle over the product scraped again replaces the snapshot of the
    first cycle. *)
Lemma snapshot_replaces_latest_witness :
  for_each table_scores no_parse calm (select_batch (raw_col rescraped))
    0%nat [] (push_op OpFind rescraped)
  = (Ok (1%nat, [processed_again]), after_loop) /\
  latest_count (insights_col rescraped) = 1%nat /\
  App.daily_insights
    (insights_col (process_batch table_scores no_parse calm rescraped))
  = Some (compute_insights (isoformat (now calm (clock after_loop)))
            [processed_again]) /\
  latest_count
    (insights_col (process_batch table_scores no_parse calm rescraped))
  = 1%nat.
Proof.
  assert (H0 : store_fails calm (length (ops rescraped)) = false)
    by reflexivity.
  assert (H1 : for_each table_scores no_parse calm
                 (select_batch (raw_col rescraped)) 0%nat []
                 (push_op OpFind rescraped)
               = (Ok (1%nat, [processed_again]), after_loop))
    by (vm_compute; reflexivity).
  assert (H2 : store_fails calm (length (ops after_loop)) = false)
    by reflexivity.
  assert (H3 : latest_count (insights_col rescraped) = 1%nat)
    by (vm_compute; reflexivity).
  destruct (snapshot_replaces_latest table_scores no_parse calm rescraped
              1%nat processed_again [] after_loop H0 H1 H2)
    as (_ & Hd & Hc & _).
  split; [exact H1|]. split; [exact H3|]. split; [exact Hd|].
  rewrite Hc, H3. reflexivity.
Defined.

(** A document with an identifier and nothing else. *)
Lemma missing_fields_default_witness :
  doc_pid (fields bare) = Ok 5 /\
  fst (transform_doc table_scores no_parse calm bare (store_of [bare]))
  = Ok {| product_id := 5;
          title := PNone;
          category := PNone;
          price := 0;
          avg_rating := PNone;
          rating_count := PNone;
          sentiment_score := 0;
          sentiment_label := "neutral";
          last_processed := "2024-01-01T00:00:00+00:00";
          timestamp := 1704067200001 |}.
Proof.
  assert (H1 : fields bare !! "title" = None) by (vm_compute; reflexivity).
  assert (H2 : fields bare !! "description" = None)
    by (vm_compute; reflexivity).
  assert (H3 : fields bare !! "price" = None) by (vm_compute; reflexivity).
  assert (H4 : fields bare !! "rating" = None) by (vm_compute; reflexivity).
  assert (H5 : doc_pid (fields bare) = Ok 5) by (vm_compute; reflexivity).
  assert (H6 : py_float no_parse
                 (py_get_default (table_scores ". ") "compound" (PFloat 0))
               = Ok 0%float) by (vm_compute; reflexivity).
  split; [exact H5|].
  rewrite (missing_fields_default table_scores no_parse calm bare 5 0%float
             (store_of [bare]) H1 H2 H3 H4 H5 H6).
  vm_compute. reflexivity.
Defined.

(** The rankings of the eleven listings. *)
Lemma rankings_are_ordered_witness :
  Forall (fun d => PrimFloat.is_nan (sentiment_score d) = false)
    (proc_col (run calm (store_of eleven))) /\
  StronglySorted
    (fun a b => PrimFloat.leb (entry_score b) (entry_score a) = true)
    (top_positive (compute_insights "2024-01-01T00:00:00+00:00"
                     (proc_col (run calm (store_of eleven))))) /\
  StronglySorted
    (fun a b => PrimFloat.leb (entry_score b) (entry_score a) = true)
    (top_negative (compute_insights "2024-01-01T00:00:00+00:00"
                     (proc_col (run calm (store_of eleven))))).
Proof.
  assert (H : Forall (fun d => PrimFloat.is_nan (sentiment_score d) = false)
                (proc_col (run calm (store_of eleven))))
    by (apply no_nan_sound; vm_compute; reflexivity).
  destruct (rankings_are_ordered "2024-01-01T00:00:00+00:00"
              (proc_col (run calm (store_of eleven))) H) as (H1 & H2 & _).
  split; [exact H|]. split; [exact H1|exact H2].
Defined.

(** Product 4 as the source API gives it. *)
Lemma scraped_id_is_read_back_witness :
  Scraper.scraped no_names (payload 4 "p04") 5000
  = Ok (payload_doc 4 "p04" 5000) /\
  doc_pid (fields (Scraper.to_raw 100 (payload_doc 4 "p04" 5000))) = Ok 4 /\
  mention_of (Scraper.to_raw 100 (payload_doc 4 "p04" 5000)) = Ok 4.
Proof.
  assert (H : Scraper.scraped no_names (payload 4 "p04") 5000
              = Ok (payload_doc 4 "p04" 5000)) by (vm_compute; reflexivity).
  destruct (scraped_id_is_read_back no_names (payload 4 "p04") 5000
              (payload_doc 4 "p04" 5000) 100 H)
    as (d & pid & _ & _ & Hq & H1 & H2 & _).
  split; [exact H|].
  rewrite <- Hq in H1, H2. split; [exact H1|exact H2].
Defined.

(** Product 4 scraped again under the [upsert] strategy after it was
    consumed. *)
Lemma upsert_hides_rescrapes_witness :
  Scraper.store_product no_names "upsert" (steady 0) (payload 4 "p04") [consumed]
  = Ok [consumed_again] /\
  map _id [consumed_again] = map _id [consumed] /\
  select_batch [consumed_again] = select_batch [consumed].
Proof.
  assert (H1 : Scraper.scraped no_names (payload 4 "p04")
                 (Scraper.call_now (steady 0))
               = Ok (payload_doc 4 "p04" 5000)) by (vm_compute; reflexivity).
  assert (H2 : Scraper.payload_lacks "processed" (payload 4 "p04")).
  { intros d Hd. unfold payload in Hd. injection Hd as <-.
    vm_compute. reflexivity. }
  assert (H3 : exists d, d ∈ [consumed] /\
                 Scraper.matches_pid
                   (Scraper.doc_product_id (payload_doc 4 "p04" 5000)) d = true).
  { exists consumed. split; [left | vm_compute; reflexivity]. }
  assert (H4 : forall d, d ∈ [consumed] ->
                 Scraper.matches_pid
                   (Scraper.doc_product_id (payload_doc 4 "p04" 5000)) d = true ->
                 unprocessed d = false).
  { intros d Hd _. apply list_elem_of_singleton in Hd. subst d.
    vm_compute. reflexivity. }
  assert (H5 : Scraper.store_product no_names "upsert" (steady 0)
                 (payload 4 "p04") [consumed] = Ok [consumed_again])
    by (vm_compute; reflexivity).
  split; [exact H5|].
  exact (upsert_hides_rescrapes no_names (steady 0) (payload 4 "p04")
           (payload_doc 4 "p04" 5000) [consumed] [consumed_again]
           H1 H2 H3 H4 H5).
Defined.

(** The same product scraped twice under the [insert] strategy. *)
Lemma insert_strategy_keeps_history_witness :
  exists new,
    Scraper.fetch_and_store no_names "insert" steady
      (Scraper.Body (Some [payload 1 "p01"; payload 1 "p01"])) [consumed]
    = (Scraper.Returned, [consumed] ++ new, [Scraper.LogStored 2]) /\
    map _id new = [100; 101] /\
    map ingested_at new = [5000; 5001].
Proof.
  assert (H1 : "insert" <> "upsert") by discriminate.
  assert (H2 : forall k, Scraper.insert_fails (steady k) = None)
    by (intros k; reflexivity).
  assert (Hp : Scraper.plain_item (payload 1 "p01")).
  { exists (list_to_map [("id", PInt 1); ("title", PStr "p01");
                         ("price", PFloat 9.5%float)]), 1.
    split; [reflexivity|]. repeat split; vm_compute; reflexivity. }
  assert (H3 : Forall Scraper.plain_item [payload 1 "p01"; payload 1 "p01"]).
  { constructor; [exact Hp|]. constructor; [exact Hp|]. constructor. }
  assert (H4 : NoDup (map _id [consumed] ++
                      map (fun i => Scraper.call_new_id (steady i))
                        (seq 0 (length [payload 1 "p01"; payload 1 "p01"]))))
    by (apply (bool_decide_unpack _); vm_compute; exact I).
  destruct (insert_strategy_keeps_history no_names "insert" steady
              [payload 1 "p01"; payload 1 "p01"] [consumed] H1 H2 H3 H4)
    as (new & Hn & _ & Hi & Ht).
  exists new. split; [exact Hn|]. split; [exact Hi|exact Ht].
Defined.

(** The store is lost at the second of three products. *)
Lemma store_error_ends_the_run_witness :
  Scraper.store_product no_names "upsert" (update_down_at 1 1)
    (payload 2 "p02") [Scraper.to_raw 100 (payload_doc 1 "p01" 5000)]
  = Raise PyMongoError /\
  Scraper.fetch_and_store no_names "upsert" (update_down_at 1)
    (Scraper.Body (Some ([payload 1 "p01"] ++
                         payload 2 "p02" :: [payload 3 "p03"]))) []
  = (Scraper.Returned, [Scraper.to_raw 100 (payload_doc 1 "p01" 5000)],
     [Scraper.LogStoreFailed]).
Proof.
  assert (H1 : Scraper.store_all no_names "upsert" (update_down_at 1) 0
                 [payload 1 "p01"] []
               = (Ok tt, [Scraper.to_raw 100 (payload_doc 1 "p01" 5000)]))
    by (vm_compute; reflexivity).
  assert (H2 : Scraper.store_product no_names "upsert"
                 (update_down_at 1 (length [payload 1 "p01"]))
                 (payload 2 "p02")
                 [Scraper.to_raw 100 (payload_doc 1 "p01" 5000)]
               = Raise PyMongoError) by (vm_compute; reflexivity).
  split; [exact H2|].
  exact (store_error_ends_the_run no_names "upsert" (update_down_at 1)
           [payload 1 "p01"] (payload 2 "p02") [payload 3 "p03"] []
           [Scraper.to_raw 100 (payload_doc 1 "p01" 5000)] H1 H2).
Defined.

(** The second of three products has a word as identifier. *)
Lemma malformed_item_escapes_witness :
  Scraper.scraped no_names word_payload 5001 = Raise ValueError /\
  Scraper.fetch_and_store no_names "insert" steady
    (Scraper.Body (Some ([payload 1 "p01"] ++
                         word_payload :: [payload 3 "p03"]))) []
  = (Scraper.Escaped ValueError,
     [Scraper.to_raw 100 (payload_doc 1 "p01" 5000)], []).
Proof.
  assert (H1 : Scraper.store_all no_names "insert" steady 0
                 [payload 1 "p01"] []
               = (Ok tt, [Scraper.to_raw 100 (payload_doc 1 "p01" 5000)]))
    by (vm_compute; reflexivity).
  assert (H2 : Scraper.scraped no_names word_payload
                 (Scraper.call_now (steady (length [payload 1 "p01"])))
               = Raise ValueError) by (vm_compute; reflexivity).
  assert (Ha : Scraper.ascii_id word_payload = true)
    by (vm_compute; reflexivity).
  split; [exact H2|].
  exact (proj1 (malformed_item_escapes no_names "insert" steady
                  [payload 1 "p01"] word_payload [payload 3 "p03"] []
                  [Scraper.to_raw 100 (payload_doc 1 "p01" 5000)] ValueError
                  H1 Ha H2)).
Defined.

(** The insertion of product 4 fails while the collection has a document of
    that product. *)
Lemma fallback_cannot_update_witness :
  Scraper.store_product no_names "insert" insert_down (payload 4 "p04")
    [consumed]
  = Raise PyMongoError.
Proof.
  assert (H1 : "insert" <> "upsert") by discriminate.
  assert (H2 : Scraper.scraped no_names (payload 4 "p04")
                 (Scraper.call_now insert_down)
               = Ok (payload_doc 4 "p04" 5000)) by (vm_compute; reflexivity).
  assert (H3 : Scraper.payload_lacks "_id" (payload 4 "p04")).
  { intros d Hd. unfold payload in Hd. injection Hd as <-.
    vm_compute. reflexivity. }
  assert (H4 : Scraper.insert_fails insert_down = Some PyMongoError)
    by reflexivity.
  assert (H5 : Scraper.update_fails insert_down = None) by reflexivity.
  assert (H6 : Scraper.call_new_id insert_down ∉ map _id [consumed])
    by (apply (bool_decide_unpack _); vm_compute; exact I).
  rewrite (fallback_cannot_update no_names "insert" insert_down
             (payload 4 "p04") (payload_doc 4 "p04" 5000) [consumed]
             PyMongoError H1 H2 H3 H4 H5 H6).
  vm_compute. reflexivity.
Defined.

(** Without a document of the product the fall-back stores the scraped
    document as a new one. *)
Example fallback_stores_new_product :
  Scraper.store_product no_names "insert" insert_down (payload 1 "p01")
    [consumed]
  = Ok [consumed; Scraper.to_raw 100 (payload_doc 1 "p01" 5000)].
Proof. vm_compute. reflexivity. Qed.

(** A [rating] that is [None] makes the transformation raise. *)
Example rating_none_raises :
  fst (transform_doc table_scores no_parse calm
         (raw_doc 6 1006 [("product_id", PInt 6); ("rating", PNone)])
         (store_of []))
  = Raise AttributeError.
Proof. vm_compute. reflexivity. Qed.

(** Three documents of two products in the last day. *)
Example daily_report_of_three :
  App.api_daily 0 true [listing 1 "p01"; listing 2 "p02"; listing 1 "p01"] []
  = App.RespOk {| App.total_posts := 3;
                  App.top_mentions := [(1, 2%nat); (2, 1%nat)];
                  App.insights := None |}.
Proof. vm_compute. reflexivity. Qed.

(** The two latest of three raw documents, and a limit that is a word. *)
Example latest_two_of_three :
  Reads.api_latest 101 (Some "2") true
    [listing 1 "p01"; listing 3 "p03"; listing 2 "p02"]
  = Reads.RespOk (map Reads.project_raw [listing 3 "p03"; listing 2 "p02"]) /\
  Reads.api_latest 101 (Some "two") true
    [listing 1 "p01"; listing 3 "p03"; listing 2 "p02"]
  = Reads.RespError.
Proof. split; vm_compute; reflexivity. Qed.

(** [int] does not strip the separators 28 to 31 of ASCII, and reads at most
    4300 digits. *)
Example int_keeps_separators :
  py_int (PStr (String (ascii_of_nat 28) "5")) = Raise ValueError /\
  py_int (PStr (String (ascii_of_nat 11) "5")) = Ok 5.
Proof. split; vm_compute; reflexivity. Qed.

Example int_digit_limit :
  py_int (PStr (string_of_list_ascii (repeat "0"%char 4300))) = Ok 0 /\
  py_int (PStr (string_of_list_ascii (repeat "0"%char 4301))) = Raise ValueError.
Proof. split; vm_compute; reflexivity. Qed.

(** A record whose identifier does not fit 64 bits: the upsert raises
    [OverflowError], nothing is stored, and the cycle ends in the handler. *)
Example oversize_identifier_ends_the_cycle :
  ops (run calm (store_of [raw_doc 1 1001
                             [("product_id", PStr "99999999999999999999");
                              ("title", PStr "p01")]]))
  = [OpFind; OpUpsert 99999999999999999999] /\
  proc_col (run calm (store_of [raw_doc 1 1001
                                  [("product_id", PStr "99999999999999999999");
                                   ("title", PStr "p01")]])) = [] /\
  insights_col (run calm (store_of [raw_doc 1 1001
                                      [("product_id", PStr "99999999999999999999");
                                       ("title", PStr "p01")]])) = [] /\
  log (run calm (store_of [raw_doc 1 1001
                             [("product_id", PStr "99999999999999999999");
                              ("title", PStr "p01")]]))
  = [LogUnexpected OverflowError].
Proof. repeat split; vm_compute; reflexivity. Qed.
